(** * godex: a reader for Dalvik executables

    A shallow embedding of [pack.go] (the reflection-driven unpacker and the
    primitive decoders) and of the DEX reader built on it (header, id
    tables, class data, the disassembler and [Open]), followed by the
    properties checked against it.

    Conventions of the embedding.
    - A Go byte is a [byte]; [u8] gives its value as an integer.
    - Fixed-width unsigned arithmetic is carried out in [Z] with the
      wrap-around written out ([uint16], [uint32], [uint64]).
    - A run-time panic (index or slice out of range, call of a nil function,
      [reflect] misuse) is the [None] of the [option] monad; a Go [error]
      result is a value of type [option error] inside the returned tuple.
    - A slice is a list whose capacity equals its length. *)

From Stdlib Require Import ZArith List String Lia Bool.
From Stdlib.Strings Require Import Byte Ascii.
From Stdlib Require DecimalString HexadecimalString.
Import ListNotations.
Open Scope Z_scope.

(** ** Panics *)

Notation "x <- a ;; k" :=
  (match a with Some x => k | None => None end)
  (at level 61, a at next level, right associativity).
Notation "' p <- a ;; k" :=
  (match a with Some p => k | None => None end)
  (at level 61, p pattern, a at next level, right associativity).

(** ** Bytes, machine integers and slices *)

Definition u8 (b : byte) : Z := Z.of_N (Byte.to_N b).

Definition byte_of_Z (z : Z) : byte :=
  match Byte.of_N (Z.to_N z) with Some b => b | None => x00 end.

Definition uint16 (z : Z) : Z := z mod 2 ^ 16.
Definition uint32 (z : Z) : Z := z mod 2 ^ 32.
Definition uint64 (z : Z) : Z := z mod 2 ^ 64.

Definition len {A} (l : list A) : Z := Z.of_nat (List.length l).

(** [data[i]] *)
Definition index {A} (data : list A) (i : Z) : option A :=
  if i <? 0 then None else nth_error data (Z.to_nat i).

(** [b[lo:]] *)
Definition slice_from {A} (b : list A) (lo : Z) : option (list A) :=
  if (0 <=? lo) && (lo <=? len b) then Some (skipn (Z.to_nat lo) b) else None.

(** [b[lo:hi]] *)
Definition slice {A} (b : list A) (lo hi : Z) : option (list A) :=
  if (0 <=? lo) && (lo <=? hi) && (hi <=? len b)
  then Some (firstn (Z.to_nat (hi - lo)) (skipn (Z.to_nat lo) b))
  else None.

(** [binary.LittleEndian.Uint16], [binary.LittleEndian.Uint32]: both index
    the last byte first and panic on a slice that is too short. *)
Definition LittleEndian_Uint16 (b : list byte) : option Z :=
  match b with
  | b0 :: b1 :: _ => Some (Z.lor (u8 b0) (Z.shiftl (u8 b1) 8))
  | _ => None
  end.

Definition LittleEndian_Uint32 (b : list byte) : option Z :=
  match b with
  | b0 :: b1 :: b2 :: b3 :: _ =>
      Some (Z.lor (Z.lor (Z.lor (u8 b0) (Z.shiftl (u8 b1) 8))
                         (Z.shiftl (u8 b2) 16))
                  (Z.shiftl (u8 b3) 24))
  | _ => None
  end.

(** ** pack.go: the free-standing decoders *)

(** The loop of [uleb128],
    [for ; i < 5 && data[i]&0x80 == 0x80; i++ { value += ... }].
    The counter [n] is [5 - i]: when it reaches zero the test [i < 5] fails
    and [data[i]] is not looked at. The result is the pair [(i, value)] the
    loop ends with. *)
Fixpoint uleb128_for (n : nat) (data : list byte) (i value : Z)
  : option (Z * Z) :=
  match n with
  | O => Some (i, value)
  | S n' =>
      b <- index data i ;;
      if Z.land (u8 b) 0x80 =? 0x80
      then uleb128_for n' data (i + 1)
             (uint32 (value + uint32 (Z.shiftl (Z.land (u8 b) 0x7F) (7 * i))))
      else Some (i, value)
  end.

(** [func uleb128(data []byte) (uint32, uint32)] *)
Definition uleb128 (data : list byte) : option (Z * Z) :=
  '(i, value) <- uleb128_for 5 data 0 0 ;;
  b <- index data i ;;
  let value := uint32 (value + uint32 (Z.shiftl (u8 b) (7 * i))) in
  Some (value, i + 1).

(** [func str(b []byte) (string, uint32)] *)
Definition str (b : list byte) : option (string * Z) :=
  '(length, offset) <- uleb128 b ;;
  let i := uint32 (0 + offset) in
  s <- slice b i (uint32 (i + length)) ;;
  Some (string_of_list_byte s, i).

(** [func _uint(b []byte) (uint64, uint32)] *)
Definition _uint (b : list byte) : option (Z * Z) :=
  s <- slice b 0 4 ;;
  val <- LittleEndian_Uint32 s ;;
  Some (val, 4).

(** [int(x)] for a 64-bit [int]: the two's-complement reading of the low
    64 bits. *)
Definition int (z : Z) : Z := (z + 2 ^ 63) mod 2 ^ 64 - 2 ^ 63.

(** ** pack.go: errors, reflected values and the codec registry *)

(** The values of Go's [error] that the program can produce: those made by
    [errors.New], and the failures of [os.Open] and [ioutil.ReadAll]. *)
Inductive error : Type :=
| errors_New (text : string)
| os_error (op path : string).

Section Pack.

(** The memory in which the target of [Unpack] and the variables captured
    by the closures of the registry live. *)
Context {S : Type}.

(** A [reflect.Value] for an addressable, exported struct field, by kind:
    an unsigned integer of the given width, an array of bytes of the given
    length, or anything else (struct, slice, pointer). *)
Inductive Value : Type :=
| UintValue (bits : Z) (set : Z -> S -> S)
| ArrayValue (length : Z) (set : list byte -> S -> S)
| OtherValue.

(** [val.SetUint(x)]: panics unless the kind is an unsigned integer. *)
Definition SetUint (val : Value) (x : Z) (s : S) : option S :=
  match val with
  | UintValue bits set => Some (set (x mod 2 ^ bits) s)
  | _ => None
  end.

(** [type PackFunc func(data []byte, val reflect.Value) (uint, error)],
    run in the memory [S]. *)
Definition PackFunc : Type :=
  list byte -> Value -> S -> option (S * Z * option error).

(** [var packs = map[string]PackFunc{}] *)
Definition Packs : Type := string -> option PackFunc.

Definition packs_empty : Packs := fun _ => None.

(** [func RegisterPack(name string, fn PackFunc) PackFunc], as its effect
    on the map. *)
Definition RegisterPack (name : string) (fn : PackFunc) (packs : Packs)
  : Packs :=
  fun k => if String.eqb k name then Some fn else packs k.

(** [packs[name](data, val)]: a missing key yields the nil function, and
    calling it panics. *)
Definition call (packs : Packs) (name : string) : PackFunc :=
  fun data val s =>
    match packs name with Some p => p data val s | None => None end.

(** [func unpackUleb128(data []byte, val reflect.Value) (uint, error)] *)
Definition unpackUleb128 : PackFunc := fun data val s =>
  '(i, value) <- uleb128_for 5 data 0 0 ;;
  b <- index data i ;;
  let value := uint32 (value + uint32 (Z.shiftl (u8 b) (7 * i))) in
  let i := i + 1 in
  s <- SetUint val (uint64 value) s ;;
  Some (s, i, None).

(** [func unpackUint(data []byte, val reflect.Value) (uint, error)] *)
Definition unpackUint : PackFunc := fun data val s =>
  d <- slice data 0 4 ;;
  x <- LittleEndian_Uint32 d ;;
  s <- SetUint val (uint64 x) s ;;
  Some (s, 4, None).

(** [func unpackUshort(data []byte, val reflect.Value) (uint, error)] *)
Definition unpackUshort : PackFunc := fun data val s =>
  d <- slice data 0 2 ;;
  x <- LittleEndian_Uint16 d ;;
  s <- SetUint val (uint64 x) s ;;
  Some (s, 2, None).

(** [func unpackByteArray(data []byte, val reflect.Value) (uint, error)] *)
Definition unpackByteArray : PackFunc := fun data val s =>
  match val with
  | ArrayValue length set =>
      d <- slice data 0 length ;;
      Some (set d s, length, None)
  | _ => Some (s, 0, Some (errors_New "Invalid field"))
  end.

(** The registry after the package's variable initialisers have run. *)
Definition packs_init : Packs :=
  RegisterPack "byte" unpackByteArray
    (RegisterPack "ushort" unpackUshort
       (RegisterPack "uint" unpackUint
          (RegisterPack "uleb128" unpackUleb128 packs_empty))).

(** One field of the struct [o] points to, as [Unpack] sees it through
    [reflect]: the value of its [pack] tag and the field itself. *)
Record StructField : Type := { Tag : string; Field_ : Value }.

(** The loop of [Unpack] over the fields from the current one on. *)
Fixpoint Unpack_for (packs : Packs) (b : list byte)
         (fields : list StructField) (offset : Z) (s : S)
  : option (S * Z * option error) :=
  match fields with
  | [] => Some (s, offset, None)
  | f :: fields' =>
      if String.eqb (Tag f) "-" then Unpack_for packs b fields' offset s
      else
        match packs (Tag f) with
        | Some p =>
            data <- slice_from b offset ;;
            '(s, length, _) <- p data (Field_ f) s ;;
            Unpack_for packs b fields' (int (offset + int length)) s
        | None =>
            Some (s, offset, Some (errors_New "Not implemented type "))
        end
  end.

(** [func Unpack(b []byte, o interface{}) (int, error)] *)
Definition Unpack (packs : Packs) (b : list byte) (o : list StructField)
  : S -> option (S * Z * option error) :=
  Unpack_for packs b o 0.

End Pack.

Arguments Value : clear implicits.
Arguments PackFunc : clear implicits.
Arguments Packs : clear implicits.
Arguments StructField : clear implicits.

(** ** The DEX object model *)

(** A [*DEX] back-pointer: nil, or the one [DEX] object that is being
    built (no other [DEX] is reachable while it is parsed). *)
Inductive DEXptr : Type := nil_DEX | this_DEX.

(** [type Header struct] *)
Record Header : Type := {
  Magic : list byte;
  Checksum : Z;
  Signature : list byte;
  FileSize : Z;
  HeaderSize : Z;
  EndianTag : Z;
  LinkSize : Z;
  LinkOff : Z;
  MapOff : Z;
  StringIdsSize : Z;
  StringIdsOffset : Z;
  TypeIdsSize : Z;
  TypeIdsOffset : Z;
  ProtosSize : Z;
  ProtosOffset : Z;
  FieldsSize : Z;
  FieldsOffset : Z;
  MethodIdsSize : Z;
  MethodIdsOffset : Z;
  ClassDefsSize : Z;
  ClassDefsOffset : Z;
  DataSize : Z;
  DataOffset : Z
}.

(** [type TypeId struct] *)
Record TypeId : Type := {
  TypeId_dex : DEXptr;
  DescriptorIdx : Z
}.

(** [type ProtoIdItem struct] *)
Record ProtoIdItem : Type := {
  ProtoIdItem_dex : DEXptr;
  ShortyIdx : Z;
  ReturnTypeIdx : Z;
  ParametersOffset : Z
}.

(** [type FieldIdItem struct] *)
Record FieldIdItem : Type := {
  FieldIdItem_dex : DEXptr;
  FieldIdItem_ClassIdx : Z;
  TypeIdx : Z;
  FieldIdItem_NameIdx : Z
}.

(** [type MethodIdItem struct] *)
Record MethodIdItem : Type := {
  MethodIdItem_dex : DEXptr;
  MethodIdItem_ClassIdx : Z;
  ProtoIdx : Z;
  MethodIdItem_NameIdx : Z
}.

(** [type EncodedValue struct] *)
Record EncodedValue : Type := {
  EncodedValue_dex : DEXptr;
  ValueType : Z;
  Data : list byte
}.

(** [type EncodedField struct] *)
Record EncodedField : Type := {
  EncodedField_dex : DEXptr;
  Field : FieldIdItem;
  FieldIdxDiff : Z;
  EncodedField_AccessFlags : Z
}.

(** [type EncodedMethod struct] *)
Record EncodedMethod : Type := {
  EncodedMethod_dex : DEXptr;
  Method : MethodIdItem;
  MethodIdxDiff : Z;
  EncodedMethod_AccessFlags : Z;
  CodeOffset : Z
}.

(** [type ClassDataItem struct] *)
Record ClassDataItem : Type := {
  StaticFieldSize : Z;
  InstanceFieldSize : Z;
  DirectMethodsSize : Z;
  VirtualMethodsSize : Z;
  StaticFields : list EncodedField;
  InstanceFields : list EncodedField;
  DirectMethods : list EncodedMethod;
  VirtualMethods : list EncodedMethod
}.

(** [type ClassDefItem struct] *)
Record ClassDefItem : Type := {
  ClassDefItem_dex : DEXptr;
  ClassIdx : Z;
  AccessFlags : Z;
  SuperclassIdx : Z;
  InterfacesOffset : Z;
  SourceFileIdx : Z;
  AnnotationsOffset : Z;
  ClassData : ClassDataItem;
  StaticValues : list EncodedValue
}.

(** [type DEX struct] *)
Record DEX : Type := {
  DEX_b : list byte;
  header : Header;
  Strings : list string;
  Types : list TypeId;
  Prototypes : list ProtoIdItem;
  Fields : list FieldIdItem;
  Methods : list MethodIdItem;
  Classes : list ClassDefItem
}.

(** Field updates, [r.f = v]. *)

Definition set_Magic (v : list byte) (r : Header) : Header :=
  {| Magic := v; Checksum := Checksum r; Signature := Signature r;
     FileSize := FileSize r; HeaderSize := HeaderSize r;
     EndianTag := EndianTag r; LinkSize := LinkSize r; LinkOff := LinkOff r;
     MapOff := MapOff r; StringIdsSize := StringIdsSize r;
     StringIdsOffset := StringIdsOffset r; TypeIdsSize := TypeIdsSize r;
     TypeIdsOffset := TypeIdsOffset r; ProtosSize := ProtosSize r;
     ProtosOffset := ProtosOffset r; FieldsSize := FieldsSize r;
     FieldsOffset := FieldsOffset r; MethodIdsSize := MethodIdsSize r;
     MethodIdsOffset := MethodIdsOffset r; ClassDefsSize := ClassDefsSize r;
     ClassDefsOffset := ClassDefsOffset r; DataSize := DataSize r;
     DataOffset := DataOffset r |}.
Definition set_Checksum (v : Z) (r : Header) : Header :=
  {| Magic := Magic r; Checksum := v; Signature := Signature r;
     FileSize := FileSize r; HeaderSize := HeaderSize r;
     EndianTag := EndianTag r; LinkSize := LinkSize r; LinkOff := LinkOff r;
     MapOff := MapOff r; StringIdsSize := StringIdsSize r;
     StringIdsOffset := StringIdsOffset r; TypeIdsSize := TypeIdsSize r;
     TypeIdsOffset := TypeIdsOffset r; ProtosSize := ProtosSize r;
     ProtosOffset := ProtosOffset r; FieldsSize := FieldsSize r;
     FieldsOffset := FieldsOffset r; MethodIdsSize := MethodIdsSize r;
     MethodIdsOffset := MethodIdsOffset r; ClassDefsSize := ClassDefsSize r;
     ClassDefsOffset := ClassDefsOffset r; DataSize := DataSize r;
     DataOffset := DataOffset r |}.
Definition set_Signature (v : list byte) (r : Header) : Header :=
  {| Magic := Magic r; Checksum := Checksum r; Signature := v;
     FileSize := FileSize r; HeaderSize := HeaderSize r;
     EndianTag := EndianTag r; LinkSize := LinkSize r; LinkOff := LinkOff r;
     MapOff := MapOff r; StringIdsSize := StringIdsSize r;
     StringIdsOffset := StringIdsOffset r; TypeIdsSize := TypeIdsSize r;
     TypeIdsOffset := TypeIdsOffset r; ProtosSize := ProtosSize r;
     ProtosOffset := ProtosOffset r; FieldsSize := FieldsSize r;
     FieldsOffset := FieldsOffset r; MethodIdsSize := MethodIdsSize r;
     MethodIdsOffset := MethodIdsOffset r; ClassDefsSize := ClassDefsSize r;
     ClassDefsOffset := ClassDefsOffset r; DataSize := DataSize r;
     DataOffset := DataOffset r |}.
Definition set_FileSize (v : Z) (r : Header) : Header :=
  {| Magic := Magic r; Checksum := Checksum r; Signature := Signature r;
     FileSize := v; HeaderSize := HeaderSize r; EndianTag := EndianTag r;
     LinkSize := LinkSize r; LinkOff := LinkOff r; MapOff := MapOff r;
     StringIdsSize := StringIdsSize r; StringIdsOffset := StringIdsOffset r;
     TypeIdsSize := TypeIdsSize r; TypeIdsOffset := TypeIdsOffset r;
     ProtosSize := ProtosSize r; ProtosOffset := ProtosOffset r;
     FieldsSize := FieldsSize r; FieldsOffset := FieldsOffset r;
     MethodIdsSize := MethodIdsSize r; MethodIdsOffset := MethodIdsOffset r;
     ClassDefsSize := ClassDefsSize r; ClassDefsOffset := ClassDefsOffset r;
     DataSize := DataSize r; DataOffset := DataOffset r |}.
Definition set_HeaderSize (v : Z) (r : Header) : Header :=
  {| Magic := Magic r; Checksum := Checksum r; Signature := Signature r;
     FileSize := FileSize r; HeaderSize := v; EndianTag := EndianTag r;
     LinkSize := LinkSize r; LinkOff := LinkOff r; MapOff := MapOff r;
     StringIdsSize := StringIdsSize r; StringIdsOffset := StringIdsOffset r;
     TypeIdsSize := TypeIdsSize r; TypeIdsOffset := TypeIdsOffset r;
     ProtosSize := ProtosSize r; ProtosOffset := ProtosOffset r;
     FieldsSize := FieldsSize r; FieldsOffset := FieldsOffset r;
     MethodIdsSize := MethodIdsSize r; MethodIdsOffset := MethodIdsOffset r;
     ClassDefsSize := ClassDefsSize r; ClassDefsOffset := ClassDefsOffset r;
     DataSize := DataSize r; DataOffset := DataOffset r |}.
Definition set_EndianTag (v : Z) (r : Header) : Header :=
  {| Magic := Magic r; Checksum := Checksum r; Signature := Signature r;
     FileSize := FileSize r; HeaderSize := HeaderSize r; EndianTag := v;
     LinkSize := LinkSize r; LinkOff := LinkOff r; MapOff := MapOff r;
     StringIdsSize := StringIdsSize r; StringIdsOffset := StringIdsOffset r;
     TypeIdsSize := TypeIdsSize r; TypeIdsOffset := TypeIdsOffset r;
     ProtosSize := ProtosSize r; ProtosOffset := ProtosOffset r;
     FieldsSize := FieldsSize r; FieldsOffset := FieldsOffset r;
     MethodIdsSize := MethodIdsSize r; MethodIdsOffset := MethodIdsOffset r;
     ClassDefsSize := ClassDefsSize r; ClassDefsOffset := ClassDefsOffset r;
     DataSize := DataSize r; DataOffset := DataOffset r |}.
Definition set_LinkSize (v : Z) (r : Header) : Header :=
  {| Magic := Magic r; Checksum := Checksum r; Signature := Signature r;
     FileSize := FileSize r; HeaderSize := HeaderSize r;
     EndianTag := EndianTag r; LinkSize := v; LinkOff := LinkOff r;
     MapOff := MapOff r; StringIdsSize := StringIdsSize r;
     StringIdsOffset := StringIdsOffset r; TypeIdsSize := TypeIdsSize r;
     TypeIdsOffset := TypeIdsOffset r; ProtosSize := ProtosSize r;
     ProtosOffset := ProtosOffset r; FieldsSize := FieldsSize r;
     FieldsOffset := FieldsOffset r; MethodIdsSize := MethodIdsSize r;
     MethodIdsOffset := MethodIdsOffset r; ClassDefsSize := ClassDefsSize r;
     ClassDefsOffset := ClassDefsOffset r; DataSize := DataSize r;
     DataOffset := DataOffset r |}.
Definition set_LinkOff (v : Z) (r : Header) : Header :=
  {| Magic := Magic r; Checksum := Checksum r; Signature := Signature r;
     FileSize := FileSize r; HeaderSize := HeaderSize r;
     EndianTag := EndianTag r; LinkSize := LinkSize r; LinkOff := v;
     MapOff := MapOff r; StringIdsSize := StringIdsSize r;
     StringIdsOffset := StringIdsOffset r; TypeIdsSize := TypeIdsSize r;
     TypeIdsOffset := TypeIdsOffset r; ProtosSize := ProtosSize r;
     ProtosOffset := ProtosOffset r; FieldsSize := FieldsSize r;
     FieldsOffset := FieldsOffset r; MethodIdsSize := MethodIdsSize r;
     MethodIdsOffset := MethodIdsOffset r; ClassDefsSize := ClassDefsSize r;
     ClassDefsOffset := ClassDefsOffset r; DataSize := DataSize r;
     DataOffset := DataOffset r |}.
Definition set_MapOff (v : Z) (r : Header) : Header :=
  {| Magic := Magic r; Checksum := Checksum r; Signature := Signature r;
     FileSize := FileSize r; HeaderSize := HeaderSize r;
     EndianTag := EndianTag r; LinkSize := LinkSize r; LinkOff := LinkOff r;
     MapOff := v; StringIdsSize := StringIdsSize r;
     StringIdsOffset := StringIdsOffset r; TypeIdsSize := TypeIdsSize r;
     TypeIdsOffset := TypeIdsOffset r; ProtosSize := ProtosSize r;
     ProtosOffset := ProtosOffset r; FieldsSize := FieldsSize r;
     FieldsOffset := FieldsOffset r; MethodIdsSize := MethodIdsSize r;
     MethodIdsOffset := MethodIdsOffset r; ClassDefsSize := ClassDefsSize r;
     ClassDefsOffset := ClassDefsOffset r; DataSize := DataSize r;
     DataOffset := DataOffset r |}.
Definition set_StringIdsSize (v : Z) (r : Header) : Header :=
  {| Magic := Magic r; Checksum := Checksum r; Signature := Signature r;
     FileSize := FileSize r; HeaderSize := HeaderSize r;
     EndianTag := EndianTag r; LinkSize := LinkSize r; LinkOff := LinkOff r;
     MapOff := MapOff r; StringIdsSize := v;
     StringIdsOffset := StringIdsOffset r; TypeIdsSize := TypeIdsSize r;
     TypeIdsOffset := TypeIdsOffset r; ProtosSize := ProtosSize r;
     ProtosOffset := ProtosOffset r; FieldsSize := FieldsSize r;
     FieldsOffset := FieldsOffset r; MethodIdsSize := MethodIdsSize r;
     MethodIdsOffset := MethodIdsOffset r; ClassDefsSize := ClassDefsSize r;
     ClassDefsOffset := ClassDefsOffset r; DataSize := DataSize r;
     DataOffset := DataOffset r |}.
Definition set_StringIdsOffset (v : Z) (r : Header) : Header :=
  {| Magic := Magic r; Checksum := Checksum r; Signature := Signature r;
     FileSize := FileSize r; HeaderSize := HeaderSize r;
     EndianTag := EndianTag r; LinkSize := LinkSize r; LinkOff := LinkOff r;
     MapOff := MapOff r; StringIdsSize := StringIdsSize r;
     StringIdsOffset := v; TypeIdsSize := TypeIdsSize r;
     TypeIdsOffset := TypeIdsOffset r; ProtosSize := ProtosSize r;
     ProtosOffset := ProtosOffset r; FieldsSize := FieldsSize r;
     FieldsOffset := FieldsOffset r; MethodIdsSize := MethodIdsSize r;
     MethodIdsOffset := MethodIdsOffset r; ClassDefsSize := ClassDefsSize r;
     ClassDefsOffset := ClassDefsOffset r; DataSize := DataSize r;
     DataOffset := DataOffset r |}.
Definition set_TypeIdsSize (v : Z) (r : Header) : Header :=
  {| Magic := Magic r; Checksum := Checksum r; Signature := Signature r;
     FileSize := FileSize r; HeaderSize := HeaderSize r;
     EndianTag := EndianTag r; LinkSize := LinkSize r; LinkOff := LinkOff r;
     MapOff := MapOff r; StringIdsSize := StringIdsSize r;
     StringIdsOffset := StringIdsOffset r; TypeIdsSize := v;
     TypeIdsOffset := TypeIdsOffset r; ProtosSize := ProtosSize r;
     ProtosOffset := ProtosOffset r; FieldsSize := FieldsSize r;
     FieldsOffset := FieldsOffset r; MethodIdsSize := MethodIdsSize r;
     MethodIdsOffset := MethodIdsOffset r; ClassDefsSize := ClassDefsSize r;
     ClassDefsOffset := ClassDefsOffset r; DataSize := DataSize r;
     DataOffset := DataOffset r |}.
Definition set_TypeIdsOffset (v : Z) (r : Header) : Header :=
  {| Magic := Magic r; Checksum := Checksum r; Signature := Signature r;
     FileSize := FileSize r; HeaderSize := HeaderSize r;
     EndianTag := EndianTag r; LinkSize := LinkSize r; LinkOff := LinkOff r;
     MapOff := MapOff r; StringIdsSize := StringIdsSize r;
     StringIdsOffset := StringIdsOffset r; TypeIdsSize := TypeIdsSize r;
     TypeIdsOffset := v; ProtosSize := ProtosSize r;
     ProtosOffset := ProtosOffset r; FieldsSize := FieldsSize r;
     FieldsOffset := FieldsOffset r; MethodIdsSize := MethodIdsSize r;
     MethodIdsOffset := MethodIdsOffset r; ClassDefsSize := ClassDefsSize r;
     ClassDefsOffset := ClassDefsOffset r; DataSize := DataSize r;
     DataOffset := DataOffset r |}.
Definition set_ProtosSize (v : Z) (r : Header) : Header :=
  {| Magic := Magic r; Checksum := Checksum r; Signature := Signature r;
     FileSize := FileSize r; HeaderSize := HeaderSize r;
     EndianTag := EndianTag r; LinkSize := LinkSize r; LinkOff := LinkOff r;
     MapOff := MapOff r; StringIdsSize := StringIdsSize r;
     StringIdsOffset := StringIdsOffset r; TypeIdsSize := TypeIdsSize r;
     TypeIdsOffset := TypeIdsOffset r; ProtosSize := v;
     ProtosOffset := ProtosOffset r; FieldsSize := FieldsSize r;
     FieldsOffset := FieldsOffset r; MethodIdsSize := MethodIdsSize r;
     MethodIdsOffset := MethodIdsOffset r; ClassDefsSize := ClassDefsSize r;
     ClassDefsOffset := ClassDefsOffset r; DataSize := DataSize r;
     DataOffset := DataOffset r |}.
Definition set_ProtosOffset (v : Z) (r : Header) : Header :=
  {| Magic := Magic r; Checksum := Checksum r; Signature := Signature r;
     FileSize := FileSize r; HeaderSize := HeaderSize r;
     EndianTag := EndianTag r; LinkSize := LinkSize r; LinkOff := LinkOff r;
     MapOff := MapOff r; StringIdsSize := StringIdsSize r;
     StringIdsOffset := StringIdsOffset r; TypeIdsSize := TypeIdsSize r;
     TypeIdsOffset := TypeIdsOffset r; ProtosSize := ProtosSize r;
     ProtosOffset := v; FieldsSize := FieldsSize r;
     FieldsOffset := FieldsOffset r; MethodIdsSize := MethodIdsSize r;
     MethodIdsOffset := MethodIdsOffset r; ClassDefsSize := ClassDefsSize r;
     ClassDefsOffset := ClassDefsOffset r; DataSize := DataSize r;
     DataOffset := DataOffset r |}.
Definition set_FieldsSize (v : Z) (r : Header) : Header :=
  {| Magic := Magic r; Checksum := Checksum r; Signature := Signature r;
     FileSize := FileSize r; HeaderSize := HeaderSize r;
     EndianTag := EndianTag r; LinkSize := LinkSize r; LinkOff := LinkOff r;
     MapOff := MapOff r; StringIdsSize := StringIdsSize r;
     StringIdsOffset := StringIdsOffset r; TypeIdsSize := TypeIdsSize r;
     TypeIdsOffset := TypeIdsOffset r; ProtosSize := ProtosSize r;
     ProtosOffset := ProtosOffset r; FieldsSize := v;
     FieldsOffset := FieldsOffset r; MethodIdsSize := MethodIdsSize r;
     MethodIdsOffset := MethodIdsOffset r; ClassDefsSize := ClassDefsSize r;
     ClassDefsOffset := ClassDefsOffset r; DataSize := DataSize r;
     DataOffset := DataOffset r |}.
Definition set_FieldsOffset (v : Z) (r : Header) : Header :=
  {| Magic := Magic r; Checksum := Checksum r; Signature := Signature r;
     FileSize := FileSize r; HeaderSize := HeaderSize r;
     EndianTag := EndianTag r; LinkSize := LinkSize r; LinkOff := LinkOff r;
     MapOff := MapOff r; StringIdsSize := StringIdsSize r;
     StringIdsOffset := StringIdsOffset r; TypeIdsSize := TypeIdsSize r;
     TypeIdsOffset := TypeIdsOffset r; ProtosSize := ProtosSize r;
     ProtosOffset := ProtosOffset r; FieldsSize := FieldsSize r;
     FieldsOffset := v; MethodIdsSize := MethodIdsSize r;
     MethodIdsOffset := MethodIdsOffset r; ClassDefsSize := ClassDefsSize r;
     ClassDefsOffset := ClassDefsOffset r; DataSize := DataSize r;
     DataOffset := DataOffset r |}.
Definition set_MethodIdsSize (v : Z) (r : Header) : Header :=
  {| Magic := Magic r; Checksum := Checksum r; Signature := Signature r;
     FileSize := FileSize r; HeaderSize := HeaderSize r;
     EndianTag := EndianTag r; LinkSize := LinkSize r; LinkOff := LinkOff r;
     MapOff := MapOff r; StringIdsSize := StringIdsSize r;
     StringIdsOffset := StringIdsOffset r; TypeIdsSize := TypeIdsSize r;
     TypeIdsOffset := TypeIdsOffset r; ProtosSize := ProtosSize r;
     ProtosOffset := ProtosOffset r; FieldsSize := FieldsSize r;
     FieldsOffset := FieldsOffset r; MethodIdsSize := v;
     MethodIdsOffset := MethodIdsOffset r; ClassDefsSize := ClassDefsSize r;
     ClassDefsOffset := ClassDefsOffset r; DataSize := DataSize r;
     DataOffset := DataOffset r |}.
Definition set_MethodIdsOffset (v : Z) (r : Header) : Header :=
  {| Magic := Magic r; Checksum := Checksum r; Signature := Signature r;
     FileSize := FileSize r; HeaderSize := HeaderSize r;
     EndianTag := EndianTag r; LinkSize := LinkSize r; LinkOff := LinkOff r;
     MapOff := MapOff r; StringIdsSize := StringIdsSize r;
     StringIdsOffset := StringIdsOffset r; TypeIdsSize := TypeIdsSize r;
     TypeIdsOffset := TypeIdsOffset r; ProtosSize := ProtosSize r;
     ProtosOffset := ProtosOffset r; FieldsSize := FieldsSize r;
     FieldsOffset := FieldsOffset r; MethodIdsSize := MethodIdsSize r;
     MethodIdsOffset := v; ClassDefsSize := ClassDefsSize r;
     ClassDefsOffset := ClassDefsOffset r; DataSize := DataSize r;
     DataOffset := DataOffset r |}.
Definition set_ClassDefsSize (v : Z) (r : Header) : Header :=
  {| Magic := Magic r; Checksum := Checksum r; Signature := Signature r;
     FileSize := FileSize r; HeaderSize := HeaderSize r;
     EndianTag := EndianTag r; LinkSize := LinkSize r; LinkOff := LinkOff r;
     MapOff := MapOff r; StringIdsSize := StringIdsSize r;
     StringIdsOffset := StringIdsOffset r; TypeIdsSize := TypeIdsSize r;
     TypeIdsOffset := TypeIdsOffset r; ProtosSize := ProtosSize r;
     ProtosOffset := ProtosOffset r; FieldsSize := FieldsSize r;
     FieldsOffset := FieldsOffset r; MethodIdsSize := MethodIdsSize r;
     MethodIdsOffset := MethodIdsOffset r; ClassDefsSize := v;
     ClassDefsOffset := ClassDefsOffset r; DataSize := DataSize r;
     DataOffset := DataOffset r |}.
Definition set_ClassDefsOffset (v : Z) (r : Header) : Header :=
  {| Magic := Magic r; Checksum := Checksum r; Signature := Signature r;
     FileSize := FileSize r; HeaderSize := HeaderSize r;
     EndianTag := EndianTag r; LinkSize := LinkSize r; LinkOff := LinkOff r;
     MapOff := MapOff r; StringIdsSize := StringIdsSize r;
     StringIdsOffset := StringIdsOffset r; TypeIdsSize := TypeIdsSize r;
     TypeIdsOffset := TypeIdsOffset r; ProtosSize := ProtosSize r;
     ProtosOffset := ProtosOffset r; FieldsSize := FieldsSize r;
     FieldsOffset := FieldsOffset r; MethodIdsSize := MethodIdsSize r;
     MethodIdsOffset := MethodIdsOffset r; ClassDefsSize := ClassDefsSize r;
     ClassDefsOffset := v; DataSize := DataSize r;
     DataOffset := DataOffset r |}.
Definition set_DataSize (v : Z) (r : Header) : Header :=
  {| Magic := Magic r; Checksum := Checksum r; Signature := Signature r;
     FileSize := FileSize r; HeaderSize := HeaderSize r;
     EndianTag := EndianTag r; LinkSize := LinkSize r; LinkOff := LinkOff r;
     MapOff := MapOff r; StringIdsSize := StringIdsSize r;
     StringIdsOffset := StringIdsOffset r; TypeIdsSize := TypeIdsSize r;
     TypeIdsOffset := TypeIdsOffset r; ProtosSize := ProtosSize r;
     ProtosOffset := ProtosOffset r; FieldsSize := FieldsSize r;
     FieldsOffset := FieldsOffset r; MethodIdsSize := MethodIdsSize r;
     MethodIdsOffset := MethodIdsOffset r; ClassDefsSize := ClassDefsSize r;
     ClassDefsOffset := ClassDefsOffset r; DataSize := v;
     DataOffset := DataOffset r |}.
Definition set_DataOffset (v : Z) (r : Header) : Header :=
  {| Magic := Magic r; Checksum := Checksum r; Signature := Signature r;
     FileSize := FileSize r; HeaderSize := HeaderSize r;
     EndianTag := EndianTag r; LinkSize := LinkSize r; LinkOff := LinkOff r;
     MapOff := MapOff r; StringIdsSize := StringIdsSize r;
     StringIdsOffset := StringIdsOffset r; TypeIdsSize := TypeIdsSize r;
     TypeIdsOffset := TypeIdsOffset r; ProtosSize := ProtosSize r;
     ProtosOffset := ProtosOffset r; FieldsSize := FieldsSize r;
     FieldsOffset := FieldsOffset r; MethodIdsSize := MethodIdsSize r;
     MethodIdsOffset := MethodIdsOffset r; ClassDefsSize := ClassDefsSize r;
     ClassDefsOffset := ClassDefsOffset r; DataSize := DataSize r;
     DataOffset := v |}.

Definition set_TypeId_dex (v : DEXptr) (r : TypeId) : TypeId :=
  {| TypeId_dex := v; DescriptorIdx := DescriptorIdx r |}.
Definition set_DescriptorIdx (v : Z) (r : TypeId) : TypeId :=
  {| TypeId_dex := TypeId_dex r; DescriptorIdx := v |}.

Definition set_ProtoIdItem_dex (v : DEXptr) (r : ProtoIdItem) : ProtoIdItem :=
  {| ProtoIdItem_dex := v; ShortyIdx := ShortyIdx r;
     ReturnTypeIdx := ReturnTypeIdx r;
     ParametersOffset := ParametersOffset r |}.
Definition set_ShortyIdx (v : Z) (r : ProtoIdItem) : ProtoIdItem :=
  {| ProtoIdItem_dex := ProtoIdItem_dex r; ShortyIdx := v;
     ReturnTypeIdx := ReturnTypeIdx r;
     ParametersOffset := ParametersOffset r |}.
Definition set_ReturnTypeIdx (v : Z) (r : ProtoIdItem) : ProtoIdItem :=
  {| ProtoIdItem_dex := ProtoIdItem_dex r; ShortyIdx := ShortyIdx r;
     ReturnTypeIdx := v; ParametersOffset := ParametersOffset r |}.
Definition set_ParametersOffset (v : Z) (r : ProtoIdItem) : ProtoIdItem :=
  {| ProtoIdItem_dex := ProtoIdItem_dex r; ShortyIdx := ShortyIdx r;
     ReturnTypeIdx := ReturnTypeIdx r; ParametersOffset := v |}.

Definition set_FieldIdItem_dex (v : DEXptr) (r : FieldIdItem) : FieldIdItem :=
  {| FieldIdItem_dex := v; FieldIdItem_ClassIdx := FieldIdItem_ClassIdx r;
     TypeIdx := TypeIdx r; FieldIdItem_NameIdx := FieldIdItem_NameIdx r |}.
Definition set_FieldIdItem_ClassIdx (v : Z) (r : FieldIdItem) : FieldIdItem :=
  {| FieldIdItem_dex := FieldIdItem_dex r; FieldIdItem_ClassIdx := v;
     TypeIdx := TypeIdx r; FieldIdItem_NameIdx := FieldIdItem_NameIdx r |}.
Definition set_TypeIdx (v : Z) (r : FieldIdItem) : FieldIdItem :=
  {| FieldIdItem_dex := FieldIdItem_dex r;
     FieldIdItem_ClassIdx := FieldIdItem_ClassIdx r; TypeIdx := v;
     FieldIdItem_NameIdx := FieldIdItem_NameIdx r |}.
Definition set_FieldIdItem_NameIdx (v : Z) (r : FieldIdItem) : FieldIdItem :=
  {| FieldIdItem_dex := FieldIdItem_dex r;
     FieldIdItem_ClassIdx := FieldIdItem_ClassIdx r; TypeIdx := TypeIdx r;
     FieldIdItem_NameIdx := v |}.

Definition set_MethodIdItem_dex (v : DEXptr) (r : MethodIdItem) : MethodIdItem :=
  {| MethodIdItem_dex := v;
     MethodIdItem_ClassIdx := MethodIdItem_ClassIdx r;
     ProtoIdx := ProtoIdx r;
     MethodIdItem_NameIdx := MethodIdItem_NameIdx r |}.
Definition set_MethodIdItem_ClassIdx (v : Z) (r : MethodIdItem) : MethodIdItem :=
  {| MethodIdItem_dex := MethodIdItem_dex r; MethodIdItem_ClassIdx := v;
     ProtoIdx := ProtoIdx r;
     MethodIdItem_NameIdx := MethodIdItem_NameIdx r |}.
Definition set_ProtoIdx (v : Z) (r : MethodIdItem) : MethodIdItem :=
  {| MethodIdItem_dex := MethodIdItem_dex r;
     MethodIdItem_ClassIdx := MethodIdItem_ClassIdx r; ProtoIdx := v;
     MethodIdItem_NameIdx := MethodIdItem_NameIdx r |}.
Definition set_MethodIdItem_NameIdx (v : Z) (r : MethodIdItem) : MethodIdItem :=
  {| MethodIdItem_dex := MethodIdItem_dex r;
     MethodIdItem_ClassIdx := MethodIdItem_ClassIdx r;
     ProtoIdx := ProtoIdx r; MethodIdItem_NameIdx := v |}.

Definition set_EncodedValue_dex (v : DEXptr) (r : EncodedValue) : EncodedValue :=
  {| EncodedValue_dex := v; ValueType := ValueType r; Data := Data r |}.
Definition set_ValueType (v : Z) (r : EncodedValue) : EncodedValue :=
  {| EncodedValue_dex := EncodedValue_dex r; ValueType := v;
     Data := Data r |}.
Definition set_Data (v : list byte) (r : EncodedValue) : EncodedValue :=
  {| EncodedValue_dex := EncodedValue_dex r; ValueType := ValueType r;
     Data := v |}.

Definition set_EncodedField_dex (v : DEXptr) (r : EncodedField) : EncodedField :=
  {| EncodedField_dex := v; Field := Field r;
     FieldIdxDiff := FieldIdxDiff r;
     EncodedField_AccessFlags := EncodedField_AccessFlags r |}.
Definition set_Field (v : FieldIdItem) (r : EncodedField) : EncodedField :=
  {| EncodedField_dex := EncodedField_dex r; Field := v;
     FieldIdxDiff := FieldIdxDiff r;
     EncodedField_AccessFlags := EncodedField_AccessFlags r |}.
Definition set_FieldIdxDiff (v : Z) (r : EncodedField) : EncodedField :=
  {| EncodedField_dex := EncodedField_dex r; Field := Field r;
     FieldIdxDiff := v;
     EncodedField_AccessFlags := EncodedField_AccessFlags r |}.
Definition set_EncodedField_AccessFlags (v : Z) (r : EncodedField) : EncodedField :=
  {| EncodedField_dex := EncodedField_dex r; Field := Field r;
     FieldIdxDiff := FieldIdxDiff r; EncodedField_AccessFlags := v |}.

Definition set_EncodedMethod_dex (v : DEXptr) (r : EncodedMethod) : EncodedMethod :=
  {| EncodedMethod_dex := v; Method := Method r;
     MethodIdxDiff := MethodIdxDiff r;
     EncodedMethod_AccessFlags := EncodedMethod_AccessFlags r;
     CodeOffset := CodeOffset r |}.
Definition set_Method (v : MethodIdItem) (r : EncodedMethod) : EncodedMethod :=
  {| EncodedMethod_dex := EncodedMethod_dex r; Method := v;
     MethodIdxDiff := MethodIdxDiff r;
     EncodedMethod_AccessFlags := EncodedMethod_AccessFlags r;
     CodeOffset := CodeOffset r |}.
Definition set_MethodIdxDiff (v : Z) (r : EncodedMethod) : EncodedMethod :=
  {| EncodedMethod_dex := EncodedMethod_dex r; Method := Method r;
     MethodIdxDiff := v;
     EncodedMethod_AccessFlags := EncodedMethod_AccessFlags r;
     CodeOffset := CodeOffset r |}.
Definition set_EncodedMethod_AccessFlags (v : Z) (r : EncodedMethod) : EncodedMethod :=
  {| EncodedMethod_dex := EncodedMethod_dex r; Method := Method r;
     MethodIdxDiff := MethodIdxDiff r; EncodedMethod_AccessFlags := v;
     CodeOffset := CodeOffset r |}.
Definition set_CodeOffset (v : Z) (r : EncodedMethod) : EncodedMethod :=
  {| EncodedMethod_dex := EncodedMethod_dex r; Method := Method r;
     MethodIdxDiff := MethodIdxDiff r;
     EncodedMethod_AccessFlags := EncodedMethod_AccessFlags r;
     CodeOffset := v |}.

Definition set_StaticFieldSize (v : Z) (r : ClassDataItem) : ClassDataItem :=
  {| StaticFieldSize := v; InstanceFieldSize := InstanceFieldSize r;
     DirectMethodsSize := DirectMethodsSize r;
     VirtualMethodsSize := VirtualMethodsSize r;
     StaticFields := StaticFields r; InstanceFields := InstanceFields r;
     DirectMethods := DirectMethods r;
     VirtualMethods := VirtualMethods r |}.
Definition set_InstanceFieldSize (v : Z) (r : ClassDataItem) : ClassDataItem :=
  {| StaticFieldSize := StaticFieldSize r; InstanceFieldSize := v;
     DirectMethodsSize := DirectMethodsSize r;
     VirtualMethodsSize := VirtualMethodsSize r;
     StaticFields := StaticFields r; InstanceFields := InstanceFields r;
     DirectMethods := DirectMethods r;
     VirtualMethods := VirtualMethods r |}.
Definition set_DirectMethodsSize (v : Z) (r : ClassDataItem) : ClassDataItem :=
  {| StaticFieldSize := StaticFieldSize r;
     InstanceFieldSize := InstanceFieldSize r; DirectMethodsSize := v;
     VirtualMethodsSize := VirtualMethodsSize r;
     StaticFields := StaticFields r; InstanceFields := InstanceFields r;
     DirectMethods := DirectMethods r;
     VirtualMethods := VirtualMethods r |}.
Definition set_VirtualMethodsSize (v : Z) (r : ClassDataItem) : ClassDataItem :=
  {| StaticFieldSize := StaticFieldSize r;
     InstanceFieldSize := InstanceFieldSize r;
     DirectMethodsSize := DirectMethodsSize r; VirtualMethodsSize := v;
     StaticFields := StaticFields r; InstanceFields := InstanceFields r;
     DirectMethods := DirectMethods r;
     VirtualMethods := VirtualMethods r |}.
Definition set_StaticFields (v : list EncodedField) (r : ClassDataItem) : ClassDataItem :=
  {| StaticFieldSize := StaticFieldSize r;
     InstanceFieldSize := InstanceFieldSize r;
     DirectMethodsSize := DirectMethodsSize r;
     VirtualMethodsSize := VirtualMethodsSize r; StaticFields := v;
     InstanceFields := InstanceFields r; DirectMethods := DirectMethods r;
     VirtualMethods := VirtualMethods r |}.
Definition set_InstanceFields (v : list EncodedField) (r : ClassDataItem) : ClassDataItem :=
  {| StaticFieldSize := StaticFieldSize r;
     InstanceFieldSize := InstanceFieldSize r;
     DirectMethodsSize := DirectMethodsSize r;
     VirtualMethodsSize := VirtualMethodsSize r;
     StaticFields := StaticFields r; InstanceFields := v;
     DirectMethods := DirectMethods r;
     VirtualMethods := VirtualMethods r |}.
Definition set_DirectMethods (v : list EncodedMethod) (r : ClassDataItem) : ClassDataItem :=
  {| StaticFieldSize := StaticFieldSize r;
     InstanceFieldSize := InstanceFieldSize r;
     DirectMethodsSize := DirectMethodsSize r;
     VirtualMethodsSize := VirtualMethodsSize r;
     StaticFields := StaticFields r; InstanceFields := InstanceFields r;
     DirectMethods := v; VirtualMethods := VirtualMethods r |}.
Definition set_VirtualMethods (v : list EncodedMethod) (r : ClassDataItem) : ClassDataItem :=
  {| StaticFieldSize := StaticFieldSize r;
     InstanceFieldSize := InstanceFieldSize r;
     DirectMethodsSize := DirectMethodsSize r;
     VirtualMethodsSize := VirtualMethodsSize r;
     StaticFields := StaticFields r; InstanceFields := InstanceFields r;
     DirectMethods := DirectMethods r; VirtualMethods := v |}.

Definition set_ClassDefItem_dex (v : DEXptr) (r : ClassDefItem) : ClassDefItem :=
  {| ClassDefItem_dex := v; ClassIdx := ClassIdx r;
     AccessFlags := AccessFlags r; SuperclassIdx := SuperclassIdx r;
     InterfacesOffset := InterfacesOffset r;
     SourceFileIdx := SourceFileIdx r;
     AnnotationsOffset := AnnotationsOffset r; ClassData := ClassData r;
     StaticValues := StaticValues r |}.
Definition set_ClassIdx (v : Z) (r : ClassDefItem) : ClassDefItem :=
  {| ClassDefItem_dex := ClassDefItem_dex r; ClassIdx := v;
     AccessFlags := AccessFlags r; SuperclassIdx := SuperclassIdx r;
     InterfacesOffset := InterfacesOffset r;
     SourceFileIdx := SourceFileIdx r;
     AnnotationsOffset := AnnotationsOffset r; ClassData := ClassData r;
     StaticValues := StaticValues r |}.
Definition set_AccessFlags (v : Z) (r : ClassDefItem) : ClassDefItem :=
  {| ClassDefItem_dex := ClassDefItem_dex r; ClassIdx := ClassIdx r;
     AccessFlags := v; SuperclassIdx := SuperclassIdx r;
     InterfacesOffset := InterfacesOffset r;
     SourceFileIdx := SourceFileIdx r;
     AnnotationsOffset := AnnotationsOffset r; ClassData := ClassData r;
     StaticValues := StaticValues r |}.
Definition set_SuperclassIdx (v : Z) (r : ClassDefItem) : ClassDefItem :=
  {| ClassDefItem_dex := ClassDefItem_dex r; ClassIdx := ClassIdx r;
     AccessFlags := AccessFlags r; SuperclassIdx := v;
     InterfacesOffset := InterfacesOffset r;
     SourceFileIdx := SourceFileIdx r;
     AnnotationsOffset := AnnotationsOffset r; ClassData := ClassData r;
     StaticValues := StaticValues r |}.
Definition set_InterfacesOffset (v : Z) (r : ClassDefItem) : ClassDefItem :=
  {| ClassDefItem_dex := ClassDefItem_dex r; ClassIdx := ClassIdx r;
     AccessFlags := AccessFlags r; SuperclassIdx := SuperclassIdx r;
     InterfacesOffset := v; SourceFileIdx := SourceFileIdx r;
     AnnotationsOffset := AnnotationsOffset r; ClassData := ClassData r;
     StaticValues := StaticValues r |}.
Definition set_SourceFileIdx (v : Z) (r : ClassDefItem) : ClassDefItem :=
  {| ClassDefItem_dex := ClassDefItem_dex r; ClassIdx := ClassIdx r;
     AccessFlags := AccessFlags r; SuperclassIdx := SuperclassIdx r;
     InterfacesOffset := InterfacesOffset r; SourceFileIdx := v;
     AnnotationsOffset := AnnotationsOffset r; ClassData := ClassData r;
     StaticValues := StaticValues r |}.
Definition set_AnnotationsOffset (v : Z) (r : ClassDefItem) : ClassDefItem :=
  {| ClassDefItem_dex := ClassDefItem_dex r; ClassIdx := ClassIdx r;
     AccessFlags := AccessFlags r; SuperclassIdx := SuperclassIdx r;
     InterfacesOffset := InterfacesOffset r;
     SourceFileIdx := SourceFileIdx r; AnnotationsOffset := v;
     ClassData := ClassData r; StaticValues := StaticValues r |}.
Definition set_ClassData (v : ClassDataItem) (r : ClassDefItem) : ClassDefItem :=
  {| ClassDefItem_dex := ClassDefItem_dex r; ClassIdx := ClassIdx r;
     AccessFlags := AccessFlags r; SuperclassIdx := SuperclassIdx r;
     InterfacesOffset := InterfacesOffset r;
     SourceFileIdx := SourceFileIdx r;
     AnnotationsOffset := AnnotationsOffset r; ClassData := v;
     StaticValues := StaticValues r |}.
Definition set_StaticValues (v : list EncodedValue) (r : ClassDefItem) : ClassDefItem :=
  {| ClassDefItem_dex := ClassDefItem_dex r; ClassIdx := ClassIdx r;
     AccessFlags := AccessFlags r; SuperclassIdx := SuperclassIdx r;
     InterfacesOffset := InterfacesOffset r;
     SourceFileIdx := SourceFileIdx r;
     AnnotationsOffset := AnnotationsOffset r; ClassData := ClassData r;
     StaticValues := v |}.

Definition set_DEX_b (v : list byte) (r : DEX) : DEX :=
  {| DEX_b := v; header := header r; Strings := Strings r; Types := Types r;
     Prototypes := Prototypes r; Fields := Fields r; Methods := Methods r;
     Classes := Classes r |}.
Definition set_header (v : Header) (r : DEX) : DEX :=
  {| DEX_b := DEX_b r; header := v; Strings := Strings r; Types := Types r;
     Prototypes := Prototypes r; Fields := Fields r; Methods := Methods r;
     Classes := Classes r |}.
Definition set_Strings (v : list string) (r : DEX) : DEX :=
  {| DEX_b := DEX_b r; header := header r; Strings := v; Types := Types r;
     Prototypes := Prototypes r; Fields := Fields r; Methods := Methods r;
     Classes := Classes r |}.
Definition set_Types (v : list TypeId) (r : DEX) : DEX :=
  {| DEX_b := DEX_b r; header := header r; Strings := Strings r; Types := v;
     Prototypes := Prototypes r; Fields := Fields r; Methods := Methods r;
     Classes := Classes r |}.
Definition set_Prototypes (v : list ProtoIdItem) (r : DEX) : DEX :=
  {| DEX_b := DEX_b r; header := header r; Strings := Strings r;
     Types := Types r; Prototypes := v; Fields := Fields r;
     Methods := Methods r; Classes := Classes r |}.
Definition set_Fields (v : list FieldIdItem) (r : DEX) : DEX :=
  {| DEX_b := DEX_b r; header := header r; Strings := Strings r;
     Types := Types r; Prototypes := Prototypes r; Fields := v;
     Methods := Methods r; Classes := Classes r |}.
Definition set_Methods (v : list MethodIdItem) (r : DEX) : DEX :=
  {| DEX_b := DEX_b r; header := header r; Strings := Strings r;
     Types := Types r; Prototypes := Prototypes r; Fields := Fields r;
     Methods := v; Classes := Classes r |}.
Definition set_Classes (v : list ClassDefItem) (r : DEX) : DEX :=
  {| DEX_b := DEX_b r; header := header r; Strings := Strings r;
     Types := Types r; Prototypes := Prototypes r; Fields := Fields r;
     Methods := Methods r; Classes := v |}.

(** ** The structs as [Unpack] sees them through [reflect] *)

(** A pointer to an [X] that lives in the memory [S]. *)
Record Ptr (S X : Type) : Type := { load : S -> X; store : X -> S -> S }.
Arguments load {S X}.
Arguments store {S X}.

(** The pointer to a value that is the whole memory. *)
Definition self {X} : Ptr X X := {| load := fun x => x; store := fun x _ => x |}.

(** The setter of one field of the struct [o] points to. *)
Definition field {S X T} (o : Ptr S X) (set : T -> X -> X) : T -> S -> S :=
  fun v s => store o (set v (load o s)) s.

(** [reflect.ValueOf(o).Elem()] with the [pack] tags of the struct type: an
    unexported pointer, a struct or a slice is an [OtherValue]. *)
Definition reflect_Header {S} (o : Ptr S Header) : list (StructField S) :=
  [ {| Tag := "byte"; Field_ := ArrayValue 8 (field o set_Magic) |};
    {| Tag := "uint"; Field_ := UintValue 32 (field o set_Checksum) |};
    {| Tag := "byte"; Field_ := ArrayValue 20 (field o set_Signature) |};
    {| Tag := "uint"; Field_ := UintValue 32 (field o set_FileSize) |};
    {| Tag := "uint"; Field_ := UintValue 32 (field o set_HeaderSize) |};
    {| Tag := "uint"; Field_ := UintValue 32 (field o set_EndianTag) |};
    {| Tag := "uint"; Field_ := UintValue 32 (field o set_LinkSize) |};
    {| Tag := "uint"; Field_ := UintValue 32 (field o set_LinkOff) |};
    {| Tag := "uint"; Field_ := UintValue 32 (field o set_MapOff) |};
    {| Tag := "uint"; Field_ := UintValue 32 (field o set_StringIdsSize) |};
    {| Tag := "uint"; Field_ := UintValue 32 (field o set_StringIdsOffset) |};
    {| Tag := "uint"; Field_ := UintValue 32 (field o set_TypeIdsSize) |};
    {| Tag := "uint"; Field_ := UintValue 32 (field o set_TypeIdsOffset) |};
    {| Tag := "uint"; Field_ := UintValue 32 (field o set_ProtosSize) |};
    {| Tag := "uint"; Field_ := UintValue 32 (field o set_ProtosOffset) |};
    {| Tag := "uint"; Field_ := UintValue 32 (field o set_FieldsSize) |};
    {| Tag := "uint"; Field_ := UintValue 32 (field o set_FieldsOffset) |};
    {| Tag := "uint"; Field_ := UintValue 32 (field o set_MethodIdsSize) |};
    {| Tag := "uint"; Field_ := UintValue 32 (field o set_MethodIdsOffset) |};
    {| Tag := "uint"; Field_ := UintValue 32 (field o set_ClassDefsSize) |};
    {| Tag := "uint"; Field_ := UintValue 32 (field o set_ClassDefsOffset) |};
    {| Tag := "uint"; Field_ := UintValue 32 (field o set_DataSize) |};
    {| Tag := "uint"; Field_ := UintValue 32 (field o set_DataOffset) |} ].

Definition reflect_TypeId {S} (o : Ptr S TypeId) : list (StructField S) :=
  [ {| Tag := "-"; Field_ := OtherValue |};
    {| Tag := "uint"; Field_ := UintValue 32 (field o set_DescriptorIdx) |} ].

Definition reflect_ProtoIdItem {S} (o : Ptr S ProtoIdItem) : list (StructField S) :=
  [ {| Tag := "-"; Field_ := OtherValue |};
    {| Tag := "uint"; Field_ := UintValue 32 (field o set_ShortyIdx) |};
    {| Tag := "uint"; Field_ := UintValue 32 (field o set_ReturnTypeIdx) |};
    {| Tag := "uint"; Field_ := UintValue 32 (field o set_ParametersOffset) |} ].

Definition reflect_FieldIdItem {S} (o : Ptr S FieldIdItem) : list (StructField S) :=
  [ {| Tag := "-"; Field_ := OtherValue |};
    {| Tag := "ushort"; Field_ := UintValue 16 (field o set_FieldIdItem_ClassIdx) |};
    {| Tag := "ushort"; Field_ := UintValue 16 (field o set_TypeIdx) |};
    {| Tag := "uint"; Field_ := UintValue 32 (field o set_FieldIdItem_NameIdx) |} ].

Definition reflect_MethodIdItem {S} (o : Ptr S MethodIdItem) : list (StructField S) :=
  [ {| Tag := "-"; Field_ := OtherValue |};
    {| Tag := "ushort"; Field_ := UintValue 16 (field o set_MethodIdItem_ClassIdx) |};
    {| Tag := "ushort"; Field_ := UintValue 16 (field o set_ProtoIdx) |};
    {| Tag := "uint"; Field_ := UintValue 32 (field o set_MethodIdItem_NameIdx) |} ].

Definition reflect_EncodedValue {S} (o : Ptr S EncodedValue) : list (StructField S) :=
  [ {| Tag := "-"; Field_ := OtherValue |};
    {| Tag := "-"; Field_ := UintValue 32 (field o set_ValueType) |};
    {| Tag := "-"; Field_ := OtherValue |} ].

Definition reflect_EncodedField {S} (o : Ptr S EncodedField) : list (StructField S) :=
  [ {| Tag := "-"; Field_ := OtherValue |};
    {| Tag := "-"; Field_ := OtherValue |};
    {| Tag := "uleb128"; Field_ := UintValue 64 (field o set_FieldIdxDiff) |};
    {| Tag := "uleb128"; Field_ := UintValue 32 (field o set_EncodedField_AccessFlags) |} ].

Definition reflect_EncodedMethod {S} (o : Ptr S EncodedMethod) : list (StructField S) :=
  [ {| Tag := "-"; Field_ := OtherValue |};
    {| Tag := "-"; Field_ := OtherValue |};
    {| Tag := "uleb128"; Field_ := UintValue 64 (field o set_MethodIdxDiff) |};
    {| Tag := "uleb128"; Field_ := UintValue 32 (field o set_EncodedMethod_AccessFlags) |};
    {| Tag := "uleb128"; Field_ := UintValue 64 (field o set_CodeOffset) |} ].

Definition reflect_ClassDataItem {S} (o : Ptr S ClassDataItem) : list (StructField S) :=
  [ {| Tag := "uleb128"; Field_ := UintValue 64 (field o set_StaticFieldSize) |};
    {| Tag := "uleb128"; Field_ := UintValue 64 (field o set_InstanceFieldSize) |};
    {| Tag := "uleb128"; Field_ := UintValue 64 (field o set_DirectMethodsSize) |};
    {| Tag := "uleb128"; Field_ := UintValue 64 (field o set_VirtualMethodsSize) |};
    {| Tag := "staticfields"; Field_ := OtherValue |};
    {| Tag := "instancefields"; Field_ := OtherValue |};
    {| Tag := "directmethods"; Field_ := OtherValue |};
    {| Tag := "virtualmethods"; Field_ := OtherValue |} ].

Definition reflect_ClassDefItem {S} (o : Ptr S ClassDefItem) : list (StructField S) :=
  [ {| Tag := "-"; Field_ := OtherValue |};
    {| Tag := "uint"; Field_ := UintValue 32 (field o set_ClassIdx) |};
    {| Tag := "uint"; Field_ := UintValue 32 (field o set_AccessFlags) |};
    {| Tag := "uint"; Field_ := UintValue 32 (field o set_SuperclassIdx) |};
    {| Tag := "uint"; Field_ := UintValue 32 (field o set_InterfacesOffset) |};
    {| Tag := "uint"; Field_ := UintValue 32 (field o set_SourceFileIdx) |};
    {| Tag := "uint"; Field_ := UintValue 32 (field o set_AnnotationsOffset) |};
    {| Tag := "classdata"; Field_ := OtherValue |};
    {| Tag := "staticvalues"; Field_ := OtherValue |} ].

(** ** Zero values, [make] and indexed assignment *)

Definition zero_Header : Header :=
  {| Magic := repeat x00 8; Checksum := 0; Signature := repeat x00 20;
     FileSize := 0; HeaderSize := 0; EndianTag := 0; LinkSize := 0;
     LinkOff := 0; MapOff := 0; StringIdsSize := 0; StringIdsOffset := 0;
     TypeIdsSize := 0; TypeIdsOffset := 0; ProtosSize := 0;
     ProtosOffset := 0; FieldsSize := 0; FieldsOffset := 0;
     MethodIdsSize := 0; MethodIdsOffset := 0; ClassDefsSize := 0;
     ClassDefsOffset := 0; DataSize := 0; DataOffset := 0 |}.

Definition zero_TypeId : TypeId :=
  {| TypeId_dex := nil_DEX; DescriptorIdx := 0 |}.

Definition zero_ProtoIdItem : ProtoIdItem :=
  {| ProtoIdItem_dex := nil_DEX; ShortyIdx := 0; ReturnTypeIdx := 0;
     ParametersOffset := 0 |}.

Definition zero_FieldIdItem : FieldIdItem :=
  {| FieldIdItem_dex := nil_DEX; FieldIdItem_ClassIdx := 0; TypeIdx := 0;
     FieldIdItem_NameIdx := 0 |}.

Definition zero_MethodIdItem : MethodIdItem :=
  {| MethodIdItem_dex := nil_DEX; MethodIdItem_ClassIdx := 0; ProtoIdx := 0;
     MethodIdItem_NameIdx := 0 |}.

Definition zero_EncodedValue : EncodedValue :=
  {| EncodedValue_dex := nil_DEX; ValueType := 0; Data := [] |}.

Definition zero_EncodedField : EncodedField :=
  {| EncodedField_dex := nil_DEX; Field := zero_FieldIdItem;
     FieldIdxDiff := 0; EncodedField_AccessFlags := 0 |}.

Definition zero_EncodedMethod : EncodedMethod :=
  {| EncodedMethod_dex := nil_DEX; Method := zero_MethodIdItem;
     MethodIdxDiff := 0; EncodedMethod_AccessFlags := 0; CodeOffset := 0 |}.

Definition zero_ClassDataItem : ClassDataItem :=
  {| StaticFieldSize := 0; InstanceFieldSize := 0; DirectMethodsSize := 0;
     VirtualMethodsSize := 0; StaticFields := []; InstanceFields := [];
     DirectMethods := []; VirtualMethods := [] |}.

Definition zero_ClassDefItem : ClassDefItem :=
  {| ClassDefItem_dex := nil_DEX; ClassIdx := 0; AccessFlags := 0;
     SuperclassIdx := 0; InterfacesOffset := 0; SourceFileIdx := 0;
     AnnotationsOffset := 0; ClassData := zero_ClassDataItem;
     StaticValues := [] |}.

(** [make([]T, n)] *)
Definition make {A} (zero : A) (n : Z) : list A := repeat zero (Z.to_nat n).

(** [l[i] = x]: panics when [i] is out of range. *)
Fixpoint store_nth {A} (l : list A) (i : nat) (x : A) : option (list A) :=
  match l, i with
  | [], _ => None
  | _ :: l', O => Some (x :: l')
  | y :: l', Datatypes.S i' => l'' <- store_nth l' i' x ;; Some (y :: l'')
  end.

Definition store_index {A} (l : list A) (i : Z) (x : A) : option (list A) :=
  if i <? 0 then None else store_nth l (Z.to_nat i) x.

(** ** The table readers *)

(** [&DEX{b: b}] *)
Definition new_DEX (b : list byte) : DEX :=
  {| DEX_b := b; header := zero_Header; Strings := []; Types := [];
     Prototypes := []; Fields := []; Methods := []; Classes := [] |}.

Definition header_ptr : Ptr DEX Header :=
  {| load := header; store := set_header |}.

(** [func (d *DEX) readHeader() error] *)
Definition readHeader (d : DEX) : option (DEX * option error) :=
  '(d, _, err) <- Unpack packs_init (DEX_b d) (reflect_Header header_ptr) d ;;
  Some (d, err).

(** The loop of [readFields] from index [i] on, [n] iterations being left. *)
Fixpoint readFields_for (n : nat) (i : Z) (d : DEX)
  : option (DEX * option error) :=
  match n with
  | O => Some (d, None)
  | Datatypes.S n' =>
      let s := uint32 (uint32 (FieldsOffset (header d)) + uint32 (0x8 * i)) in
      let field_id_item := set_FieldIdItem_dex this_DEX zero_FieldIdItem in
      data <- slice_from (DEX_b d) s ;;
      '(field_id_item, _, err) <-
        Unpack packs_init data (reflect_FieldIdItem self) field_id_item ;;
      match err with
      | Some e => Some (d, Some e)
      | None =>
          l <- store_index (Fields d) i field_id_item ;;
          readFields_for n' (i + 1) (set_Fields l d)
      end
  end.

(** [func (d *DEX) readFields() error] *)
Definition readFields (d : DEX) : option (DEX * option error) :=
  let d := set_Fields (make zero_FieldIdItem (FieldsSize (header d))) d in
  readFields_for (Z.to_nat (FieldsSize (header d))) 0 d.

Fixpoint readMethods_for (n : nat) (i : Z) (d : DEX)
  : option (DEX * option error) :=
  match n with
  | O => Some (d, None)
  | Datatypes.S n' =>
      let s :=
        uint32 (uint32 (MethodIdsOffset (header d)) + uint32 (0x8 * i)) in
      let method_id_item := set_MethodIdItem_dex this_DEX zero_MethodIdItem in
      data <- slice_from (DEX_b d) s ;;
      '(method_id_item, _, err) <-
        Unpack packs_init data (reflect_MethodIdItem self) method_id_item ;;
      match err with
      | Some e => Some (d, Some e)
      | None =>
          l <- store_index (Methods d) i method_id_item ;;
          readMethods_for n' (i + 1) (set_Methods l d)
      end
  end.

(** [func (d *DEX) readMethods() error] *)
Definition readMethods (d : DEX) : option (DEX * option error) :=
  let d := set_Methods (make zero_MethodIdItem (MethodIdsSize (header d))) d in
  readMethods_for (Z.to_nat (MethodIdsSize (header d))) 0 d.

Fixpoint readTypes_for (n : nat) (i : Z) (d : DEX)
  : option (DEX * option error) :=
  match n with
  | O => Some (d, None)
  | Datatypes.S n' =>
      let typeid := set_TypeId_dex this_DEX zero_TypeId in
      data <- slice_from (DEX_b d)
                (uint32 (TypeIdsOffset (header d) + uint32 (4 * i))) ;;
      '(typeid, _, err) <-
        Unpack packs_init data (reflect_TypeId self) typeid ;;
      match err with
      | Some e => Some (d, Some e)
      | None =>
          l <- store_index (Types d) i typeid ;;
          readTypes_for n' (i + 1) (set_Types l d)
      end
  end.

(** [func (d *DEX) readTypes() error] *)
Definition readTypes (d : DEX) : option (DEX * option error) :=
  let d := set_Types (make zero_TypeId (TypeIdsSize (header d))) d in
  readTypes_for (Z.to_nat (TypeIdsSize (header d))) 0 d.

Fixpoint readStrings_for (n : nat) (i : Z) (data : list byte) (d : DEX)
  : option DEX :=
  match n with
  | O => Some d
  | Datatypes.S n' =>
      let offset := i * 4 in
      w <- slice data offset (offset + 4) ;;
      string_data_offset <- LittleEndian_Uint32 w ;;
      sd <- slice_from (DEX_b d) string_data_offset ;;
      '(s, _) <- str sd ;;
      l <- store_index (Strings d) i s ;;
      readStrings_for n' (i + 1) data (set_Strings l d)
  end.

(** [func (d *DEX) readStrings() error] *)
Definition readStrings (d : DEX) : option (DEX * option error) :=
  let d := set_Strings (make EmptyString (StringIdsSize (header d))) d in
  data <- slice_from (DEX_b d) (StringIdsOffset (header d)) ;;
  d <- readStrings_for (Z.to_nat (StringIdsSize (header d))) 0 data d ;;
  Some (d, None).

Fixpoint readPrototypes_for (n : nat) (i : Z) (d : DEX)
  : option (DEX * option error) :=
  match n with
  | O => Some (d, None)
  | Datatypes.S n' =>
      let s := uint32 (uint32 (ProtosOffset (header d)) + uint32 (0xc * i)) in
      let proto_id_item := set_ProtoIdItem_dex this_DEX zero_ProtoIdItem in
      data <- slice_from (DEX_b d) s ;;
      '(proto_id_item, _, err) <-
        Unpack packs_init data (reflect_ProtoIdItem self) proto_id_item ;;
      match err with
      | Some e => Some (d, Some e)
      | None =>
          l <- store_index (Prototypes d) i proto_id_item ;;
          readPrototypes_for n' (i + 1) (set_Prototypes l d)
      end
  end.

(** [func (d *DEX) readPrototypes() error] *)
Definition readPrototypes (d : DEX) : option (DEX * option error) :=
  let d := set_Prototypes (make zero_ProtoIdItem (ProtosSize (header d))) d in
  readPrototypes_for (Z.to_nat (ProtosSize (header d))) 0 d.

(** ** Parse: the class loop and its closures *)

(** The variables of one iteration of the class loop of [Parse] that the
    registered closures share: [class_def_item], which is both the target of
    [Unpack] and captured by every closure; the loop variables [ef] and [em]
    of the list closures; and the locals [offset], [size] and [val] that the
    closures hand to built-in codecs by address. *)
Record Frame : Type := {
  class_def_item : ClassDefItem;
  ef : EncodedField;
  em : EncodedMethod;
  offset_var : Z;
  size_var : Z;
  val_var : Z
}.

Definition set_class_def_item (v : ClassDefItem) (r : Frame) : Frame :=
  {| class_def_item := v; ef := ef r; em := em r;
     offset_var := offset_var r; size_var := size_var r;
     val_var := val_var r |}.
Definition set_ef (v : EncodedField) (r : Frame) : Frame :=
  {| class_def_item := class_def_item r; ef := v; em := em r;
     offset_var := offset_var r; size_var := size_var r;
     val_var := val_var r |}.
Definition set_em (v : EncodedMethod) (r : Frame) : Frame :=
  {| class_def_item := class_def_item r; ef := ef r; em := v;
     offset_var := offset_var r; size_var := size_var r;
     val_var := val_var r |}.
Definition set_offset_var (v : Z) (r : Frame) : Frame :=
  {| class_def_item := class_def_item r; ef := ef r; em := em r;
     offset_var := v; size_var := size_var r; val_var := val_var r |}.
Definition set_size_var (v : Z) (r : Frame) : Frame :=
  {| class_def_item := class_def_item r; ef := ef r; em := em r;
     offset_var := offset_var r; size_var := v; val_var := val_var r |}.
Definition set_val_var (v : Z) (r : Frame) : Frame :=
  {| class_def_item := class_def_item r; ef := ef r; em := em r;
     offset_var := offset_var r; size_var := size_var r; val_var := v |}.

Definition class_def_item_ptr : Ptr Frame ClassDefItem :=
  {| load := class_def_item; store := set_class_def_item |}.

(** [&class_def_item.ClassData] *)
Definition ClassData_ptr : Ptr Frame ClassDataItem :=
  {| load := fun fr => ClassData (class_def_item fr);
     store := fun v fr =>
       set_class_def_item (set_ClassData v (class_def_item fr)) fr |}.

Definition ef_ptr : Ptr Frame EncodedField := {| load := ef; store := set_ef |}.
Definition em_ptr : Ptr Frame EncodedMethod := {| load := em; store := set_em |}.

Definition VALUE_STRING : Z := 0x17.

(** The frame a class-loop iteration starts with,
    [class_def_item := ClassDefItem{dex: dex}]. *)
Definition new_Frame : Frame :=
  {| class_def_item := set_ClassDefItem_dex this_DEX zero_ClassDefItem;
     ef := zero_EncodedField; em := zero_EncodedMethod;
     offset_var := 0; size_var := 0; val_var := 0 |}.

(** [packs] is one global map, and a closure looks a codec up in it when it
    runs. The calls of [Unpack] in [Parse] nest three deep (class def, class
    data, encoded field or method) and the structs of each level carry only
    tags registered at the levels below, so the map is unfolded into the
    three registries [packs_init], [packs_lists] and [packs_class]: the
    same keys are found at every lookup. What [Parse] writes to standard
    output is not modelled. *)
Section Closures.

(** Captured by the closures: [dex] with the tables read so far, and
    [b := dex.b]. *)
Variable dex : DEX.

(** The loop of the closure registered as ["staticfields"]. *)
Fixpoint staticfields_for (n : nat) (data : list byte)
         (j offset field_idx : Z) (fr : Frame) : option (Frame * Z) :=
  match n with
  | O => Some (fr, offset)
  | Datatypes.S n' =>
      let fr := set_ef (set_EncodedField_dex this_DEX zero_EncodedField) fr in
      d <- slice_from data offset ;;
      '(fr, length, _) <-
        Unpack packs_init d (reflect_EncodedField ef_ptr) fr ;;
      let field_idx := uint64 (field_idx + uint64 (FieldIdxDiff (ef fr))) in
      f <- index (Fields dex) field_idx ;;
      let fr := set_ef (set_Field f (ef fr)) fr in
      let offset := int (offset + length) in
      l <- store_index (StaticFields (load ClassData_ptr fr)) j (ef fr) ;;
      let fr :=
        store ClassData_ptr (set_StaticFields l (load ClassData_ptr fr)) fr in
      staticfields_for n' data (j + 1) offset field_idx fr
  end.

Definition staticfields : PackFunc Frame := fun data val fr =>
  let size := StaticFieldSize (load ClassData_ptr fr) in
  let fr :=
    store ClassData_ptr
      (set_StaticFields (make zero_EncodedField size)
         (load ClassData_ptr fr)) fr in
  '(fr, offset) <- staticfields_for (Z.to_nat size) data 0 0 0 fr ;;
  Some (fr, uint64 offset, None).

(** The loop of the closure registered as ["instancefields"]. *)
Fixpoint instancefields_for (n : nat) (data : list byte)
         (j offset field_idx : Z) (fr : Frame) : option (Frame * Z) :=
  match n with
  | O => Some (fr, offset)
  | Datatypes.S n' =>
      let fr := set_ef (set_EncodedField_dex this_DEX zero_EncodedField) fr in
      d <- slice_from data offset ;;
      '(fr, length, _) <-
        Unpack packs_init d (reflect_EncodedField ef_ptr) fr ;;
      let field_idx := uint64 (field_idx + uint64 (FieldIdxDiff (ef fr))) in
      f <- index (Fields dex) field_idx ;;
      let fr := set_ef (set_Field f (ef fr)) fr in
      let offset := int (offset + length) in
      l <- store_index (InstanceFields (load ClassData_ptr fr)) j (ef fr) ;;
      let fr :=
        store ClassData_ptr
          (set_InstanceFields l (load ClassData_ptr fr)) fr in
      instancefields_for n' data (j + 1) offset field_idx fr
  end.

Definition instancefields : PackFunc Frame := fun data val fr =>
  let size := InstanceFieldSize (load ClassData_ptr fr) in
  let fr :=
    store ClassData_ptr
      (set_InstanceFields (make zero_EncodedField size)
         (load ClassData_ptr fr)) fr in
  '(fr, offset) <- instancefields_for (Z.to_nat size) data 0 0 0 fr ;;
  Some (fr, uint64 offset, None).

(** The loop of the closure registered as ["directmethods"]. *)
Fixpoint directmethods_for (n : nat) (data : list byte)
         (j offset method_idx : Z) (fr : Frame) : option (Frame * Z) :=
  match n with
  | O => Some (fr, offset)
  | Datatypes.S n' =>
      let fr :=
        set_em (set_EncodedMethod_dex this_DEX zero_EncodedMethod) fr in
      d <- slice_from data offset ;;
      '(fr, length, _) <-
        Unpack packs_init d (reflect_EncodedMethod em_ptr) fr ;;
      let method_idx :=
        uint64 (method_idx + uint64 (MethodIdxDiff (em fr))) in
      m <- index (Methods dex) method_idx ;;
      let fr := set_em (set_Method m (em fr)) fr in
      let offset := int (offset + length) in
      l <- store_index (DirectMethods (load ClassData_ptr fr)) j (em fr) ;;
      let fr :=
        store ClassData_ptr
          (set_DirectMethods l (load ClassData_ptr fr)) fr in
      directmethods_for n' data (j + 1) offset method_idx fr
  end.

Definition directmethods : PackFunc Frame := fun data val fr =>
  let size := DirectMethodsSize (load ClassData_ptr fr) in
  let fr :=
    store ClassData_ptr
      (set_DirectMethods (make zero_EncodedMethod size)
         (load ClassData_ptr fr)) fr in
  '(fr, offset) <- directmethods_for (Z.to_nat size) data 0 0 0 fr ;;
  Some (fr, uint64 offset, None).

(** The loop of the closure registered as ["virtualmethods"]. *)
Fixpoint virtualmethods_for (n : nat) (data : list byte)
         (j offset method_idx : Z) (fr : Frame) : option (Frame * Z) :=
  match n with
  | O => Some (fr, offset)
  | Datatypes.S n' =>
      let fr :=
        set_em (set_EncodedMethod_dex this_DEX zero_EncodedMethod) fr in
      d <- slice_from data offset ;;
      '(fr, length, _) <-
        Unpack packs_init d (reflect_EncodedMethod em_ptr) fr ;;
      let method_idx :=
        uint64 (method_idx + uint64 (MethodIdxDiff (em fr))) in
      m <- index (Methods dex) method_idx ;;
      let fr := set_em (set_Method m (em fr)) fr in
      l <- store_index (VirtualMethods (load ClassData_ptr fr)) j (em fr) ;;
      let fr :=
        store ClassData_ptr
          (set_VirtualMethods l (load ClassData_ptr fr)) fr in
      let offset := int (offset + length) in
      virtualmethods_for n' data (j + 1) offset method_idx fr
  end.

Definition virtualmethods : PackFunc Frame := fun data val fr =>
  let size := VirtualMethodsSize (load ClassData_ptr fr) in
  let fr :=
    store ClassData_ptr
      (set_VirtualMethods (make zero_EncodedMethod size)
         (load ClassData_ptr fr)) fr in
  '(fr, offset) <- virtualmethods_for (Z.to_nat size) data 0 0 0 fr ;;
  Some (fr, uint64 offset, None).

(** The registry as the closure ["classdata"] finds it when it unpacks
    the class data. *)
Definition packs_lists : Packs Frame :=
  RegisterPack "virtualmethods" virtualmethods
    (RegisterPack "directmethods" directmethods
       (RegisterPack "instancefields" instancefields
          (RegisterPack "staticfields" staticfields packs_init))).

(** The closure registered as ["classdata"]. *)
Definition classdata : PackFunc Frame := fun data val fr =>
  let fr := set_offset_var 0 fr in
  '(fr, length, err) <-
    call packs_lists "uint" data (UintValue 32 set_offset_var) fr ;;
  if offset_var fr =? 0 then Some (fr, length, err)
  else
    bs <- slice_from (DEX_b dex) (offset_var fr) ;;
    '(fr, _, _) <-
      Unpack packs_lists bs (reflect_ClassDataItem ClassData_ptr) fr ;;
    Some (fr, length, err).

(** The inner loop of ["staticvalues"],
    [for k := uint64(0); k <= size2; k++]. *)
Fixpoint stringIdx_for (n : nat) (k offset stringIdx : Z) : option Z :=
  match n with
  | O => Some stringIdx
  | Datatypes.S n' =>
      x <- index (DEX_b dex) (uint32 (uint32 (offset + 1) + uint32 k)) ;;
      stringIdx_for n' (k + 1) offset
        (uint32 (stringIdx + uint32 (Z.shiftl (u8 x) (k * 8))))
  end.

(** The loop of the closure registered as ["staticvalues"]. No codec is
    ever registered under ["ubyte"], so its first iteration panics. *)
Fixpoint staticvalues_for (n : nat) (j length : Z) (fr : Frame)
  : option (Frame * Z) :=
  match n with
  | O => Some (fr, length)
  | Datatypes.S n' =>
      let ev := set_EncodedValue_dex this_DEX zero_EncodedValue in
      let fr := set_val_var 0 fr in
      bs <- slice_from (DEX_b dex) (offset_var fr) ;;
      '(fr, length, _) <-
        call packs_lists "ubyte" bs (UintValue 32 set_val_var) fr ;;
      let val := val_var fr in
      let valueType := Z.land val 0x1f in
      let size2 := Z.shiftr (uint64 (Z.land val 0xE0)) 5 in
      _ <- (if valueType =? VALUE_STRING
            then stringIdx <-
                   stringIdx_for (Z.to_nat (size2 + 1)) 0 (offset_var fr) 0 ;;
                 index (Strings dex) stringIdx
            else Some EmptyString) ;;
      let fr :=
        set_offset_var
          (uint32 (offset_var fr + Z.shiftr (Z.land (uint32 val) 0x0E) 5))
          fr in
      l <- store_index (StaticValues (class_def_item fr)) j ev ;;
      let fr :=
        set_class_def_item (set_StaticValues l (class_def_item fr)) fr in
      staticvalues_for n' (j + 1) length fr
  end.

(** The closure registered as ["staticvalues"]. *)
Definition staticvalues : PackFunc Frame := fun data val fr =>
  let fr := set_offset_var 0 fr in
  '(fr, length, err) <-
    call packs_lists "uint" data (UintValue 32 set_offset_var) fr ;;
  if offset_var fr =? 0 then Some (fr, length, err)
  else
    let fr := set_size_var 0 fr in
    bs <- slice_from (DEX_b dex) (offset_var fr) ;;
    '(fr, length, err) <-
      call packs_lists "uleb128" bs (UintValue 64 set_size_var) fr ;;
    let fr := set_offset_var (uint32 (offset_var fr + uint32 length)) fr in
    let fr :=
      set_class_def_item
        (set_StaticValues (make zero_EncodedValue (size_var fr))
           (class_def_item fr)) fr in
    '(fr, length) <-
      staticvalues_for (Z.to_nat (size_var fr)) 0 length fr ;;
    Some (fr, length, err).

(** The registry when [Parse] unpacks a class def. *)
Definition packs_class : Packs Frame :=
  RegisterPack "staticvalues" staticvalues
    (RegisterPack "classdata" classdata packs_lists).

End Closures.

(** The class loop of [Parse] from index [i] on. *)
Fixpoint Parse_for (n : nat) (i : Z) (dex : DEX) : option DEX :=
  match n with
  | O => Some dex
  | Datatypes.S n' =>
      let s :=
        uint32 (uint32 (ClassDefsOffset (header dex)) + uint32 (32 * i)) in
      let fr := new_Frame in
      data <- slice_from (DEX_b dex) s ;;
      '(fr, _, _) <-
        Unpack (packs_class dex) data
          (reflect_ClassDefItem class_def_item_ptr) fr ;;
      l <- store_index (Classes dex) i (class_def_item fr) ;;
      Parse_for n' (i + 1) (set_Classes l dex)
  end.

(** [if err := f(); err != nil { return err }] *)
Notation "'check' d <- a ;; k" :=
  (match a with
   | Some (d, None) => k
   | Some (d, Some e) => Some (d, Some e)
   | None => None
   end)
  (at level 61, d name, a at next level, right associativity).

(** [func (dex *DEX) Parse() error]: the object as [Parse] leaves it, and
    the error returned. *)
Definition Parse (dex : DEX) : option (DEX * option error) :=
  check dex <- readHeader dex ;;
  check dex <- readStrings dex ;;
  check dex <- readTypes dex ;;
  check dex <- readPrototypes dex ;;
  check dex <- readFields dex ;;
  check dex <- readMethods dex ;;
  let dex :=
    set_Classes (make zero_ClassDefItem (ClassDefsSize (header dex))) dex in
  dex <- Parse_for (Z.to_nat (ClassDefsSize (header dex))) 0 dex ;;
  Some (dex, None).

(** ** Open *)

(** What [os.Open] and [ioutil.ReadAll] find at a path: nothing that can be
    opened, a file that cannot be read to its end, or the bytes of a file. *)
Inductive File : Type :=
| Unreadable
| Readable (content : list byte).

Definition FileSystem : Type := string -> option File.

(** [func Open(path string)], returning a [*DEX] and an [error] *)
Definition Open (fs : FileSystem) (path : string)
  : option (option DEX * option error) :=
  match fs path with
  | None => Some (None, Some (os_error "open" path))
  | Some Unreadable => Some (None, Some (os_error "read" path))
  | Some (Readable b) =>
      let dex := new_DEX b in
      '(dex, _) <- Parse dex ;;
      Some (Some dex, None)
  end.

(** ** The disassembler *)

(** [type Instruction struct] *)
Record Instruction : Type := { Name : string; Length : Z }.

(** [var instructions map[byte]Instruction], as the list of its entries in
    source order (the keys are distinct). *)
Definition instructions_table : list (Z * Instruction) :=
  [ (0x00, {| Name := "nop"; Length := 0 |});
    (0x01, {| Name := "move vA, vB"; Length := 1 |});
    (0x02, {| Name := "move/from16 vAA, vBBBB"; Length := 3 |});
    (0x03, {| Name := "move/16 vAAAA, vBBBB"; Length := 4 |});
    (0x04, {| Name := "move-wide vA, vB"; Length := 1 |});
    (0x05, {| Name := "move-wide/from16 vAA, vBBBB"; Length := 3 |});
    (0x06, {| Name := "move-wide/16 vAAAA, vBBBB"; Length := 4 |});
    (0x07, {| Name := "move-object vA, vB"; Length := 1 |});
    (0x08, {| Name := "move-object/from16 vAA, vBBBB"; Length := 3 |});
    (0x09, {| Name := "move-object/16 vAAAA, vBBBB"; Length := 4 |});
    (0x0a, {| Name := "move-result vAA"; Length := 1 |});
    (0x0b, {| Name := "move-result-wide vAA"; Length := 1 |});
    (0x0c, {| Name := "move-result-object vAA"; Length := 1 |});
    (0x0d, {| Name := "move-exception vAA"; Length := 1 |});
    (0x0e, {| Name := "return-void"; Length := 1 |});
    (0x0f, {| Name := "return vAA"; Length := 1 |});
    (0x10, {| Name := "return-wide vAA"; Length := 1 |});
    (0x11, {| Name := "return-object vAA"; Length := 1 |});
    (0x12, {| Name := "const/4 vA, #+B"; Length := 1 |});
    (0x13, {| Name := "const/16 vAA, #+BBBB"; Length := 3 |});
    (0x14, {| Name := "const vAA, #+BBBBBBBB"; Length := 5 |});
    (0x15, {| Name := "const/high16 vAA, #+BBBB0000"; Length := 5 |});
    (0x16, {| Name := "const-wide/16 vAA, #+BBBB"; Length := 3 |});
    (0x17, {| Name := "const-wide/32 vAA, #+BBBBBBBB"; Length := 5 |});
    (0x18, {| Name := "const-wide vAA, #+BBBBBBBBBBBBBBBB"; Length := 9 |});
    (0x19, {| Name := "const-wide/high16 vAA, #+BBBB000000000000"; Length := 9 |});
    (0x1a, {| Name := "const-string vAA, string@BBBB"; Length := 3 |});
    (0x1b, {| Name := "const-string/jumbo vAA, string@BBBBBBBB"; Length := 5 |});
    (0x1c, {| Name := "const-class vAA, type@BBBB"; Length := 3 |});
    (0x1d, {| Name := "monitor-enter vAA"; Length := 1 |});
    (0x1e, {| Name := "monitor-exit vAA"; Length := 1 |});
    (0x1f, {| Name := "check-cast vAA, type@BBBB"; Length := 3 |});
    (0x20, {| Name := "instance-of vA, vB, type@CCCC"; Length := 3 |});
    (0x21, {| Name := "array-length vA, vB"; Length := 1 |});
    (0x22, {| Name := "new-instance vAA, type@BBBB"; Length := 3 |});
    (0x23, {| Name := "new-array vA, vB, type@CCCC"; Length := 3 |});
    (0x24, {| Name := "filled-new-array {Name:vC, vD, vE, vF, vG}, type@BBBB"; Length := (-1) |});
    (0x25, {| Name := "filled-new-array/range {Name:vCCCC .. vNNNN}, type@BBBB"; Length := (-1) |});
    (0x26, {| Name := "fill-array-data vAA, +BBBBBBBB"; Length := (-1) |});
    (0x27, {| Name := "throw vAA"; Length := 1 |});
    (0x28, {| Name := "goto +AA"; Length := 1 |});
    (0x29, {| Name := "goto/16 +AAAA"; Length := 2 |});
    (0x2a, {| Name := "goto/32 +AAAAAAAA"; Length := 4 |});
    (0x2b, {| Name := "packed-switch vAA, +BBBBBBBB"; Length := (-1) |});
    (0x2c, {| Name := "sparse-switch vAA, +BBBBBBBB"; Length := (-1) |});
    (0x2d, {| Name := "cmpl-float vAA, vBB, vCC"; Length := 3 |});
    (0x2e, {| Name := "cmpg-float vAA, vBB, vCC"; Length := 3 |});
    (0x2f, {| Name := "cmpl-double vAA, vBB, vCC"; Length := 3 |});
    (0x30, {| Name := "cmplg-double vAA, vBB, vCC"; Length := 3 |});
    (0x31, {| Name := "cmp-long vAA, vBB, vCC"; Length := 3 |});
    (0x32, {| Name := "if-eq vA, vB, +CCCC"; Length := 3 |});
    (0x33, {| Name := "if-ne vA, vB, +CCCC"; Length := 3 |});
    (0x34, {| Name := "if-lt vA, vB, +CCCC"; Length := 3 |});
    (0x35, {| Name := "if-ge vA, vB, +CCCC"; Length := 3 |});
    (0x36, {| Name := "if-gt vA, vB, +CCCC"; Length := 3 |});
    (0x37, {| Name := "if-le vA, vB, +CCCC"; Length := 3 |});
    (0x38, {| Name := "if-eqz vAA, +BBBB"; Length := 3 |});
    (0x39, {| Name := "if-nez vAA, +BBBB"; Length := 3 |});
    (0x3a, {| Name := "if-ltz vAA, +BBBB"; Length := 3 |});
    (0x3b, {| Name := "if-gez vAA, +BBBB"; Length := 3 |});
    (0x3c, {| Name := "if-gtz vAA, +BBBB"; Length := 3 |});
    (0x3d, {| Name := "if-lez vAA, +BBBB"; Length := 3 |});
    (0x44, {| Name := "aget vAA, vBB, vCC"; Length := (-1) |});
    (0x45, {| Name := "aget-wide vAA, vBB, vCC"; Length := (-1) |});
    (0x46, {| Name := "aget-object vAA, vBB, vCC"; Length := (-1) |});
    (0x47, {| Name := "aget-boolean vAA, vBB, vCC"; Length := (-1) |});
    (0x48, {| Name := "aget-byte vAA, vBB, vCC"; Length := (-1) |});
    (0x49, {| Name := "aget-char vAA, vBB, vCC"; Length := (-1) |});
    (0x4a, {| Name := "aget-short vAA, vBB, vCC"; Length := (-1) |});
    (0x4b, {| Name := "aput vAA, vBB, vCC"; Length := (-1) |});
    (0x4c, {| Name := "aput-wide vAA, vBB, vCC"; Length := (-1) |});
    (0x4d, {| Name := "aput-object vAA, vBB, vCC"; Length := (-1) |});
    (0x4e, {| Name := "aput-boolean vAA, vBB, vCC"; Length := (-1) |});
    (0x4f, {| Name := "aput-byte vAA, vBB, vCC"; Length := (-1) |});
    (0x50, {| Name := "aput-char vAA, vBB, vCC"; Length := (-1) |});
    (0x51, {| Name := "aput-short vAA, vBB, vCC"; Length := (-1) |});
    (0x52, {| Name := "iget vA, vB, field@CCCC"; Length := 3 |});
    (0x53, {| Name := "iget-wide vA, vB, field@CCCC"; Length := 3 |});
    (0x54, {| Name := "iget-object vA, vB, field@CCCC"; Length := 3 |});
    (0x55, {| Name := "iget-boolean vA, vB, field@CCCC"; Length := 3 |});
    (0x56, {| Name := "iget-byte vA, vB, field@CCCC"; Length := 3 |});
    (0x57, {| Name := "iget-char vA, vB, field@CCCC"; Length := 3 |});
    (0x58, {| Name := "iget-short vA, vB, field@CCCC"; Length := 3 |});
    (0x59, {| Name := "iput vA, vB, field@CCCC"; Length := 3 |});
    (0x5a, {| Name := "iput-wide vA, vB, field@CCCC"; Length := 3 |});
    (0x5b, {| Name := "iput-object vA, vB, field@CCCC"; Length := 3 |});
    (0x5c, {| Name := "iput-boolean vA, vB, field@CCCC"; Length := 3 |});
    (0x5d, {| Name := "iput-byte vA, vB, field@CCCC"; Length := 3 |});
    (0x5e, {| Name := "iput-char vA, vB, field@CCCC"; Length := 3 |});
    (0x5f, {| Name := "iput-short vA, vB, field@CCCC"; Length := 3 |});
    (0x60, {| Name := "sget vAA, field@BBBB"; Length := 3 |});
    (0x61, {| Name := "sget-wide vAA, field@BBBB"; Length := 3 |});
    (0x62, {| Name := "sget-object vAA, field@BBBB"; Length := 3 |});
    (0x63, {| Name := "sget-boolean vAA, field@BBBB"; Length := 3 |});
    (0x64, {| Name := "sget-byte vAA, field@BBBB"; Length := 3 |});
    (0x65, {| Name := "sget-char vAA, field@BBBB"; Length := 3 |});
    (0x66, {| Name := "sget-short vAA, field@BBBB"; Length := 3 |});
    (0x67, {| Name := "sput vAA, field@BBBB"; Length := 3 |});
    (0x68, {| Name := "sput-wide vAA, field@BBBB"; Length := 3 |});
    (0x69, {| Name := "sput-object vAA, field@BBBB"; Length := 3 |});
    (0x6a, {| Name := "sput-boolean vAA, field@BBBB"; Length := 3 |});
    (0x6b, {| Name := "sput-byte vAA, field@BBBB"; Length := 3 |});
    (0x6c, {| Name := "sput-char vAA, field@BBBB"; Length := 3 |});
    (0x6d, {| Name := "sput-short vAA, field@BBBB"; Length := 3 |});
    (0x6e, {| Name := "invoke-virtual {Name:vC, vD, vE, vF, vG}, meth@BBBB"; Length := 5 |});
    (0x6f, {| Name := "invoke-super {Name:vC, vD, vE, vF, vG}, meth@BBBB"; Length := 5 |});
    (0x70, {| Name := "invoke-direct {Name:vC, vD, vE, vF, vG}, meth@BBBB"; Length := 5 |});
    (0x71, {| Name := "invoke-static {Name:vC, vD, vE, vF, vG}, meth@BBBB"; Length := 5 |});
    (0x72, {| Name := "invoke-interface {Name:vC, vD, vE, vF, vG}, meth@BBBB"; Length := 5 |});
    (0x74, {| Name := "invoke-virtual/range {Name:vCCCC .. vNNNN}, meth@BBBB"; Length := 5 |});
    (0x75, {| Name := "invoke-super/range {Name:vCCCC .. vNNNN}, meth@BBBB"; Length := 5 |});
    (0x76, {| Name := "invoke-direct/range {Name:vCCCC .. vNNNN}, meth@BBBB"; Length := 5 |});
    (0x77, {| Name := "invoke-static/range {Name:vCCCC .. vNNNN}, meth@BBBB"; Length := 5 |});
    (0x78, {| Name := "invoke-interface/range {Name:vCCCC .. vNNNN}, meth@BBBB"; Length := 5 |});
    (0x7b, {| Name := "neg-int vA, vB"; Length := 1 |});
    (0x7c, {| Name := "not-int vA, vB"; Length := 1 |});
    (0x7d, {| Name := "neg-long vA, vB"; Length := 1 |});
    (0x7e, {| Name := "not-long vA, vB"; Length := 1 |});
    (0x7f, {| Name := "neg-float vA, vB"; Length := 1 |});
    (0x80, {| Name := "neg-double vA, vB"; Length := 1 |});
    (0x81, {| Name := "int-to-long vA, vB"; Length := 1 |});
    (0x82, {| Name := "int-to-float vA, vB"; Length := 1 |});
    (0x83, {| Name := "int-to-double vA, vB"; Length := 1 |});
    (0x84, {| Name := "long-to-int vA, vB"; Length := 1 |});
    (0x85, {| Name := "long-to-float vA, vB"; Length := 1 |});
    (0x86, {| Name := "long-to-double vA, vB"; Length := 1 |});
    (0x87, {| Name := "float-to-int vA, vB"; Length := 1 |});
    (0x88, {| Name := "float-to-long vA, vB"; Length := 1 |});
    (0x89, {| Name := "float-to-double vA, vB"; Length := 1 |});
    (0x8a, {| Name := "double-to-int vA, vB"; Length := 1 |});
    (0x8b, {| Name := "double-to-long vA, vB"; Length := 1 |});
    (0x8c, {| Name := "double-to-float vA, vB"; Length := 1 |});
    (0x8d, {| Name := "int-to-byte vA, vB"; Length := 1 |});
    (0x8e, {| Name := "int-to-char vA, vB"; Length := 1 |});
    (0x8f, {| Name := "int-to-short vA, vB"; Length := 1 |});
    (0x90, {| Name := "add-int vAA, vBB, vCC"; Length := 3 |});
    (0x91, {| Name := "sub-int vAA, vBB, vCC"; Length := 3 |});
    (0x92, {| Name := "mul-int vAA, vBB, vCC"; Length := 3 |});
    (0x93, {| Name := "div-int vAA, vBB, vCC"; Length := 3 |});
    (0x94, {| Name := "rem-int vAA, vBB, vCC"; Length := 3 |});
    (0x95, {| Name := "and-int vAA, vBB, vCC"; Length := 3 |});
    (0x96, {| Name := "or-int vAA, vBB, vCC"; Length := 3 |});
    (0x97, {| Name := "xor-int vAA, vBB, vCC"; Length := 3 |});
    (0x98, {| Name := "shl-int vAA, vBB, vCC"; Length := 3 |});
    (0x99, {| Name := "shr-int vAA, vBB, vCC"; Length := 3 |});
    (0x9a, {| Name := "ushr-int vAA, vBB, vCC"; Length := 3 |});
    (0x9b, {| Name := "add-long vAA, vBB, vCC"; Length := 3 |});
    (0x9c, {| Name := "sub-long vAA, vBB, vCC"; Length := 3 |});
    (0x9d, {| Name := "mul-long vAA, vBB, vCC"; Length := 3 |});
    (0x9e, {| Name := "div-long vAA, vBB, vCC"; Length := 3 |});
    (0x9f, {| Name := "rem-long vAA, vBB, vCC"; Length := 3 |});
    (0xa0, {| Name := "and-long vAA, vBB, vCC"; Length := 3 |});
    (0xa1, {| Name := "or-long vAA, vBB, vCC"; Length := 3 |});
    (0xa2, {| Name := "xor-long vAA, vBB, vCC"; Length := 3 |});
    (0xa3, {| Name := "shl-long vAA, vBB, vCC"; Length := 3 |});
    (0xa4, {| Name := "shr-long vAA, vBB, vCC"; Length := 3 |});
    (0xa5, {| Name := "ushr-long vAA, vBB, vCC"; Length := 3 |});
    (0xa6, {| Name := "add-float vAA, vBB, vCC"; Length := 3 |});
    (0xa7, {| Name := "sub-float vAA, vBB, vCC"; Length := 3 |});
    (0xa8, {| Name := "mul-float vAA, vBB, vCC"; Length := 3 |});
    (0xa9, {| Name := "div-float vAA, vBB, vCC"; Length := 3 |});
    (0xaa, {| Name := "rem-float vAA, vBB, vCC"; Length := 3 |});
    (0xab, {| Name := "add-double vAA, vBB, vCC"; Length := 3 |});
    (0xac, {| Name := "sub-double vAA, vBB, vCC"; Length := 3 |});
    (0xad, {| Name := "mul-double vAA, vBB, vCC"; Length := 3 |});
    (0xae, {| Name := "div-double vAA, vBB, vCC"; Length := 3 |});
    (0xaf, {| Name := "rem-double vAA, vBB, vCC"; Length := 3 |});
    (0xb0, {| Name := "add-int/2addr vA, vB"; Length := 1 |});
    (0xb1, {| Name := "sub-int2addr vA, vB"; Length := 1 |});
    (0xb2, {| Name := "mul-int/2addr vA, vB"; Length := 1 |});
    (0xb3, {| Name := "div-int/2addr vA, vB"; Length := 1 |});
    (0xb4, {| Name := "rem-int/2addr vA, vB"; Length := 1 |});
    (0xb5, {| Name := "and-int/2addr vA, vB"; Length := 1 |});
    (0xb6, {| Name := "or-int/2addr vA, vB"; Length := 1 |});
    (0xb7, {| Name := "xor-int/2addr vA, vB"; Length := 1 |});
    (0xb8, {| Name := "shl-int/2addr vA, vB"; Length := 1 |});
    (0xb9, {| Name := "shr-int/2addr vA, vB"; Length := 1 |});
    (0xba, {| Name := "ushr-int/2addr vA, vB"; Length := 1 |});
    (0xbb, {| Name := "add-long/2addr vA, vB"; Length := 1 |});
    (0xbc, {| Name := "sub-long/2addr vA, vB"; Length := 1 |});
    (0xbd, {| Name := "mul-long/2addr vA, vB"; Length := 1 |});
    (0xbe, {| Name := "div-long/2addr vA, vB"; Length := 1 |});
    (0xbf, {| Name := "rem-long/2addr vA, vB"; Length := 1 |});
    (0xc0, {| Name := "and-long/2addr vA, vB"; Length := 1 |});
    (0xc1, {| Name := "or-long/2addr vA, vB"; Length := 1 |});
    (0xc2, {| Name := "xor-long/2addr vA, vB"; Length := 1 |});
    (0xc3, {| Name := "shl-long/2addr vA, vB"; Length := 1 |});
    (0xc4, {| Name := "shr-long/2addr vA, vB"; Length := 1 |});
    (0xc5, {| Name := "ushr-long/2addr vA, vB"; Length := 1 |});
    (0xc6, {| Name := "add-float/2addr vA, vB"; Length := 1 |});
    (0xc7, {| Name := "sub-float/2addr vA, vB"; Length := 1 |});
    (0xc8, {| Name := "mul-float/2addr vA, vB"; Length := 1 |});
    (0xc9, {| Name := "div-float/2addr vA, vB"; Length := 1 |});
    (0xca, {| Name := "rem-float/2addr vA, vB"; Length := 1 |});
    (0xcb, {| Name := "add-double/2addr vA, vB"; Length := 1 |});
    (0xcc, {| Name := "sub-double/2addr vA, vB"; Length := 1 |});
    (0xcd, {| Name := "mul-double/2addr vA, vB"; Length := 1 |});
    (0xce, {| Name := "div-double/2addr vA, vB"; Length := 1 |});
    (0xcf, {| Name := "rem-double/2addr vA, vB"; Length := 1 |});
    (0xd0, {| Name := "add-int/lit16 vA, vB, #+CCCC"; Length := 3 |});
    (0xd1, {| Name := "rsub-int/lit16 vA, vB, #+CCCC"; Length := 3 |});
    (0xd2, {| Name := "mul-int/lit16 vA, vB, #+CCCC"; Length := 3 |});
    (0xd3, {| Name := "div-int/lit16 vA, vB, #+CCCC"; Length := 3 |});
    (0xd4, {| Name := "rem-int/lit16 vA, vB, #+CCCC"; Length := 3 |});
    (0xd5, {| Name := "and-int/lit16 vA, vB, #+CCCC"; Length := 3 |});
    (0xd6, {| Name := "or-int/lit16 vA, vB, #+CCCC"; Length := 3 |});
    (0xd7, {| Name := "xor-int/lit16 vA, vB, #+CCCC"; Length := 3 |});
    (0xd8, {| Name := "add-int/lit8 vAA, vBB, #+CC"; Length := 3 |});
    (0xd9, {| Name := "rsub-int/lit8 vAA, vBB, #+CC"; Length := 3 |});
    (0xda, {| Name := "mul-int/lit8 vAA, vBB, #+CC"; Length := 3 |});
    (0xdb, {| Name := "div-int/lit8 vAA, vBB, #+CC"; Length := 3 |});
    (0xdc, {| Name := "rem-int/lit8 vAA, vBB, #+CC"; Length := 3 |});
    (0xdd, {| Name := "and-int/lit8 vAA, vBB, #+CC"; Length := 3 |});
    (0xde, {| Name := "or-int/lit8 vAA, vBB, #+CC"; Length := 3 |});
    (0xdf, {| Name := "xor-int/lit8 vAA, vBB, #+CC"; Length := 3 |});
    (0xe0, {| Name := "shl-int/lit8 vAA, vBB, #+CC"; Length := 3 |});
    (0xe1, {| Name := "shr-int/lit8 vAA, vBB, #+CC"; Length := 3 |});
    (0xe2, {| Name := "ushr-int/lit8 vAA, vBB, #+CC"; Length := 3 |}) ].

(** [instruction, ok := instructions[code]] *)
Definition instructions (code : Z) : option Instruction :=
  option_map snd (find (fun e => fst e =? code) instructions_table).

(** [%d] and [%x] of a non-negative integer, and [%0.2x]: at least two
    hexadecimal digits. *)
Definition fmt_d (z : Z) : string :=
  DecimalString.NilZero.string_of_uint (N.to_uint (Z.to_N z)).

Definition fmt_x (z : Z) : string :=
  HexadecimalString.NilZero.string_of_uint (N.to_hex_uint (Z.to_N z)).

Definition fmt_02x (z : Z) : string :=
  if z <? 16 then ("0" ++ fmt_x z)%string else fmt_x z.

(** [p.f] through a [*DEX]: a nil pointer panics. *)
Definition deref (p : DEXptr) (d : DEX) : option DEX :=
  match p with this_DEX => Some d | nil_DEX => None end.

Section Disassemble.

(** The object every non-nil [*DEX] points to. *)
Variable d : DEX.

(** [func (m *MethodIdItem) Name() string] *)
Definition MethodIdItem_Name (m : MethodIdItem) : option string :=
  dex <- deref (MethodIdItem_dex m) d ;;
  index (Strings dex) (MethodIdItem_NameIdx m).

(** [func (t *TypeId) String() string] *)
Definition TypeId_String (t : TypeId) : option string :=
  dex <- deref (TypeId_dex t) d ;;
  index (Strings dex) (DescriptorIdx t).

(** The chain of [if]s in the loop of [Disassemble], entered with
    [offset] already one past the opcode byte: the line to print, or
    nothing when the chain ends in its last [else] (whose [break] leaves
    the loop). *)
Definition Disassemble_operands (dex : DEX) (instruction_code : Z)
           (instruction : Instruction) (offset : Z) (str : string)
  : option (option string) :=
  let b := DEX_b dex in
  let c := instruction_code in
  if (c =? 0x6e) || (c =? 0x6f) || (c =? 0x70) || (c =? 0x71) then
    w <- slice b (offset + 1) (offset + 3) ;;
    methodIdx <- LittleEndian_Uint16 w ;;
    mi <- index (Methods dex) methodIdx ;;
    name <- MethodIdItem_Name mi ;;
    Some (Some (str ++ " #" ++ name)%string)
  else if (c =? 0x72) || (c =? 0x73) || (c =? 0x74) then
    w <- slice b (offset + 1) (offset + 3) ;;
    methodIdx <- LittleEndian_Uint16 w ;;
    mi <- index (Methods dex) methodIdx ;;
    name <- MethodIdItem_Name mi ;;
    Some (Some (str ++ " #" ++ name)%string)
  else if c =? 0x22 then
    r <- index b offset ;;
    let register := u8 r in
    w <- slice b (offset + 1) (offset + 3) ;;
    typeIdx <- LittleEndian_Uint16 w ;;
    t <- index (Types dex) typeIdx ;;
    ts <- TypeId_String t ;;
    Some (Some (str ++ " # " ++ fmt_d register ++ "=" ++ ts)%string)
  else if c =? 0x39 then
    r <- index b offset ;;
    let register := u8 r in
    Some (Some (str ++ " # Register: " ++ fmt_d register)%string)
  else if c =? 0x07 then
    r <- index b offset ;;
    let dest := Z.land (u8 r) 0x0F in
    let src := Z.shiftr (Z.land (u8 r) 0xF0) 4 in
    Some (Some (str ++ " # Register: " ++ fmt_d dest ++ " = "
                    ++ fmt_d src ++ " ")%string)
  else if c =? 0x12 then
    r <- index b offset ;;
    let register := Z.land (u8 r) 0x0F in
    let value := Z.shiftr (Z.land (u8 r) 0xF0) 4 in
    Some (Some (str ++ " # Register: " ++ fmt_d register ++ " = "
                    ++ fmt_d value ++ " ")%string)
  else if (c =? 0x0a) || (c =? 0xb) || (c =? 0x0c) then
    r <- index b offset ;;
    let register := u8 r in
    Some (Some (str ++ " # Register: " ++ fmt_d register)%string)
  else if c =? 0x1a then
    r <- index b offset ;;
    let register := u8 r in
    let str := (str ++ " # Register: " ++ fmt_d register)%string in
    w <- slice b (offset + 1) (offset + 3) ;;
    stringIdx <- LittleEndian_Uint16 w ;;
    s <- index (Strings dex) stringIdx ;;
    Some (Some (str ++ " # " ++ fmt_d register ++ "=" ++ s)%string)
  else if negb (Length instruction =? -1) then Some (Some str)
  else Some None.

(** The loop [for offset < int(m.CodeOffset)+16+(size*2)] of
    [Disassemble]: the lines it prints. [fuel] bounds the number of
    iterations; [Disassemble] passes the number of bytes between the
    cursor and the end of the block, and every iteration that goes on
    moves the cursor forward (lemma [Disassemble_for_fuel]). *)
Fixpoint Disassemble_for (fuel : nat) (dex : DEX) (m : EncodedMethod)
         (size offset : Z) : option (list string) :=
  match fuel with
  | O => Some []
  | Datatypes.S fuel' =>
      if offset <? int (CodeOffset m) + 16 + size * 2 then
        instruction_code <- index (DEX_b dex) offset ;;
        match instructions (u8 instruction_code) with
        | Some instruction =>
            let str :=
              (fmt_02x (u8 instruction_code) ++ " " ++ Name instruction)
                %string in
            let offset := offset + 1 in
            r <- Disassemble_operands dex (u8 instruction_code)
                   instruction offset str ;;
            match r with
            | Some str =>
                let offset := offset + Length instruction in
                rest <- Disassemble_for fuel' dex m size offset ;;
                Some (str :: rest)
            | None =>
                Some [("Invalid opcode " ++ fmt_x (u8 instruction_code))
                        %string]
            end
        | None => Some []
        end
      else Some []
  end.

(** [func (m *EncodedMethod) Disassemble() error]: the lines written to
    standard output, one for each call of [Println] or [Printf], and the
    error returned. *)
Definition Disassemble (m : EncodedMethod)
  : option (list string * option error) :=
  let out := ["*****"; fmt_d (CodeOffset m)]%string in
  let offset := int (CodeOffset m) in
  let offset := offset + 12 in
  dex <- deref (EncodedMethod_dex m) d ;;
  w <- slice (DEX_b dex) offset (offset + 4) ;;
  size <- LittleEndian_Uint32 w ;;
  let out := out ++ [("Size: " ++ fmt_d size)%string] in
  let offset := offset + 4 in
  let fuel := Z.to_nat (int (CodeOffset m) + 16 + size * 2 - offset) in
  lines <- Disassemble_for fuel dex m size offset ;;
  Some (out ++ lines ++ ["*****"%string], None).

End Disassemble.

(** ** Access flags and value types *)

(** [const ( ACC_PUBLIC = 1 << iota ... )]: seventeen constants numbered by
    [iota], then the two given outright. *)
Definition ACC_PUBLIC : Z := Z.shiftl 1 0.
Definition ACC_PRIVATE : Z := Z.shiftl 1 1.
Definition ACC_PROTECTED : Z := Z.shiftl 1 2.
Definition ACC_STATIC : Z := Z.shiftl 1 3.
Definition ACC_FINAL : Z := Z.shiftl 1 4.
Definition ACC_SYNCHRONIZED : Z := Z.shiftl 1 5.
Definition ACC_VOLATILE : Z := Z.shiftl 1 6.
Definition ACC_BRIDGE : Z := Z.shiftl 1 7.
Definition ACC_TRANSIENT : Z := Z.shiftl 1 8.
Definition ACC_VARARGS : Z := Z.shiftl 1 9.
Definition ACC_NATIVE : Z := Z.shiftl 1 10.
Definition ACC_INTERFACE : Z := Z.shiftl 1 11.
Definition ACC_ABSTRACT : Z := Z.shiftl 1 12.
Definition ACC_STRICT : Z := Z.shiftl 1 13.
Definition ACC_SYNTHETIC : Z := Z.shiftl 1 14.
Definition ACC_ANNOTATION : Z := Z.shiftl 1 15.
Definition ACC_ENUM : Z := Z.shiftl 1 16.
Definition ACC_CONSTRUCTOR : Z := 0x10000.
Definition ACC_DECLARED_SYNCHRONIZED : Z := 0x20000.

Definition NO_INDEX : Z := 0xffffffff.

(** [func (af AccessFlags) String() string] *)
Definition AccessFlags_String (af : Z) : string :=
  if Z.land af ACC_PUBLIC =? 0 then "public "
  else if negb (Z.land af ACC_PRIVATE =? 0) then "private "
  else if negb (Z.land af ACC_PROTECTED =? 0) then "protected "
  else if negb (Z.land af ACC_STATIC =? 0) then "static "
  else if negb (Z.land af ACC_FINAL =? 0) then "final "
  else if negb (Z.land af ACC_SYNCHRONIZED =? 0) then "synchronized "
  else if negb (Z.land af ACC_CONSTRUCTOR =? 0) then "constructor "
  else "".

Definition VALUE_BYTE : Z := 0x00.
Definition VALUE_SHORT : Z := 0x02.
Definition VALUE_CHAR : Z := 0x03.
Definition VALUE_INT : Z := 0x04.
Definition VALUE_LONG : Z := 0x06.
Definition VALUE_FLOAT : Z := 0x10.
Definition VALUE_DOUBLE : Z := 0x11.
Definition VALUE_TYPE : Z := 0x18.
Definition VALUE_FIELD : Z := 0x19.
Definition VALUE_METHOD : Z := 0x1a.
Definition VALUE_ENUM : Z := 0x1b.
Definition VALUE_ARRAY : Z := 0x1c.
Definition VALUE_ANNOTATION : Z := 0x1d.
Definition VALUE_NULL : Z := 0x1e.
Definition VALUE_BOOLEAN : Z := 0x1f.

(** [func (vt ValueType) String() string] *)
Definition ValueType_String (vt : Z) : string :=
  if vt =? VALUE_BYTE then "byte"
  else if vt =? VALUE_SHORT then "short"
  else if vt =? VALUE_CHAR then "char"
  else if vt =? VALUE_INT then "int"
  else if vt =? VALUE_LONG then "long"
  else if vt =? VALUE_FLOAT then "float"
  else if vt =? VALUE_DOUBLE then "double"
  else if vt =? VALUE_STRING then "string"
  else if vt =? VALUE_TYPE then "type"
  else if vt =? VALUE_FIELD then "field"
  else if vt =? VALUE_METHOD then "method"
  else if vt =? VALUE_ENUM then "enum"
  else if vt =? VALUE_ARRAY then "array"
  else if vt =? VALUE_ANNOTATION then "annotation"
  else if vt =? VALUE_NULL then "null"
  else if vt =? VALUE_BOOLEAN then "boolean"
  else "UNKNOWN".

(** ** The printers of the items and Dump *)

Section Dump.

(** The object every non-nil [*DEX] points to. *)
Variable d : DEX.

(** [func (m *ClassDefItem) String() string] *)
Definition ClassDefItem_String (m : ClassDefItem) : option string :=
  dex <- deref (ClassDefItem_dex m) d ;;
  s <- index (Strings dex) (SourceFileIdx m) ;;
  Some (AccessFlags_String (AccessFlags m) ++ " " ++ s)%string.

(** [func (m *FieldIdItem) Type() string] *)
Definition FieldIdItem_Type (m : FieldIdItem) : option string :=
  dex <- deref (FieldIdItem_dex m) d ;;
  t <- index (Types dex) (TypeIdx m) ;;
  TypeId_String d t.

(** [func (m *FieldIdItem) Class() string] *)
Definition FieldIdItem_Class (m : FieldIdItem) : option string :=
  dex <- deref (FieldIdItem_dex m) d ;;
  t <- index (Types dex) (FieldIdItem_ClassIdx m) ;;
  TypeId_String d t.

(** [func (m *FieldIdItem) String() string] *)
Definition FieldIdItem_String (m : FieldIdItem) : option string :=
  dex <- deref (FieldIdItem_dex m) d ;;
  index (Strings dex) (FieldIdItem_NameIdx m).

(** [func (m *ProtoIdItem) String() string] *)
Definition ProtoIdItem_String (m : ProtoIdItem) : option string :=
  dex <- deref (ProtoIdItem_dex m) d ;;
  shorty <- index (Strings dex) (ShortyIdx m) ;;
  dex' <- deref (ProtoIdItem_dex m) d ;;
  t <- index (Types dex') (ReturnTypeIdx m) ;;
  ts <- TypeId_String d t ;;
  Some (shorty ++ "(" ++ fmt_d (ShortyIdx m) ++ ") " ++ ts ++ " "
          ++ fmt_d (ParametersOffset m))%string.

(** [func (m *MethodIdItem) Proto() string] *)
Definition MethodIdItem_Proto (m : MethodIdItem) : option string :=
  dex <- deref (MethodIdItem_dex m) d ;;
  p <- index (Prototypes dex) (ProtoIdx m) ;;
  ProtoIdItem_String p.

(** [func (m *MethodIdItem) Class() string] *)
Definition MethodIdItem_Class (m : MethodIdItem) : option string :=
  dex <- deref (MethodIdItem_dex m) d ;;
  t <- index (Types dex) (MethodIdItem_ClassIdx m) ;;
  TypeId_String d t.

(** [func (m *MethodIdItem) String() string] *)
Definition MethodIdItem_String (m : MethodIdItem) : option string :=
  c <- MethodIdItem_Class m ;;
  p <- MethodIdItem_Proto m ;;
  n <- MethodIdItem_Name d m ;;
  Some (c ++ " " ++ p ++ " " ++ n)%string.

(** The loop [for i, t := range d.Types] of [Dump]. *)
Fixpoint Dump_types (i : Z) (l : list TypeId) : option (list string) :=
  match l with
  | [] => Some []
  | t :: l' =>
      s <- TypeId_String d t ;;
      rest <- Dump_types (i + 1) l' ;;
      Some ((fmt_d i ++ " " ++ s)%string :: rest)
  end.

(** The loop [for _, m := range d.Prototypes]. *)
Fixpoint Dump_prototypes (l : list ProtoIdItem) : option (list string) :=
  match l with
  | [] => Some []
  | m :: l' =>
      s <- ProtoIdItem_String m ;;
      rest <- Dump_prototypes l' ;;
      Some (s :: rest)
  end.

(** The two loops over the fields of a class, which have the same body. *)
Fixpoint Dump_fields (l : list EncodedField) : option (list string) :=
  match l with
  | [] => Some []
  | f :: l' =>
      t <- FieldIdItem_Type (Field f) ;;
      c <- FieldIdItem_Class (Field f) ;;
      s <- FieldIdItem_String (Field f) ;;
      rest <- Dump_fields l' ;;
      Some ((AccessFlags_String (EncodedField_AccessFlags f) ++ " " ++ t
               ++ " " ++ c ++ " " ++ s ++ "=")%string :: rest)
  end.

(** The two loops over the methods of a class, which have the same body;
    the result of [m.Disassemble()] is dropped. *)
Fixpoint Dump_methods (l : list EncodedMethod) : option (list string) :=
  match l with
  | [] => Some []
  | m :: l' =>
      s <- MethodIdItem_String (Method m) ;;
      '(lines, _) <- Disassemble d m ;;
      rest <- Dump_methods l' ;;
      Some ((s ++ "()")%string :: lines ++ rest)
  end.

(** The loop [for _, c := range d.Classes]. *)
Fixpoint Dump_classes (l : list ClassDefItem) : option (list string) :=
  match l with
  | [] => Some []
  | c :: l' =>
      s <- ClassDefItem_String c ;;
      fi <- Dump_fields (InstanceFields (ClassData c)) ;;
      fs <- Dump_fields (StaticFields (ClassData c)) ;;
      md <- Dump_methods (DirectMethods (ClassData c)) ;;
      mv <- Dump_methods (VirtualMethods (ClassData c)) ;;
      rest <- Dump_classes l' ;;
      Some (s :: fi ++ fs ++ md ++ mv ++ rest)
  end.

(** [func (d *DEX) Dump()]: the lines written to standard output, one for
    each call of [Println] or [Printf]. *)
Definition Dump : option (list string) :=
  types <- Dump_types 0 (Types d) ;;
  protos <- Dump_prototypes (Prototypes d) ;;
  classes <- Dump_classes (Classes d) ;;
  Some ("Types:"%string :: types ++ "Prototypes:"%string :: protos
          ++ "Classes:"%string :: classes).

End Dump.

(** ** The ULEB128 encoder the round trip is stated against *)

(** The package only decodes. The encoder of the round trip follows the
    format in the words of the specification: seven payload bits per byte,
    least significant group first, the top bit set on every byte but the
    last. [n] bounds the number of continuation bytes. *)
Fixpoint encode_uleb128_for (n : nat) (v : Z) : list byte :=
  match n with
  | O => [byte_of_Z v]
  | Datatypes.S n' =>
      if v <? 0x80 then [byte_of_Z v]
      else byte_of_Z (0x80 + v mod 0x80) :: encode_uleb128_for n' (v / 0x80)
  end.

(** The encoding of a 32-bit value: at most four continuation bytes. *)
Definition encode_uleb128 (v : Z) : list byte := encode_uleb128_for 4 v.


(** ** Auxiliary definitions of the proofs *)

(** [uleb128] from a cursor [i] and an accumulator on: the loop, then the
    byte that ends it. *)
Definition uleb128_from (k : nat) (data : list byte) (i value : Z)
  : option (Z * Z) :=
  '(i, value) <- uleb128_for k data i value ;;
  b <- index data i ;;
  Some (uint32 (value + uint32 (Z.shiftl (u8 b) (7 * i))), i + 1).


(** A field [Unpack] can deal with: its tag is ["-"] or names a registered
    codec. *)
Definition known {S} (packs : Packs S) (f : StructField S) : Prop :=
  Tag f = "-"%string \/ packs (Tag f) <> None.

(** The error [Unpack] makes for any other field. *)
Definition not_implemented : error := errors_New "Not implemented type ".

(** ** Records and images the properties are tried on *)

(** [struct { X uint32 `pack:"byte"`; Y uint32 `pack:"uint"` }], in a
    memory that holds the two fields; and the same with a third field
    [W uint32 `pack:"float"`] in the middle, for which no codec exists. *)
Definition XY : list (StructField (Z * Z)) :=
  [ {| Tag := "byte"; Field_ := UintValue 32 (fun v s => (v, snd s)) |};
    {| Tag := "uint"; Field_ := UintValue 32 (fun v s => (fst s, v)) |} ].

Definition W : StructField (Z * Z) :=
  {| Tag := "float"; Field_ := UintValue 32 (fun v s => s) |}.

(** [struct { X uint32 `pack:"-"`; Y uint32 `pack:"uint"` }] *)
Definition DashY : list (StructField (Z * Z)) :=
  [ {| Tag := "-"; Field_ := UintValue 32 (fun v s => (v, snd s)) |};
    {| Tag := "uint"; Field_ := UintValue 32 (fun v s => (fst s, v)) |} ].

(** ** Class data as the format lays it out *)

(** An encoded field is its index difference and its access flags, an
    encoded method has a code offset as well, each a ULEB128. *)
Definition encode_field (e : Z * Z) : list byte :=
  encode_uleb128 (fst e) ++ encode_uleb128 (snd e).

Definition encode_method (e : Z * Z * Z) : list byte :=
  encode_uleb128 (fst (fst e)) ++ encode_uleb128 (snd (fst e))
    ++ encode_uleb128 (snd e).

(** A class-data item: the four sizes, then the four lists. *)
Definition encode_class_data (sf inf : list (Z * Z))
           (dm vm : list (Z * Z * Z)) : list byte :=
  encode_uleb128 (len sf) ++ encode_uleb128 (len inf)
    ++ encode_uleb128 (len dm) ++ encode_uleb128 (len vm)
    ++ flat_map encode_field sf ++ flat_map encode_field inf
    ++ flat_map encode_method dm ++ flat_map encode_method vm.

(** The running sums of a list of differences, from the index [idx] on. *)
Fixpoint indices (idx : Z) (diffs : list Z) : list Z :=
  match diffs with
  | [] => []
  | d :: diffs' => (idx + d) :: indices (idx + d) diffs'
  end.

(** The encoded fields of a list whose running index starts at [idx]: each
    carries the entry of the field table at its running sum. *)
Fixpoint resolve_fields (tbl : list FieldIdItem) (idx : Z)
         (l : list (Z * Z)) : list EncodedField :=
  match l with
  | [] => []
  | (d, a) :: l' =>
      {| EncodedField_dex := this_DEX;
         Field := nth (Z.to_nat (idx + d)) tbl zero_FieldIdItem;
         FieldIdxDiff := d; EncodedField_AccessFlags := a |}
        :: resolve_fields tbl (idx + d) l'
  end.

Fixpoint resolve_methods (tbl : list MethodIdItem) (idx : Z)
         (l : list (Z * Z * Z)) : list EncodedMethod :=
  match l with
  | [] => []
  | (d, a, c) :: l' =>
      {| EncodedMethod_dex := this_DEX;
         Method := nth (Z.to_nat (idx + d)) tbl zero_MethodIdItem;
         MethodIdxDiff := d; EncodedMethod_AccessFlags := a;
         CodeOffset := c |}
        :: resolve_methods tbl (idx + d) l'
  end.

Definition u32 (z : Z) : Prop := 0 <= z < 2 ^ 32.

(** The list [l] of differences and other 32-bit values stays within a
    table of [n] entries when its running index starts at [idx]. *)
Definition fields_ok (n idx : Z) (l : list (Z * Z)) : Prop :=
  Forall (fun e => u32 (fst e) /\ u32 (snd e)) l
  /\ Forall (fun i => i < n) (indices idx (map fst l))
  /\ len l < 2 ^ 32.

Definition methods_ok (n idx : Z) (l : list (Z * Z * Z)) : Prop :=
  Forall (fun e => u32 (fst (fst e)) /\ u32 (snd (fst e)) /\ u32 (snd e)) l
  /\ Forall (fun i => i < n) (indices idx (map (fun e => fst (fst e)) l))
  /\ len l < 2 ^ 32.

(** A [DEX] whose field table has ten entries, the entry at index [i]
    naming the string [i]; and a class-data item with the static fields of
    index differences 3, 1 and 5 and one instance field of difference 2. *)
Definition ten_fields : DEX :=
  set_Fields
    (map (fun i => set_FieldIdItem_NameIdx (Z.of_nat i) zero_FieldIdItem)
       (seq 0 10))
    (new_DEX []).

Definition class_data_3_1_5 : list byte :=
  [x03; x01; x00; x00; x03; x00; x01; x00; x05; x00; x02; x00].

(** ** Reading an image at an offset *)

(** The 32-bit little-endian value at [offset], 0 past the end. *)
Definition Uint32_at (b : list byte) (offset : Z) : Z :=
  match LittleEndian_Uint32 (skipn (Z.to_nat offset) b) with
  | Some v => v
  | None => 0
  end.

(** The [n] bytes from [offset] on. *)
Definition bytes_at (b : list byte) (offset n : Z) : list byte :=
  firstn (Z.to_nat n) (skipn (Z.to_nat offset) b).

(** The magic of a DEX file, [DEX_FILE_MAGIC], and the two endian tags. *)
Definition DEX_FILE_MAGIC : list byte :=
  [x64; x65; x78; x0a; x30; x33; x35; x00].
Definition ENDIAN_CONSTANT : Z := 0x12345678.
Definition REVERSE_ENDIAN_CONSTANT : Z := 0x78563412.

(** The four bytes of a 32-bit value, least significant first. *)
Definition le32 (z : Z) : list byte :=
  [byte_of_Z (z mod 256); byte_of_Z (z / 2 ^ 8 mod 256);
   byte_of_Z (z / 2 ^ 16 mod 256); byte_of_Z (z / 2 ^ 24 mod 256)].

(** The header laid out in the first 0x70 bytes of an image. *)
Definition Header_at (b : list byte) : Header :=
  {| Magic := bytes_at b 0 8; Checksum := Uint32_at b 8;
     Signature := bytes_at b 12 20; FileSize := Uint32_at b 32;
     HeaderSize := Uint32_at b 36; EndianTag := Uint32_at b 40;
     LinkSize := Uint32_at b 44; LinkOff := Uint32_at b 48;
     MapOff := Uint32_at b 52; StringIdsSize := Uint32_at b 56;
     StringIdsOffset := Uint32_at b 60; TypeIdsSize := Uint32_at b 64;
     TypeIdsOffset := Uint32_at b 68; ProtosSize := Uint32_at b 72;
     ProtosOffset := Uint32_at b 76; FieldsSize := Uint32_at b 80;
     FieldsOffset := Uint32_at b 84; MethodIdsSize := Uint32_at b 88;
     MethodIdsOffset := Uint32_at b 92; ClassDefsSize := Uint32_at b 96;
     ClassDefsOffset := Uint32_at b 100; DataSize := Uint32_at b 104;
     DataOffset := Uint32_at b 108 |}.

(** Two images of a bare header with every table empty: one that does not
    begin with the magic, and one with the magic and the reverse endian
    tag. *)
Definition no_magic : list byte :=
  repeat x00 40 ++ le32 ENDIAN_CONSTANT ++ repeat x00 68.

Definition reverse_endian : list byte :=
  DEX_FILE_MAGIC ++ repeat x00 32 ++ le32 REVERSE_ENDIAN_CONSTANT
    ++ repeat x00 68.



(** All the tables of a header are empty, and the string ids begin inside
    the image. *)
Definition empty_tables (b : list byte) : Prop :=
  StringIdsSize (Header_at b) = 0 /\ StringIdsOffset (Header_at b) <= len b
  /\ TypeIdsSize (Header_at b) = 0 /\ ProtosSize (Header_at b) = 0
  /\ FieldsSize (Header_at b) = 0 /\ MethodIdsSize (Header_at b) = 0
  /\ ClassDefsSize (Header_at b) = 0.

(** ** Method bodies the disassembler is tried on *)

(** The bytes of a code item with no registers and no tries whose
    instructions are the code units [insns], two bytes each. *)
Definition code_item (insns : list byte) : list byte :=
  repeat x00 12 ++ le32 (len insns / 2) ++ insns.

(** A [DEX] that holds one code item at offset 4, and the method that owns
    it. *)
Definition dex_with_code (insns : list byte) : DEX :=
  new_DEX (repeat x00 4 ++ code_item insns).

Definition method_at_4 : EncodedMethod :=
  set_CodeOffset 4 (set_EncodedMethod_dex this_DEX zero_EncodedMethod).

(** [return-void] followed by the unassigned opcode 0x3E. *)
Definition insns_unknown : list byte := [x0e; x00; x3e; x00].


(** The opcodes the chain of [if]s in [Disassemble] names. *)
Definition special (c : Z) : bool :=
  ((c =? 0x6e) || (c =? 0x6f) || (c =? 0x70) || (c =? 0x71))
  || ((c =? 0x72) || (c =? 0x73) || (c =? 0x74))
  || (c =? 0x22) || (c =? 0x39) || (c =? 0x07) || (c =? 0x12)
  || ((c =? 0x0a) || (c =? 0xb) || (c =? 0x0c)) || (c =? 0x1a).

(** The end of the instructions of a method whose code item announces
    [size] code units. *)
Definition insns_end (m : EncodedMethod) (size : Z) : Z :=
  int (CodeOffset m) + 16 + size * 2.

(** ** Further auxiliary definitions *)

(** A byte with its top bit set: one that makes the ULEB128 decoder go
    on. *)
Definition continues (x : byte) : Prop := 0x80 <= u8 x.

(** The number the low seven bits of the bytes of [l] spell, least
    significant group first. *)
Fixpoint base128 (l : list byte) : Z :=
  match l with
  | [] => 0
  | x :: l' => u8 x mod 0x80 + 0x80 * base128 l'
  end.

(** The two bytes of a 16-bit value, least significant first. *)
Definition le16 (z : Z) : list byte :=
  [byte_of_Z (z mod 256); byte_of_Z (z / 2 ^ 8 mod 256)].



(** The tag of a field is not ["-"]. *)
Definition tagged {S : Type} (f : StructField S) : bool :=
  negb (String.eqb (Tag f) "-").

(** The 16-bit little-endian value at [offset], 0 past the end. *)
Definition Uint16_at (b : list byte) (offset : Z) : Z :=
  match LittleEndian_Uint16 (skipn (Z.to_nat offset) b) with
  | Some v => v
  | None => 0
  end.

(** ** The tables of an image *)

(** The id records found at [offset] in an image. *)
Definition TypeId_at (b : list byte) (offset : Z) : TypeId :=
  {| TypeId_dex := this_DEX; DescriptorIdx := Uint32_at b offset |}.

Definition ProtoIdItem_at (b : list byte) (offset : Z) : ProtoIdItem :=
  {| ProtoIdItem_dex := this_DEX; ShortyIdx := Uint32_at b offset;
     ReturnTypeIdx := Uint32_at b (offset + 4);
     ParametersOffset := Uint32_at b (offset + 8) |}.

Definition FieldIdItem_at (b : list byte) (offset : Z) : FieldIdItem :=
  {| FieldIdItem_dex := this_DEX; FieldIdItem_ClassIdx := Uint16_at b offset;
     TypeIdx := Uint16_at b (offset + 2);
     FieldIdItem_NameIdx := Uint32_at b (offset + 4) |}.

Definition MethodIdItem_at (b : list byte) (offset : Z) : MethodIdItem :=
  {| MethodIdItem_dex := this_DEX;
     MethodIdItem_ClassIdx := Uint16_at b offset;
     ProtoIdx := Uint16_at b (offset + 2);
     MethodIdItem_NameIdx := Uint32_at b (offset + 4) |}.

(** The string whose data item begins at [offset]. *)
Definition String_at (b : list byte) (offset : Z) : option string :=
  sd <- slice_from b offset ;;
  '(s, _) <- str sd ;;
  Some s.

(** [n] entries, [stride] bytes apart, the first at [offset]. *)
Definition table {A} (entry : Z -> A) (offset stride n : Z) : list A :=
  map (fun k => entry (offset + stride * Z.of_nat k)) (seq 0 (Z.to_nat n)).

(** An image of a header, two string ids, one type id, one proto id, one
    field id, one method id, one class def without class data, the data of
    the strings ["LA;"] and ["A.java"], and [tail]; the static values of
    the class are said to be at [static_values]. *)
Definition image_with (static_values : Z) (tail : list byte) : list byte :=
  DEX_FILE_MAGIC ++ repeat x00 24
    ++ le32 (0xC3 + len tail) ++ le32 0x70 ++ le32 ENDIAN_CONSTANT
    ++ le32 0 ++ le32 0 ++ le32 0
    ++ le32 2 ++ le32 0x70
    ++ le32 1 ++ le32 0x78
    ++ le32 1 ++ le32 0x7C
    ++ le32 1 ++ le32 0x88
    ++ le32 1 ++ le32 0x90
    ++ le32 1 ++ le32 0x98
    ++ le32 (0x0B + len tail) ++ le32 0xB8
    ++ le32 0xB8 ++ le32 0xBC
    ++ le32 0
    ++ le32 0 ++ le32 0 ++ le32 0
    ++ le16 0 ++ le16 0 ++ le32 1
    ++ le16 0 ++ le16 0 ++ le32 1
    ++ le32 0 ++ le32 1 ++ le32 0xffffffff ++ le32 0 ++ le32 1 ++ le32 0
    ++ le32 0 ++ le32 static_values
    ++ [x03; x4c; x41; x3b]
    ++ [x06; x41; x2e; x6a; x61; x76; x61]
    ++ tail.

(** The image of a class without static values. *)
Definition small_image : list byte := image_with 0 [].

(** The image of a class with one static value, the string of index 0. *)
Definition static_image : list byte := image_with 0xC3 [x01; x17; x00].

(** The image of a class with an empty array of static values. *)
Definition no_static_image : list byte := image_with 0xC3 [x00].

(** The class def found at [offset], for one that has neither class data
    nor static values. *)
Definition ClassDefItem_at (b : list byte) (offset : Z) : ClassDefItem :=
  {| ClassDefItem_dex := this_DEX; ClassIdx := Uint32_at b offset;
     AccessFlags := Uint32_at b (offset + 4);
     SuperclassIdx := Uint32_at b (offset + 8);
     InterfacesOffset := Uint32_at b (offset + 12);
     SourceFileIdx := Uint32_at b (offset + 16);
     AnnotationsOffset := Uint32_at b (offset + 20);
     ClassData := zero_ClassDataItem; StaticValues := [] |}.

(** The offsets of the class data and of the static values of the class
    def at [offset]. *)
Definition class_data_off (b : list byte) (offset : Z) : Z :=
  Uint32_at b (offset + 24).

Definition static_values_off (b : list byte) (offset : Z) : Z :=
  Uint32_at b (offset + 28).

(** Every table that the header of the image announces lies within the
    image. *)
Definition tables_fit (b : list byte) : Prop :=
  let h := Header_at b in
  StringIdsOffset h + 4 * StringIdsSize h <= len b
  /\ TypeIdsOffset h + 4 * TypeIdsSize h <= len b
  /\ ProtosOffset h + 12 * ProtosSize h <= len b
  /\ FieldsOffset h + 8 * FieldsSize h <= len b
  /\ MethodIdsOffset h + 8 * MethodIdsSize h <= len b
  /\ ClassDefsOffset h + 32 * ClassDefsSize h <= len b.

(** The strings of an image: the [k]-th is the one whose data item the
    [k]-th string id points to. *)
Definition strings_of (b : list byte) (l : list string) : Prop :=
  Forall2 (fun k s =>
             String_at b
               (Uint32_at b (StringIdsOffset (Header_at b) + 4 * Z.of_nat k))
             = Some s)
          (seq 0 (Z.to_nat (StringIdsSize (Header_at b)))) l.

(** No class def of the image has class data or static values. *)
Definition plain_classes (b : list byte) : Prop :=
  forall k : Z,
    0 <= k < ClassDefsSize (Header_at b) ->
    class_data_off b (ClassDefsOffset (Header_at b) + 32 * k) = 0
    /\ static_values_off b (ClassDefsOffset (Header_at b) + 32 * k) = 0.

(** What [Parse] makes of an image with the strings [l] and plain classes. *)
Definition parsed (b : list byte) (l : list string) : DEX :=
  let h := Header_at b in
  {| DEX_b := b; header := h; Strings := l;
     Types := table (TypeId_at b) (TypeIdsOffset h) 4 (TypeIdsSize h);
     Prototypes :=
       table (ProtoIdItem_at b) (ProtosOffset h) 12 (ProtosSize h);
     Fields := table (FieldIdItem_at b) (FieldsOffset h) 8 (FieldsSize h);
     Methods :=
       table (MethodIdItem_at b) (MethodIdsOffset h) 8 (MethodIdsSize h);
     Classes :=
       table (ClassDefItem_at b) (ClassDefsOffset h) 32 (ClassDefsSize h) |}.

(** A class def at offset 0 whose class data, at offset 32, is
    [class_data_3_1_5], held by an object with the ten fields of
    [ten_fields]. *)
Definition class_with_data : list byte :=
  le32 0 ++ le32 1 ++ le32 0 ++ le32 0 ++ le32 0 ++ le32 0 ++ le32 32
    ++ le32 0 ++ class_data_3_1_5.

Definition ten_fields_class : DEX :=
  set_Fields (Fields ten_fields) (new_DEX class_with_data).

(** ** Listings *)

(** An instruction that the chain of [if]s in [Disassemble] does not name,
    followed by as many bytes as the table records for it. *)
Definition plain (e : byte * list byte) : Prop :=
  special (u8 (fst e)) = false
  /\ exists i, instructions (u8 (fst e)) = Some i /\ len (snd e) = Length i.

(** The bytes of a list of instructions. *)
Definition assemble (l : list (byte * list byte)) : list byte :=
  flat_map (fun e => fst e :: snd e) l.

(** The line of an instruction without decoded operands: the opcode in two
    hexadecimal digits and the name the table records. *)
Definition line (c : byte) : string :=
  match instructions (u8 c) with
  | Some i => (fmt_02x (u8 c) ++ " " ++ Name i)%string
  | None => EmptyString
  end.

(** The opcodes for which the table records the length -1. *)
Definition no_length : list Z :=
  [0x24; 0x25; 0x26; 0x2b; 0x2c; 0x44; 0x45; 0x46; 0x47; 0x48; 0x49; 0x4a;
   0x4b; 0x4c; 0x4d; 0x4e; 0x4f; 0x50; 0x51].

(** [move v0, v1] and [return-void]; and [aget] after a [return-void]. *)
Definition insns_plain : list (byte * list byte) :=
  [(x01, [x10]); (x0e, [x00])].

Definition insns_aget : list byte := [x0e; x00; x44; x00; x01; x02].

(** ** Printing *)

(** The modifiers [AccessFlags.String] knows besides ["public "], each
    with the number of its bit, in the order of the chain of [if]s. *)
Definition modifiers : list (Z * string) :=
  [(1, "private "); (2, "protected "); (3, "static "); (4, "final ");
   (5, "synchronized "); (16, "constructor ")]%string.

(** An object with one class def that names no source file. *)
Definition no_source_file : DEX :=
  set_Classes
    [set_SourceFileIdx NO_INDEX
       (set_ClassDefItem_dex this_DEX zero_ClassDefItem)]
    (new_DEX []).

(** The entries of an object that [Dump] can print: the back pointer is
    set and every index is an index of its table. *)
Definition type_ok (d : DEX) (t : TypeId) : Prop :=
  TypeId_dex t = this_DEX /\ 0 <= DescriptorIdx t < len (Strings d).

Definition proto_ok (d : DEX) (p : ProtoIdItem) : Prop :=
  ProtoIdItem_dex p = this_DEX
  /\ 0 <= ShortyIdx p < len (Strings d)
  /\ 0 <= ReturnTypeIdx p < len (Types d).

(** A class def without fields and methods. *)
Definition class_ok (d : DEX) (c : ClassDefItem) : Prop :=
  ClassDefItem_dex c = this_DEX
  /\ 0 <= SourceFileIdx c < len (Strings d)
  /\ InstanceFields (ClassData c) = [] /\ StaticFields (ClassData c) = []
  /\ DirectMethods (ClassData c) = [] /\ VirtualMethods (ClassData c) = [].

Definition printable (d : DEX) : Prop :=
  Forall (type_ok d) (Types d)
  /\ Forall (proto_ok d) (Prototypes d)
  /\ Forall (class_ok d) (Classes d).
(** * Properties *)

(** ** Bytes and slices *)

Lemma u8_range (b : byte) : 0 <= u8 b < 256.
Proof.
  unfold u8. pose proof (Byte.to_N_bounded b). lia.
Qed.

Lemma u8_byte_of_Z (z : Z) : 0 <= z < 256 -> u8 (byte_of_Z z) = z.
Proof.
  intros Hz. unfold u8, byte_of_Z.
  destruct (Byte.of_N (Z.to_N z)) as [b|] eqn:E.
  - apply Byte.to_of_N in E. rewrite E. lia.
  - apply Byte.of_N_None_iff in E. lia.
Qed.

Lemma land_0x80 (b : byte) :
  Z.land (u8 b) 0x80 = if u8 b <? 0x80 then 0 else 0x80.
Proof. destruct b; reflexivity. Qed.

Lemma land_0x7F (b : byte) : Z.land (u8 b) 0x7F = u8 b mod 0x80.
Proof. change 0x7F with (Z.ones 7). now rewrite Z.land_ones. Qed.

Lemma len_app {A} (l l' : list A) : len (l ++ l') = len l + len l'.
Proof. unfold len. rewrite length_app. lia. Qed.

Lemma len_nonneg {A} (l : list A) : 0 <= len l.
Proof. unfold len. lia. Qed.

Lemma index_app_here {A} (pre : list A) (x : A) (rest : list A) :
  index (pre ++ x :: rest) (len pre) = Some x.
Proof.
  unfold index. pose proof (len_nonneg pre).
  destruct (len pre <? 0) eqn:E; [lia|].
  unfold len. rewrite Nat2Z.id, nth_error_app2 by lia.
  now rewrite Nat.sub_diag.
Qed.

Lemma uint32_small (z : Z) : 0 <= z < 2 ^ 32 -> uint32 z = z.
Proof. intros. unfold uint32. now apply Z.mod_small. Qed.

Lemma uint32_add_r (a c : Z) : uint32 (a + uint32 c) = uint32 (a + c).
Proof. unfold uint32. now rewrite Z.add_mod_idemp_r. Qed.

Lemma uint32_add_l (a c : Z) : uint32 (uint32 a + c) = uint32 (a + c).
Proof. unfold uint32. now rewrite Z.add_mod_idemp_l. Qed.

(** ** ULEB128 *)

Lemma uleb128_from_5 (data : list byte) : uleb128 data = uleb128_from 5 data 0 0.
Proof. reflexivity. Qed.

Lemma uleb128_from_last (k : nat) (pre : list byte) (x : byte)
      (rest : list byte) (acc : Z) :
  u8 x < 0x80 ->
  uleb128_from k (pre ++ x :: rest) (len pre) acc
  = Some (uint32 (acc + u8 x * 2 ^ (7 * len pre)), len pre + 1).
Proof.
  intros Hx. pose proof (len_nonneg pre) as Hp.
  assert (E : uleb128_for k (pre ++ x :: rest) (len pre) acc
              = Some (len pre, acc)).
  { destruct k as [|k]; cbn [uleb128_for]; [reflexivity|].
    rewrite index_app_here, land_0x80.
    destruct (u8 x <? 0x80) eqn:E; [reflexivity|lia]. }
  unfold uleb128_from. rewrite E, index_app_here.
  rewrite uint32_add_r, Z.shiftl_mul_pow2 by lia. reflexivity.
Qed.

(** Decoding an encoding that follows [pre] in the input, from the cursor
    at its first byte. *)
Lemma uleb128_from_encode (n : nat) :
  forall (k : nat) (pre rest : list byte) (v acc : Z),
    (n <= k)%nat ->
    0 <= v < 2 ^ (7 * (Z.of_nat n + 1)) ->
    uleb128_from k (pre ++ encode_uleb128_for n v ++ rest) (len pre) acc
    = Some (uint32 (acc + v * 2 ^ (7 * len pre)),
            len pre + len (encode_uleb128_for n v)).
Proof.
  induction n as [|n IH]; intros k pre rest v acc Hk Hv.
  - cbn [encode_uleb128_for app].
    change (2 ^ (7 * (Z.of_nat 0 + 1))) with 128 in Hv.
    rewrite uleb128_from_last by (rewrite u8_byte_of_Z; lia).
    rewrite u8_byte_of_Z by lia. reflexivity.
  - cbn [encode_uleb128_for].
    destruct (v <? 0x80) eqn:E.
    + cbn [app]. rewrite uleb128_from_last by (rewrite u8_byte_of_Z; lia).
      rewrite u8_byte_of_Z by lia. reflexivity.
    + destruct k as [|k]; [lia|].
      pose proof (len_nonneg pre) as Hp.
      pose proof (Z.mod_pos_bound v 0x80 eq_refl) as Hm.
      set (x := byte_of_Z (0x80 + v mod 0x80)).
      assert (Hx : u8 x = 0x80 + v mod 0x80)
        by (apply u8_byte_of_Z; lia).
      unfold uleb128_from. cbn [app uleb128_for].
      rewrite index_app_here, land_0x80, land_0x7F, Hx.
      destruct (0x80 + v mod 0x80 <? 0x80) eqn:E'; [lia|].
      cbn [Z.eqb Pos.eqb].
      assert (Hv' : 0 <= v / 0x80 < 2 ^ (7 * (Z.of_nat n + 1))).
      { split; [apply Z.div_pos; lia|].
        apply Z.div_lt_upper_bound; [lia|].
        replace (7 * (Z.of_nat (Datatypes.S n) + 1))
          with (7 + 7 * (Z.of_nat n + 1)) in Hv by lia.
        rewrite Z.pow_add_r in Hv by lia. change (2 ^ 7) with 128 in Hv.
        lia. }
      specialize (IH k (pre ++ [x]) rest (v / 0x80)
                    (uint32 (acc + uint32 (Z.shiftl
                       ((0x80 + v mod 0x80) mod 0x80) (7 * len pre))))
                    ltac:(lia) Hv').
      unfold uleb128_from in IH.
      rewrite <- app_assoc in IH. cbn [app] in IH.
      rewrite len_app in IH. change (len [x]) with 1 in IH.
      rewrite IH. f_equal. f_equal.
      * rewrite uint32_add_r, uint32_add_l, Z.shiftl_mul_pow2 by lia.
        f_equal.
        replace ((0x80 + v mod 0x80) mod 0x80) with (v mod 0x80)
          by (rewrite Z.add_mod, Z.mod_mod by lia;
              change (128 mod 128) with 0; cbn [Z.add];
              now rewrite Z.mod_mod by lia).
        replace (7 * (len pre + 1)) with (7 + 7 * len pre) by lia.
        rewrite Z.pow_add_r by lia. change (2 ^ 7) with 128.
        pose proof (Z.div_mod v 128 ltac:(lia)). nia.
      * change (len (x :: encode_uleb128_for n (v / 128)))
          with (Z.of_nat (Datatypes.S
                  (List.length (encode_uleb128_for n (v / 128))))).
        unfold len. lia.
Qed.

Lemma uleb128_encode (v : Z) (rest : list byte) :
  0 <= v < 2 ^ 32 ->
  uleb128 (encode_uleb128 v ++ rest) = Some (v, len (encode_uleb128 v)).
Proof.
  intros Hv. rewrite uleb128_from_5.
  pose proof (uleb128_from_encode 4 5 [] rest v 0 ltac:(lia)) as H.
  cbn [app len List.length Z.of_nat] in H.
  unfold encode_uleb128. rewrite H.
  - rewrite Z.mul_0_r, Z.pow_0_r, Z.mul_1_r, Z.add_0_l.
    now rewrite uint32_small.
  - change (2 ^ (7 * (Z.of_nat 4 + 1))) with (2 ^ 35). lia.
Qed.

(** C5. Encoding a 32-bit value and decoding it gives the value back, and
    the count reported is the length of the encoding (whatever follows the
    encoding in the input); the decoder maps [00] to 0, [01] to 1, [7F] to
    127, [80 7F] to 16256 and [E5 8E 26] to 624485, consuming 1, 1, 1, 2 and
    3 bytes. *)
Theorem uleb128_round_trip (v : Z) :
  0 <= v < 2 ^ 32 ->
  uleb128 (encode_uleb128 v) = Some (v, len (encode_uleb128 v))
  /\ (forall rest : list byte,
        uleb128 (encode_uleb128 v ++ rest)
        = Some (v, len (encode_uleb128 v)))
  /\ uleb128 [x00] = Some (0, 1)
  /\ uleb128 [x01] = Some (1, 1)
  /\ uleb128 [x7f] = Some (127, 1)
  /\ uleb128 [x80; x7f] = Some (16256, 2)
  /\ uleb128 [xe5; x8e; x26] = Some (624485, 3).
Proof.
  intros Hv. split; [|split].
  - rewrite <- (app_nil_r (encode_uleb128 v)) at 1.
    now apply uleb128_encode.
  - intros rest. now apply uleb128_encode.
  - repeat split; reflexivity.
Qed.

Lemma uleb128_round_trip_witness :
  0 <= 624485 < 2 ^ 32
  /\ encode_uleb128 624485 = [xe5; x8e; x26]
  /\ uleb128 (encode_uleb128 624485)
     = Some (624485, len (encode_uleb128 624485)).
Proof.
  split; [lia|]. split; [reflexivity|].
  apply (uleb128_round_trip 624485). lia.
Defined.

(** What the loop of the decoder can end with. *)
Lemma uleb128_for_range (k : nat) :
  forall (data : list byte) (i acc j v : Z),
    uleb128_for k data i acc = Some (j, v) ->
    i <= j <= i + Z.of_nat k.
Proof.
  induction k as [|k IH]; intros data i acc j v H; cbn [uleb128_for] in H.
  - inversion H. lia.
  - destruct (index data i) as [b|]; [|discriminate].
    destruct (Z.land (u8 b) 0x80 =? 0x80).
    + apply IH in H. lia.
    + inversion H. lia.
Qed.

Lemma uleb128_range (data : list byte) (v n : Z) :
  uleb128 data = Some (v, n) -> 0 <= v < 2 ^ 32 /\ 1 <= n <= 6.
Proof.
  unfold uleb128. intros H.
  destruct (uleb128_for 5 data 0 0) as [[j w]|] eqn:E; [|discriminate].
  destruct (index data j) as [b|]; [|discriminate].
  apply uleb128_for_range in E. inversion H; subst.
  split; [apply Z.mod_pos_bound; lia|lia].
Qed.

Lemma index_Some_lt {A} (data : list A) (i : Z) (x : A) :
  index data i = Some x -> 0 <= i < len data.
Proof.
  unfold index, len. destruct (i <? 0) eqn:E; [discriminate|].
  intros H. assert (Hs : nth_error data (Z.to_nat i) <> None) by congruence.
  apply nth_error_Some in Hs. lia.
Qed.

Lemma index_lt_Some {A} (data : list A) (i : Z) :
  0 <= i < len data -> exists x, index data i = Some x.
Proof.
  unfold index, len. intros H. destruct (i <? 0) eqn:E; [lia|].
  destruct (nth_error data (Z.to_nat i)) as [x|] eqn:N; [now exists x|].
  apply nth_error_None in N. lia.
Qed.

(** The loop stops at the first byte whose top bit is clear, when there is
    one within its reach. *)
Lemma uleb128_for_stops (k : nat) :
  forall (data : list byte) (i0 i acc : Z) (x : byte),
    0 <= i0 <= i -> i < i0 + Z.of_nat k ->
    index data i = Some x -> u8 x < 0x80 ->
    exists j v b,
      uleb128_for k data i0 acc = Some (j, v)
      /\ i0 <= j <= i /\ index data j = Some b.
Proof.
  induction k as [|k IH]; intros data i0 i acc x Hi Hk Hx Hlt; [lia|].
  cbn [uleb128_for].
  destruct (index_lt_Some data i0) as [b Hb].
  { apply index_Some_lt in Hx. lia. }
  rewrite Hb. rewrite land_0x80.
  destruct (u8 b <? 0x80) eqn:E.
  - exists i0, acc, b. cbn. repeat split; try lia; assumption.
  - cbn [Z.eqb Pos.eqb].
    assert (i0 <> i) by (intros ->; rewrite Hx in Hb; inversion Hb; subst; lia).
    destruct (IH data (i0 + 1) i
                (uint32 (acc + uint32 (Z.shiftl (Z.land (u8 b) 0x7F) (7 * i0))))
                x ltac:(lia) ltac:(lia) Hx Hlt) as (j & v & b' & H1 & H2 & H3).
    exists j, v, b'. repeat split; try lia; assumption.
Qed.




(** ** The string reader *)




(** ** Unpack *)

Section UnpackFacts.

Context {S : Type}.
Variable packs : Packs S.
Variable b : list byte.

(** [Unpack] returns nil when every field is known, and its own error
    otherwise: no result of a codec is among its errors. *)
Lemma Unpack_for_error (fields : list (StructField S)) :
  forall (offset : Z) (s s' : S) (n : Z) (err : option error),
    Unpack_for packs b fields offset s = Some (s', n, err) ->
    (err = None /\ Forall (known packs) fields)
    \/ (err = Some not_implemented /\ ~ Forall (known packs) fields).
Proof.
  induction fields as [|f fields IH]; intros offset s s' n err H;
    cbn [Unpack_for] in H.
  - inversion H. left. split; [reflexivity|constructor].
  - destruct (String.eqb (Tag f) "-") eqn:E.
    + apply String.eqb_eq in E.
      destruct (IH _ _ _ _ _ H) as [[-> HF]|[-> HF]].
      * left. split; [reflexivity|]. constructor; [now left|assumption].
      * right. split; [reflexivity|]. intros HF'. inversion HF'. tauto.
    + apply String.eqb_neq in E.
      destruct (packs (Tag f)) as [p|] eqn:P.
      * destruct (slice_from b offset) as [data|]; [|discriminate].
        destruct (p data (Field_ f) s) as [[[s1 length] e]|];
          [|discriminate].
        destruct (IH _ _ _ _ _ H) as [[-> HF]|[-> HF]].
        -- left. split; [reflexivity|].
           constructor; [right; congruence|assumption].
        -- right. split; [reflexivity|]. intros HF'. inversion HF'. tauto.
      * inversion H. right. split; [reflexivity|].
        intros HF'. inversion HF' as [|? ? Hk]. destruct Hk; congruence.
Qed.

(** An unknown field ends [Unpack] with what the fields before it left. *)
Lemma Unpack_for_unknown (pre : list (StructField S)) :
  forall (f : StructField S) (post : list (StructField S))
         (offset : Z) (s : S),
    Forall (known packs) pre ->
    Tag f <> "-"%string -> packs (Tag f) = None ->
    Unpack_for packs b (pre ++ f :: post) offset s
    = match Unpack_for packs b pre offset s with
      | Some (s', n, _) => Some (s', n, Some not_implemented)
      | None => None
      end.
Proof.
  induction pre as [|g pre IH]; intros f post offset s HF Hd Hn.
  - cbn [app Unpack_for]. apply String.eqb_neq in Hd.
    now rewrite Hd, Hn.
  - inversion HF as [|? ? Hg HF']; subst. cbn [app Unpack_for].
    destruct (String.eqb (Tag g) "-") eqn:E; [now apply IH|].
    destruct (packs (Tag g)) as [p|] eqn:P.
    + destruct (slice_from b offset) as [data|]; [|reflexivity].
      destruct (p data (Field_ g) s) as [[[s1 length] e]|]; [|reflexivity].
      now apply IH.
    + apply String.eqb_neq in E. destruct Hg; congruence.
Qed.

(** What no codec run for a known, tagged field changes, [Unpack] does
    not change. *)
Lemma Unpack_for_preserves {A : Type} (obs : S -> A)
      (fields : list (StructField S)) :
  (forall (f : StructField S) (p : PackFunc S) (data : list byte)
          (s1 s2 : S) (n : Z) (e : option error),
      In f fields -> Tag f <> "-"%string -> packs (Tag f) = Some p ->
      p data (Field_ f) s1 = Some (s2, n, e) -> obs s2 = obs s1) ->
  forall (offset : Z) (s s' : S) (n : Z) (err : option error),
    Unpack_for packs b fields offset s = Some (s', n, err) ->
    obs s' = obs s.
Proof.
  induction fields as [|f fields IH]; intros Hp offset s s' n err H;
    cbn [Unpack_for] in H.
  - now inversion H.
  - assert (Hp' : forall f0 p data s1 s2 n0 e,
               In f0 fields -> Tag f0 <> "-"%string ->
               packs (Tag f0) = Some p ->
               p data (Field_ f0) s1 = Some (s2, n0, e) ->
               obs s2 = obs s1)
      by (intros; eapply Hp; eauto; now right).
    destruct (String.eqb (Tag f) "-") eqn:E; [now apply (IH Hp') in H|].
    apply String.eqb_neq in E.
    destruct (packs (Tag f)) as [p|] eqn:P.
    + destruct (slice_from b offset) as [data|]; [|discriminate].
      destruct (p data (Field_ f) s) as [[[s1 length] e]|] eqn:R;
        [|discriminate].
      apply (IH Hp') in H. rewrite H.
      eapply Hp; eauto. now left.
    + now inversion H.
Qed.

End UnpackFacts.

(** C7, as the code has it. [Unpack] drops the error result of every codec
    it runs and goes on with the next field. Whenever it returns, its error
    is nil if every field is known (its tag is ["-"] or names a registered
    codec) and the error ["Not implemented type "] otherwise; and at the
    first unknown field it returns that error with the target and the
    offset as the codecs of the fields before it left them. *)
Theorem Unpack_drops_codec_errors (S : Type) (packs : Packs S)
        (b : list byte) :
  (forall (fields : list (StructField S)) (s s' : S) (n : Z)
          (err : option error),
      Unpack packs b fields s = Some (s', n, err) ->
      (err = None /\ Forall (known packs) fields)
      \/ (err = Some not_implemented /\ ~ Forall (known packs) fields))
  /\ (forall (pre : list (StructField S)) (f : StructField S)
             (post : list (StructField S)) (s : S),
        Forall (known packs) pre ->
        Tag f <> "-"%string -> packs (Tag f) = None ->
        Unpack packs b (pre ++ f :: post) s
        = match Unpack packs b pre s with
          | Some (s', n, _) => Some (s', n, Some not_implemented)
          | None => None
          end).
Proof.
  split.
  - intros fields s s' n err. apply Unpack_for_error.
  - intros pre f post s. apply Unpack_for_unknown.
Qed.

Lemma Unpack_drops_codec_errors_witness :
  (Unpack packs_init [x01; x00; x00; x00] XY (7, 7) = Some ((7, 1), 4, None)
   /\ ((@None error = None /\ Forall (known packs_init) XY)
       \/ (None = Some not_implemented /\ ~ Forall (known packs_init) XY)))
  /\ (Forall (known packs_init) [nth 1 XY W]
      /\ Tag W <> "-"%string /\ packs_init (S := Z * Z) (Tag W) = None
      /\ Unpack packs_init [x01; x00; x00; x00] ([nth 1 XY W] ++ W :: XY)
           (7, 7)
         = Some ((7, 1), 4, Some not_implemented)).
Proof.
  split.
  - split; [reflexivity|].
    apply (proj1 (Unpack_drops_codec_errors (Z * Z) packs_init
                    [x01; x00; x00; x00]) XY (7, 7) (7, 1) 4 None).
    reflexivity.
  - assert (HF : Forall (known (S := Z * Z) packs_init) [nth 1 XY W])
      by (constructor; [right; discriminate | constructor]).
    split; [exact HF|]. split; [discriminate|]. split; [reflexivity|].
    rewrite (proj2 (Unpack_drops_codec_errors (Z * Z) packs_init
                      [x01; x00; x00; x00]) [nth 1 XY W] W XY (7, 7) HF);
      [reflexivity | discriminate | reflexivity].
Defined.

(** C7 as stated fails: the codec ["byte"] fails on the field [X], which is
    no array, and [Unpack] neither stops nor returns its error: it goes on
    to write [Y] and returns nil, the record being kept. *)
Lemma Unpack_goes_on_after_codec_error :
  unpackByteArray [x01; x00; x00; x00] (Field_ (nth 0 XY W)) (7, 7)
  = Some ((7, 7), 0, Some (errors_New "Invalid field"))
  /\ Unpack packs_init [x01; x00; x00; x00] XY (7, 7)
     = Some ((7, 1), 4, None).
Proof. split; reflexivity. Qed.

(** C10. [Unpack] writes nothing itself and runs no codec on a field
    tagged ["-"]: whatever part of the memory is left alone by the codecs
    run for the tagged, registered fields of the target is as it was
    before the call. With the built-in codecs this holds of the back
    pointer and the resolved [Field] and [Method] of an encoded field or
    method, and of every field of an encoded value. *)
Theorem Unpack_frame :
  (forall (S A : Type) (obs : S -> A) (packs : Packs S) (b : list byte)
          (fields : list (StructField S)),
      (forall (f : StructField S) (p : PackFunc S) (data : list byte)
              (s1 s2 : S) (n : Z) (e : option error),
          In f fields -> Tag f <> "-"%string -> packs (Tag f) = Some p ->
          p data (Field_ f) s1 = Some (s2, n, e) -> obs s2 = obs s1) ->
      forall (s s' : S) (n : Z) (err : option error),
        Unpack packs b fields s = Some (s', n, err) -> obs s' = obs s)
  /\ (forall (b : list byte) (ef ef' : EncodedField) (n : Z)
             (err : option error),
        Unpack packs_init b (reflect_EncodedField self) ef
        = Some (ef', n, err) ->
        EncodedField_dex ef' = EncodedField_dex ef /\ Field ef' = Field ef)
  /\ (forall (b : list byte) (em em' : EncodedMethod) (n : Z)
             (err : option error),
        Unpack packs_init b (reflect_EncodedMethod self) em
        = Some (em', n, err) ->
        EncodedMethod_dex em' = EncodedMethod_dex em
        /\ Method em' = Method em)
  /\ (forall (b : list byte) (ev : EncodedValue),
        Unpack packs_init b (reflect_EncodedValue self) ev
        = Some (ev, 0, None)).
Proof.
  assert (G : forall (S A : Type) (obs : S -> A) (packs : Packs S)
                     (b : list byte) (fields : list (StructField S)),
             (forall f p data s1 s2 n e,
                 In f fields -> Tag f <> "-"%string ->
                 packs (Tag f) = Some p ->
                 p data (Field_ f) s1 = Some (s2, n, e) -> obs s2 = obs s1) ->
             forall s s' n err,
               Unpack packs b fields s = Some (s', n, err) -> obs s' = obs s).
  { intros S A obs packs b fields Hp s s' n err H.
    exact (Unpack_for_preserves packs b obs fields Hp 0 s s' n err H). }
  assert (U : forall (S : Type) (data : list byte) (bits : Z)
                     (set : Z -> S -> S) (s1 s2 : S) (n : Z)
                     (e : option error),
             unpackUleb128 data (UintValue bits set) s1 = Some (s2, n, e) ->
             exists v, s2 = set v s1).
  { intros S data bits set s1 s2 n e H. unfold unpackUleb128 in H.
    destruct (uleb128_for 5 data 0 0) as [[j w]|]; [|discriminate].
    destruct (index data j); [|discriminate].
    cbn [SetUint] in H. inversion H. eauto. }
  split; [exact G|]. split; [|split].
  - intros b ef ef' n err H. split.
    + apply (G _ _ EncodedField_dex _ _ _) in H; [exact H|].
      intros f p data s1 s2 n0 e Hin Ht Hp Hr.
      cbn [reflect_EncodedField In] in Hin.
      destruct Hin as [<-|[<-|[<-|[<-|[]]]]]; cbn in Ht, Hp;
        try congruence; inversion Hp; subst p;
        apply U in Hr; destruct Hr as [v ->]; reflexivity.
    + apply (G _ _ Field _ _ _) in H; [exact H|].
      intros f p data s1 s2 n0 e Hin Ht Hp Hr.
      cbn [reflect_EncodedField In] in Hin.
      destruct Hin as [<-|[<-|[<-|[<-|[]]]]]; cbn in Ht, Hp;
        try congruence; inversion Hp; subst p;
        apply U in Hr; destruct Hr as [v ->]; reflexivity.
  - intros b em em' n err H. split.
    + apply (G _ _ EncodedMethod_dex _ _ _) in H; [exact H|].
      intros f p data s1 s2 n0 e Hin Ht Hp Hr.
      cbn [reflect_EncodedMethod In] in Hin.
      destruct Hin as [<-|[<-|[<-|[<-|[<-|[]]]]]]; cbn in Ht, Hp;
        try congruence; inversion Hp; subst p;
        apply U in Hr; destruct Hr as [v ->]; reflexivity.
    + apply (G _ _ Method _ _ _) in H; [exact H|].
      intros f p data s1 s2 n0 e Hin Ht Hp Hr.
      cbn [reflect_EncodedMethod In] in Hin.
      destruct Hin as [<-|[<-|[<-|[<-|[<-|[]]]]]]; cbn in Ht, Hp;
        try congruence; inversion Hp; subst p;
        apply U in Hr; destruct Hr as [v ->]; reflexivity.
  - intros b ev. reflexivity.
Qed.

(** ** Class data *)

Lemma int_small (z : Z) : - 2 ^ 63 <= z < 2 ^ 63 -> int z = z.
Proof.
  intros H. unfold int. rewrite Z.mod_small by lia. lia.
Qed.

Lemma uint64_small (z : Z) : 0 <= z < 2 ^ 64 -> uint64 z = z.
Proof. intros. unfold uint64. now apply Z.mod_small. Qed.

Lemma slice_from_app {A} (pre rest : list A) :
  slice_from (pre ++ rest) (len pre) = Some rest.
Proof.
  unfold slice_from. pose proof (len_nonneg pre). rewrite len_app.
  pose proof (len_nonneg rest).
  replace (0 <=? len pre) with true by (symmetry; apply Z.leb_le; lia).
  replace (len pre <=? len pre + len rest) with true
    by (symmetry; apply Z.leb_le; lia).
  cbn [andb]. unfold len. rewrite Nat2Z.id.
  now rewrite skipn_app, Nat.sub_diag, skipn_all.
Qed.

Lemma slice_from_0 {A} (l : list A) : slice_from l 0 = Some l.
Proof. exact (slice_from_app [] l). Qed.

Lemma encode_uleb128_for_len (n : nat) (v : Z) :
  1 <= len (encode_uleb128_for n v) <= Z.of_nat n + 1.
Proof.
  revert v. induction n as [|n IH]; intros v; cbn [encode_uleb128_for].
  - cbn. lia.
  - destruct (v <? 128); [cbn; lia|].
    specialize (IH (v / 128)).
    change (len (?x :: ?l)) with (Z.of_nat (Datatypes.S (List.length l))).
    unfold len in *. lia.
Qed.

Lemma encode_uleb128_len (v : Z) : 1 <= len (encode_uleb128 v) <= 5.
Proof. exact (encode_uleb128_for_len 4 v). Qed.

Lemma unpackUleb128_uleb128 {S} (data : list byte) (bits : Z)
      (set : Z -> S -> S) (s : S) (v n : Z) :
  uleb128 data = Some (v, n) ->
  unpackUleb128 data (UintValue bits set) s
  = Some (set (uint64 v mod 2 ^ bits) s, n, None).
Proof.
  unfold uleb128, unpackUleb128. intros H.
  destruct (uleb128_for 5 data 0 0) as [[j w]|]; [|discriminate].
  destruct (index data j); [|discriminate].
  inversion H. reflexivity.
Qed.

Lemma unpackUleb128_encode {S} (v : Z) (rest : list byte) (bits : Z)
      (set : Z -> S -> S) (s : S) :
  u32 v -> 32 <= bits ->
  unpackUleb128 (encode_uleb128 v ++ rest) (UintValue bits set) s
  = Some (set v s, len (encode_uleb128 v), None).
Proof.
  intros Hv Hb.
  rewrite (unpackUleb128_uleb128 _ _ _ _ v (len (encode_uleb128 v)))
    by now apply uleb128_encode.
  unfold u32 in Hv.
  assert (2 ^ 32 <= 2 ^ bits) by (apply Z.pow_le_mono_r; lia).
  rewrite uint64_small by lia. rewrite Z.mod_small by lia. reflexivity.
Qed.


(** One turn of the loop of [Unpack] on a tagged, registered field whose
    codec consumes [item], the cursor standing after [pre]. *)
Lemma Unpack_for_step {S} (packs : Packs S) (p : PackFunc S)
      (pre item cur : list byte) (f : StructField S)
      (fields : list (StructField S)) (s s1 : S) (e : option error) :
  String.eqb (Tag f) "-" = false ->
  packs (Tag f) = Some p ->
  p (item ++ cur) (Field_ f) s = Some (s1, len item, e) ->
  len (pre ++ item) < 2 ^ 63 ->
  Unpack_for packs (pre ++ item ++ cur) (f :: fields) (len pre) s
  = Unpack_for packs ((pre ++ item) ++ cur) fields (len (pre ++ item)) s1.
Proof.
  intros Ht Hp Hr Hl. cbn [Unpack_for]. rewrite Ht, Hp.
  rewrite slice_from_app, Hr. rewrite len_app in *.
  pose proof (len_nonneg pre). pose proof (len_nonneg item).
  rewrite (int_small (len item)) by lia.
  rewrite int_small by lia. now rewrite app_assoc.
Qed.

Lemma Unpack_for_skip {S} (packs : Packs S) (b : list byte)
      (f : StructField S) (fields : list (StructField S)) (offset : Z)
      (s : S) :
  String.eqb (Tag f) "-" = true ->
  Unpack_for packs b (f :: fields) offset s
  = Unpack_for packs b fields offset s.
Proof. intros H. cbn [Unpack_for]. now rewrite H. Qed.

Lemma Unpack_EncodedField (d a : Z) (rest : list byte) (fr : Frame) :
  u32 d -> u32 a ->
  Unpack packs_init (encode_field (d, a) ++ rest)
    (reflect_EncodedField ef_ptr) fr
  = Some (set_ef (set_EncodedField_AccessFlags a
                    (set_FieldIdxDiff d (ef fr))) fr,
          len (encode_field (d, a)), None).
Proof.
  intros Hd Ha. unfold Unpack, encode_field. cbn [fst snd].
  pose proof (encode_uleb128_len d). pose proof (encode_uleb128_len a).
  rewrite <- app_assoc.
  unfold reflect_EncodedField. rewrite !Unpack_for_skip by reflexivity.
  change 0 with (len (@nil byte)).
  change (encode_uleb128 d ++ encode_uleb128 a ++ rest)
    with ([] ++ encode_uleb128 d ++ encode_uleb128 a ++ rest).
  erewrite Unpack_for_step;
    [| reflexivity | reflexivity
     | cbn [Field_]; apply unpackUleb128_encode; [assumption|lia]
     | cbn [app]; lia ].
  erewrite Unpack_for_step;
    [| reflexivity | reflexivity
     | cbn [Field_]; apply unpackUleb128_encode; [assumption|lia]
     | cbn [app]; rewrite !len_app; lia ].
  cbn [Unpack_for app]. reflexivity.
Qed.

Lemma Unpack_EncodedMethod (d a c : Z) (rest : list byte) (fr : Frame) :
  u32 d -> u32 a -> u32 c ->
  Unpack packs_init (encode_method (d, a, c) ++ rest)
    (reflect_EncodedMethod em_ptr) fr
  = Some (set_em (set_CodeOffset c
                    (set_EncodedMethod_AccessFlags a
                       (set_MethodIdxDiff d (em fr)))) fr,
          len (encode_method (d, a, c)), None).
Proof.
  intros Hd Ha Hc. unfold Unpack, encode_method. cbn [fst snd].
  pose proof (encode_uleb128_len d). pose proof (encode_uleb128_len a).
  pose proof (encode_uleb128_len c).
  rewrite <- !app_assoc.
  unfold reflect_EncodedMethod. rewrite !Unpack_for_skip by reflexivity.
  change 0 with (len (@nil byte)).
  change (encode_uleb128 d ++ encode_uleb128 a ++ encode_uleb128 c ++ rest)
    with ([] ++ encode_uleb128 d ++ encode_uleb128 a
             ++ encode_uleb128 c ++ rest).
  erewrite Unpack_for_step;
    [| reflexivity | reflexivity
     | cbn [Field_]; apply unpackUleb128_encode; [assumption|lia]
     | cbn [app]; lia ].
  erewrite Unpack_for_step;
    [| reflexivity | reflexivity
     | cbn [Field_]; apply unpackUleb128_encode; [assumption|lia]
     | cbn [app]; rewrite !len_app; lia ].
  erewrite Unpack_for_step;
    [| reflexivity | reflexivity
     | cbn [Field_]; apply unpackUleb128_encode; [assumption|lia]
     | cbn [app]; rewrite !len_app; lia ].
  cbn [Unpack_for app]. rewrite <- !app_assoc. reflexivity.
Qed.

Lemma store_index_app {A} (done todo : list A) (t x : A) :
  store_index (done ++ t :: todo) (len done) x = Some (done ++ x :: todo).
Proof.
  unfold store_index. pose proof (len_nonneg done).
  destruct (len done <? 0) eqn:E; [lia|].
  unfold len. rewrite Nat2Z.id. clear.
  induction done as [|y done IH]; cbn [store_nth app List.length].
  - reflexivity.
  - now rewrite IH.
Qed.

Lemma index_nth {A} (l : list A) (i : Z) (dflt : A) :
  0 <= i < len l -> index l i = Some (nth (Z.to_nat i) l dflt).
Proof.
  intros H. unfold index. destruct (i <? 0) eqn:E; [lia|].
  apply nth_error_nth'. unfold len in H. lia.
Qed.

Lemma set_StaticFields_same (c : ClassDefItem) :
  set_ClassData (set_StaticFields (StaticFields (ClassData c)) (ClassData c)) c
  = c.
Proof. destruct c as [? ? ? ? ? ? ? [] ?]. reflexivity. Qed.

Lemma staticfields_for_ok (dex : DEX) (l : list (Z * Z)) :
  forall (pre rest : list byte) (idx : Z) (fr : Frame)
         (done todo : list EncodedField),
    Forall (fun e => u32 (fst e) /\ u32 (snd e)) l ->
    Forall (fun i => i < len (Fields dex)) (indices idx (map fst l)) ->
    0 <= idx -> len (Fields dex) < 2 ^ 63 ->
    len (pre ++ flat_map encode_field l) < 2 ^ 63 ->
    StaticFields (ClassData (class_def_item fr)) = done ++ todo ->
    List.length todo = List.length l ->
    exists fr',
      staticfields_for dex (List.length l)
        (pre ++ flat_map encode_field l ++ rest) (len done) (len pre) idx fr
      = Some (fr', len (pre ++ flat_map encode_field l))
      /\ class_def_item fr'
         = set_ClassData
             (set_StaticFields (done ++ resolve_fields (Fields dex) idx l)
                (ClassData (class_def_item fr)))
             (class_def_item fr).
Proof.
  induction l as [|[d a] l IH];
    intros pre rest idx fr done todo Hu Hi Hidx Htbl Hlen Hsf Htodo.
  - destruct todo; [|discriminate].
    exists fr. cbn [staticfields_for List.length flat_map resolve_fields].
    rewrite app_nil_r. split; [reflexivity|].
    rewrite app_nil_r in *. rewrite <- Hsf.
    now rewrite set_StaticFields_same.
  - destruct todo as [|t todo]; [discriminate|].
    inversion Hu as [|? ? [Hd Ha] Hu']; subst.
    cbn [map fst indices] in Hi. inversion Hi as [|? ? Hi0 Hi']; subst.
    cbn [fst snd] in Hd, Ha.
    cbn [List.length staticfields_for flat_map].
    rewrite <- app_assoc, slice_from_app.
    rewrite Unpack_EncodedField by assumption.
    cbn [ef set_ef FieldIdxDiff set_EncodedField_AccessFlags set_FieldIdxDiff].
    unfold u32 in Hd, Ha.
    rewrite (uint64_small d) by lia.
    rewrite (uint64_small (idx + d)) by lia.
    rewrite (index_nth _ _ zero_FieldIdItem) by lia.
    cbn [load ClassData_ptr class_def_item set_ef].
    rewrite Hsf, store_index_app.
    cbn [flat_map] in Hlen. rewrite app_assoc in Hlen.
    pose proof (len_nonneg pre). pose proof (len_nonneg (encode_field (d, a))).
    assert (Hl1 : len (pre ++ encode_field (d, a)) < 2 ^ 63).
    { rewrite len_app in Hlen.
      pose proof (len_nonneg (flat_map encode_field l)). lia. }
    rewrite int_small by (rewrite len_app in Hl1; lia).
    rewrite <- len_app.
    match goal with
    | |- context [staticfields_for dex _ _ _ _ _ ?fr1] =>
        destruct (IH (pre ++ encode_field (d, a)) rest (idx + d) fr1
                    (done ++ [{| EncodedField_dex := this_DEX;
                                 Field := nth (Z.to_nat (idx + d)) (Fields dex)
                                            zero_FieldIdItem;
                                 FieldIdxDiff := d;
                                 EncodedField_AccessFlags := a |}]) todo
                    Hu' Hi' ltac:(lia) Htbl Hlen)
          as (fr' & Hrun & Hcdi)
    end.
    + cbn. now rewrite <- app_assoc.
    + now inversion Htodo.
    + exists fr'. rewrite len_app in Hrun. change (len [?x]) with 1 in Hrun.
      rewrite <- !app_assoc in Hrun. rewrite app_assoc.
      split.
      * rewrite <- Hrun. f_equal. now rewrite <- !app_assoc.
      * rewrite Hcdi. cbn. now rewrite <- app_assoc.
Qed.

Lemma set_InstanceFields_same (c : ClassDefItem) :
  set_ClassData (set_InstanceFields (InstanceFields (ClassData c)) (ClassData c)) c
  = c.
Proof. destruct c as [? ? ? ? ? ? ? [] ?]. reflexivity. Qed.

Lemma instancefields_for_ok (dex : DEX) (l : list (Z * Z)) :
  forall (pre rest : list byte) (idx : Z) (fr : Frame)
         (done todo : list EncodedField),
    Forall (fun e => u32 (fst e) /\ u32 (snd e)) l ->
    Forall (fun i => i < len (Fields dex)) (indices idx (map fst l)) ->
    0 <= idx -> len (Fields dex) < 2 ^ 63 ->
    len (pre ++ flat_map encode_field l) < 2 ^ 63 ->
    InstanceFields (ClassData (class_def_item fr)) = done ++ todo ->
    List.length todo = List.length l ->
    exists fr',
      instancefields_for dex (List.length l)
        (pre ++ flat_map encode_field l ++ rest) (len done) (len pre) idx fr
      = Some (fr', len (pre ++ flat_map encode_field l))
      /\ class_def_item fr'
         = set_ClassData
             (set_InstanceFields (done ++ resolve_fields (Fields dex) idx l)
                (ClassData (class_def_item fr)))
             (class_def_item fr).
Proof.
  induction l as [|[d a] l IH];
    intros pre rest idx fr done todo Hu Hi Hidx Htbl Hlen Hsf Htodo.
  - destruct todo; [|discriminate].
    exists fr. cbn [instancefields_for List.length flat_map resolve_fields].
    rewrite app_nil_r. split; [reflexivity|].
    rewrite app_nil_r in *. rewrite <- Hsf.
    now rewrite set_InstanceFields_same.
  - destruct todo as [|t todo]; [discriminate|].
    inversion Hu as [|? ? [Hd Ha] Hu']; subst.
    cbn [map fst indices] in Hi. inversion Hi as [|? ? Hi0 Hi']; subst.
    cbn [fst snd] in Hd, Ha.
    cbn [List.length instancefields_for flat_map].
    rewrite <- app_assoc, slice_from_app.
    rewrite Unpack_EncodedField by assumption.
    cbn [ef set_ef FieldIdxDiff set_EncodedField_AccessFlags set_FieldIdxDiff].
    unfold u32 in Hd, Ha.
    rewrite (uint64_small d) by lia.
    rewrite (uint64_small (idx + d)) by lia.
    rewrite (index_nth _ _ zero_FieldIdItem) by lia.
    cbn [load ClassData_ptr class_def_item set_ef].
    rewrite Hsf, store_index_app.
    cbn [flat_map] in Hlen. rewrite app_assoc in Hlen.
    pose proof (len_nonneg pre). pose proof (len_nonneg (encode_field (d, a))).
    assert (Hl1 : len (pre ++ encode_field (d, a)) < 2 ^ 63).
    { rewrite len_app in Hlen.
      pose proof (len_nonneg (flat_map encode_field l)). lia. }
    rewrite int_small by (rewrite len_app in Hl1; lia).
    rewrite <- len_app.
    match goal with
    | |- context [instancefields_for dex _ _ _ _ _ ?fr1] =>
        destruct (IH (pre ++ encode_field (d, a)) rest (idx + d) fr1
                    (done ++ [{| EncodedField_dex := this_DEX;
                                 Field := nth (Z.to_nat (idx + d)) (Fields dex)
                                            zero_FieldIdItem;
                                 FieldIdxDiff := d;
                                 EncodedField_AccessFlags := a |}]) todo
                    Hu' Hi' ltac:(lia) Htbl Hlen)
          as (fr' & Hrun & Hcdi)
    end.
    + cbn. now rewrite <- app_assoc.
    + now inversion Htodo.
    + exists fr'. rewrite len_app in Hrun. change (len [?x]) with 1 in Hrun.
      rewrite <- !app_assoc in Hrun. rewrite app_assoc.
      split.
      * rewrite <- Hrun. f_equal. now rewrite <- !app_assoc.
      * rewrite Hcdi. cbn. now rewrite <- app_assoc.
Qed.

Lemma set_DirectMethods_same (c : ClassDefItem) :
  set_ClassData (set_DirectMethods (DirectMethods (ClassData c)) (ClassData c)) c
  = c.
Proof. destruct c as [? ? ? ? ? ? ? [] ?]. reflexivity. Qed.

Lemma directmethods_for_ok (dex : DEX) (l : list (Z * Z * Z)) :
  forall (pre rest : list byte) (idx : Z) (fr : Frame)
         (done todo : list EncodedMethod),
    Forall (fun e => u32 (fst (fst e)) /\ u32 (snd (fst e)) /\ u32 (snd e)) l ->
    Forall (fun i => i < len (Methods dex)) (indices idx (map (fun e => fst (fst e)) l)) ->
    0 <= idx -> len (Methods dex) < 2 ^ 63 ->
    len (pre ++ flat_map encode_method l) < 2 ^ 63 ->
    DirectMethods (ClassData (class_def_item fr)) = done ++ todo ->
    List.length todo = List.length l ->
    exists fr',
      directmethods_for dex (List.length l)
        (pre ++ flat_map encode_method l ++ rest) (len done) (len pre) idx fr
      = Some (fr', len (pre ++ flat_map encode_method l))
      /\ class_def_item fr'
         = set_ClassData
             (set_DirectMethods (done ++ resolve_methods (Methods dex) idx l)
                (ClassData (class_def_item fr)))
             (class_def_item fr).
Proof.
  induction l as [|[[d a] c] l IH];
    intros pre rest idx fr done todo Hu Hi Hidx Htbl Hlen Hsf Htodo.
  - destruct todo; [|discriminate].
    exists fr. cbn [directmethods_for List.length flat_map resolve_methods].
    rewrite app_nil_r. split; [reflexivity|].
    rewrite app_nil_r in *. rewrite <- Hsf.
    now rewrite set_DirectMethods_same.
  - destruct todo as [|t todo]; [discriminate|].
    inversion Hu as [|? ? [Hd [Ha Hc]] Hu']; subst.
    cbn [map fst indices] in Hi. inversion Hi as [|? ? Hi0 Hi']; subst.
    cbn [fst snd] in Hd, Ha, Hc.
    cbn [List.length directmethods_for flat_map].
    rewrite <- app_assoc, slice_from_app.
    rewrite Unpack_EncodedMethod by assumption.
    cbn [em set_em MethodIdxDiff set_CodeOffset
         set_EncodedMethod_AccessFlags set_MethodIdxDiff].
    unfold u32 in Hd, Ha.
    rewrite (uint64_small d) by lia.
    rewrite (uint64_small (idx + d)) by lia.
    rewrite (index_nth _ _ zero_MethodIdItem) by lia.
    cbn [load ClassData_ptr class_def_item set_em].
    rewrite Hsf, store_index_app.
    cbn [flat_map] in Hlen. rewrite app_assoc in Hlen.
    pose proof (len_nonneg pre). pose proof (len_nonneg (encode_method (d, a, c))).
    assert (Hl1 : len (pre ++ encode_method (d, a, c)) < 2 ^ 63).
    { rewrite len_app in Hlen.
      pose proof (len_nonneg (flat_map encode_method l)). lia. }
    rewrite int_small by (rewrite len_app in Hl1; lia).
    rewrite <- len_app.
    match goal with
    | |- context [directmethods_for dex _ _ _ _ _ ?fr1] =>
        destruct (IH (pre ++ encode_method (d, a, c)) rest (idx + d) fr1
                    (done ++ [{| EncodedMethod_dex := this_DEX;
                                 Method := nth (Z.to_nat (idx + d)) (Methods dex)
                                             zero_MethodIdItem;
                                 MethodIdxDiff := d;
                                 EncodedMethod_AccessFlags := a;
                                 CodeOffset := c |}]) todo
                    Hu' Hi' ltac:(lia) Htbl Hlen)
          as (fr' & Hrun & Hcdi)
    end.
    + cbn. now rewrite <- app_assoc.
    + now inversion Htodo.
    + exists fr'. rewrite len_app in Hrun. change (len [?x]) with 1 in Hrun.
      rewrite <- !app_assoc in Hrun. rewrite app_assoc.
      split.
      * rewrite <- Hrun. f_equal. now rewrite <- !app_assoc.
      * rewrite Hcdi. cbn. now rewrite <- app_assoc.
Qed.

Lemma set_VirtualMethods_same (c : ClassDefItem) :
  set_ClassData (set_VirtualMethods (VirtualMethods (ClassData c)) (ClassData c)) c
  = c.
Proof. destruct c as [? ? ? ? ? ? ? [] ?]. reflexivity. Qed.

Lemma virtualmethods_for_ok (dex : DEX) (l : list (Z * Z * Z)) :
  forall (pre rest : list byte) (idx : Z) (fr : Frame)
         (done todo : list EncodedMethod),
    Forall (fun e => u32 (fst (fst e)) /\ u32 (snd (fst e)) /\ u32 (snd e)) l ->
    Forall (fun i => i < len (Methods dex)) (indices idx (map (fun e => fst (fst e)) l)) ->
    0 <= idx -> len (Methods dex) < 2 ^ 63 ->
    len (pre ++ flat_map encode_method l) < 2 ^ 63 ->
    VirtualMethods (ClassData (class_def_item fr)) = done ++ todo ->
    List.length todo = List.length l ->
    exists fr',
      virtualmethods_for dex (List.length l)
        (pre ++ flat_map encode_method l ++ rest) (len done) (len pre) idx fr
      = Some (fr', len (pre ++ flat_map encode_method l))
      /\ class_def_item fr'
         = set_ClassData
             (set_VirtualMethods (done ++ resolve_methods (Methods dex) idx l)
                (ClassData (class_def_item fr)))
             (class_def_item fr).
Proof.
  induction l as [|[[d a] c] l IH];
    intros pre rest idx fr done todo Hu Hi Hidx Htbl Hlen Hsf Htodo.
  - destruct todo; [|discriminate].
    exists fr. cbn [virtualmethods_for List.length flat_map resolve_methods].
    rewrite app_nil_r. split; [reflexivity|].
    rewrite app_nil_r in *. rewrite <- Hsf.
    now rewrite set_VirtualMethods_same.
  - destruct todo as [|t todo]; [discriminate|].
    inversion Hu as [|? ? [Hd [Ha Hc]] Hu']; subst.
    cbn [map fst indices] in Hi. inversion Hi as [|? ? Hi0 Hi']; subst.
    cbn [fst snd] in Hd, Ha, Hc.
    cbn [List.length virtualmethods_for flat_map].
    rewrite <- app_assoc, slice_from_app.
    rewrite Unpack_EncodedMethod by assumption.
    cbn [em set_em MethodIdxDiff set_CodeOffset
         set_EncodedMethod_AccessFlags set_MethodIdxDiff].
    unfold u32 in Hd, Ha.
    rewrite (uint64_small d) by lia.
    rewrite (uint64_small (idx + d)) by lia.
    rewrite (index_nth _ _ zero_MethodIdItem) by lia.
    cbn [load ClassData_ptr class_def_item set_em].
    rewrite Hsf, store_index_app.
    cbn [flat_map] in Hlen. rewrite app_assoc in Hlen.
    pose proof (len_nonneg pre). pose proof (len_nonneg (encode_method (d, a, c))).
    assert (Hl1 : len (pre ++ encode_method (d, a, c)) < 2 ^ 63).
    { rewrite len_app in Hlen.
      pose proof (len_nonneg (flat_map encode_method l)). lia. }
    rewrite int_small by (rewrite len_app in Hl1; lia).
    rewrite <- len_app.
    match goal with
    | |- context [virtualmethods_for dex _ _ _ _ _ ?fr1] =>
        destruct (IH (pre ++ encode_method (d, a, c)) rest (idx + d) fr1
                    (done ++ [{| EncodedMethod_dex := this_DEX;
                                 Method := nth (Z.to_nat (idx + d)) (Methods dex)
                                             zero_MethodIdItem;
                                 MethodIdxDiff := d;
                                 EncodedMethod_AccessFlags := a;
                                 CodeOffset := c |}]) todo
                    Hu' Hi' ltac:(lia) Htbl Hlen)
          as (fr' & Hrun & Hcdi)
    end.
    + cbn. now rewrite <- app_assoc.
    + now inversion Htodo.
    + exists fr'. rewrite len_app in Hrun. change (len [?x]) with 1 in Hrun.
      rewrite <- !app_assoc in Hrun. rewrite app_assoc.
      split.
      * rewrite <- Hrun. f_equal. now rewrite <- !app_assoc.
      * rewrite Hcdi. cbn. now rewrite <- app_assoc.
Qed.

(** The closures of the four lists, run where the list begins, on a frame
    whose size field holds the number of elements. *)
Lemma staticfields_ok (dex : DEX) (l : list (Z * Z)) (rest : list byte)
      (val : Value Frame) (fr : Frame) :
  fields_ok (len (Fields dex)) 0 l ->
  len (Fields dex) < 2 ^ 63 ->
  len (flat_map encode_field l) < 2 ^ 63 ->
  StaticFieldSize (ClassData (class_def_item fr)) = len l ->
  exists fr',
    staticfields dex (flat_map encode_field l ++ rest) val fr
    = Some (fr', len (flat_map encode_field l), None)
    /\ class_def_item fr'
       = set_ClassData
           (set_StaticFields (resolve_fields (Fields dex) 0 l)
              (ClassData (class_def_item fr)))
           (class_def_item fr).
Proof.
  intros (Hu & Hi & _) Htbl Hlen Hsize. unfold staticfields.
  cbn [load ClassData_ptr]. rewrite Hsize. unfold make, len at 1 2.
  rewrite Nat2Z.id.
  match goal with
  | |- context [staticfields_for dex _ _ _ _ _ ?fr1] =>
      destruct (staticfields_for_ok dex l [] rest 0 fr1 []
                  (repeat zero_EncodedField (List.length l))
                  Hu Hi ltac:(lia) Htbl Hlen eq_refl (repeat_length _ _))
        as (fr' & Hrun & Hcdi)
  end.
  exists fr'. cbn [app] in Hrun. change (len []) with 0 in Hrun.
  rewrite Hrun. pose proof (len_nonneg (flat_map encode_field l)).
  rewrite uint64_small by lia. split; [reflexivity|].
  rewrite Hcdi. cbn. destruct (class_def_item fr) as [? ? ? ? ? ? ? [] ?].
  reflexivity.
Qed.

Lemma instancefields_ok (dex : DEX) (l : list (Z * Z)) (rest : list byte)
      (val : Value Frame) (fr : Frame) :
  fields_ok (len (Fields dex)) 0 l ->
  len (Fields dex) < 2 ^ 63 ->
  len (flat_map encode_field l) < 2 ^ 63 ->
  InstanceFieldSize (ClassData (class_def_item fr)) = len l ->
  exists fr',
    instancefields dex (flat_map encode_field l ++ rest) val fr
    = Some (fr', len (flat_map encode_field l), None)
    /\ class_def_item fr'
       = set_ClassData
           (set_InstanceFields (resolve_fields (Fields dex) 0 l)
              (ClassData (class_def_item fr)))
           (class_def_item fr).
Proof.
  intros (Hu & Hi & _) Htbl Hlen Hsize. unfold instancefields.
  cbn [load ClassData_ptr]. rewrite Hsize. unfold make, len at 1 2.
  rewrite Nat2Z.id.
  match goal with
  | |- context [instancefields_for dex _ _ _ _ _ ?fr1] =>
      destruct (instancefields_for_ok dex l [] rest 0 fr1 []
                  (repeat zero_EncodedField (List.length l))
                  Hu Hi ltac:(lia) Htbl Hlen eq_refl (repeat_length _ _))
        as (fr' & Hrun & Hcdi)
  end.
  exists fr'. cbn [app] in Hrun. change (len []) with 0 in Hrun.
  rewrite Hrun. pose proof (len_nonneg (flat_map encode_field l)).
  rewrite uint64_small by lia. split; [reflexivity|].
  rewrite Hcdi. cbn. destruct (class_def_item fr) as [? ? ? ? ? ? ? [] ?].
  reflexivity.
Qed.

Lemma directmethods_ok (dex : DEX) (l : list (Z * Z * Z)) (rest : list byte)
      (val : Value Frame) (fr : Frame) :
  methods_ok (len (Methods dex)) 0 l ->
  len (Methods dex) < 2 ^ 63 ->
  len (flat_map encode_method l) < 2 ^ 63 ->
  DirectMethodsSize (ClassData (class_def_item fr)) = len l ->
  exists fr',
    directmethods dex (flat_map encode_method l ++ rest) val fr
    = Some (fr', len (flat_map encode_method l), None)
    /\ class_def_item fr'
       = set_ClassData
           (set_DirectMethods (resolve_methods (Methods dex) 0 l)
              (ClassData (class_def_item fr)))
           (class_def_item fr).
Proof.
  intros (Hu & Hi & _) Htbl Hlen Hsize. unfold directmethods.
  cbn [load ClassData_ptr]. rewrite Hsize. unfold make, len at 1 2.
  rewrite Nat2Z.id.
  match goal with
  | |- context [directmethods_for dex _ _ _ _ _ ?fr1] =>
      destruct (directmethods_for_ok dex l [] rest 0 fr1 []
                  (repeat zero_EncodedMethod (List.length l))
                  Hu Hi ltac:(lia) Htbl Hlen eq_refl (repeat_length _ _))
        as (fr' & Hrun & Hcdi)
  end.
  exists fr'. cbn [app] in Hrun. change (len []) with 0 in Hrun.
  rewrite Hrun. pose proof (len_nonneg (flat_map encode_method l)).
  rewrite uint64_small by lia. split; [reflexivity|].
  rewrite Hcdi. cbn. destruct (class_def_item fr) as [? ? ? ? ? ? ? [] ?].
  reflexivity.
Qed.

Lemma virtualmethods_ok (dex : DEX) (l : list (Z * Z * Z)) (rest : list byte)
      (val : Value Frame) (fr : Frame) :
  methods_ok (len (Methods dex)) 0 l ->
  len (Methods dex) < 2 ^ 63 ->
  len (flat_map encode_method l) < 2 ^ 63 ->
  VirtualMethodsSize (ClassData (class_def_item fr)) = len l ->
  exists fr',
    virtualmethods dex (flat_map encode_method l ++ rest) val fr
    = Some (fr', len (flat_map encode_method l), None)
    /\ class_def_item fr'
       = set_ClassData
           (set_VirtualMethods (resolve_methods (Methods dex) 0 l)
              (ClassData (class_def_item fr)))
           (class_def_item fr).
Proof.
  intros (Hu & Hi & _) Htbl Hlen Hsize. unfold virtualmethods.
  cbn [load ClassData_ptr]. rewrite Hsize. unfold make, len at 1 2.
  rewrite Nat2Z.id.
  match goal with
  | |- context [virtualmethods_for dex _ _ _ _ _ ?fr1] =>
      destruct (virtualmethods_for_ok dex l [] rest 0 fr1 []
                  (repeat zero_EncodedMethod (List.length l))
                  Hu Hi ltac:(lia) Htbl Hlen eq_refl (repeat_length _ _))
        as (fr' & Hrun & Hcdi)
  end.
  exists fr'. cbn [app] in Hrun. change (len []) with 0 in Hrun.
  rewrite Hrun. pose proof (len_nonneg (flat_map encode_method l)).
  rewrite uint64_small by lia. split; [reflexivity|].
  rewrite Hcdi. cbn. destruct (class_def_item fr) as [? ? ? ? ? ? ? [] ?].
  reflexivity.
Qed.

Lemma map_Field_resolve_fields (tbl : list FieldIdItem) (l : list (Z * Z)) :
  forall idx : Z,
    map Field (resolve_fields tbl idx l)
    = map (fun i => nth (Z.to_nat i) tbl zero_FieldIdItem)
        (indices idx (map fst l)).
Proof.
  induction l as [|[d a] l IH]; intros idx; cbn; [reflexivity|].
  now rewrite IH.
Qed.

Lemma map_Method_resolve_methods (tbl : list MethodIdItem)
      (l : list (Z * Z * Z)) :
  forall idx : Z,
    map Method (resolve_methods tbl idx l)
    = map (fun i => nth (Z.to_nat i) tbl zero_MethodIdItem)
        (indices idx (map (fun e => fst (fst e)) l)).
Proof.
  induction l as [|[[d a] c] l IH]; intros idx; cbn; [reflexivity|].
  now rewrite IH.
Qed.

(** Unpacking a class-data item whose lists stay within the tables. *)
Lemma Unpack_ClassDataItem (dex : DEX) (sf inf : list (Z * Z))
      (dm vm : list (Z * Z * Z)) (rest : list byte) (fr : Frame) :
  fields_ok (len (Fields dex)) 0 sf ->
  fields_ok (len (Fields dex)) 0 inf ->
  methods_ok (len (Methods dex)) 0 dm ->
  methods_ok (len (Methods dex)) 0 vm ->
  len (Fields dex) < 2 ^ 63 -> len (Methods dex) < 2 ^ 63 ->
  len (encode_class_data sf inf dm vm) < 2 ^ 63 ->
  exists fr',
    Unpack (packs_lists dex) (encode_class_data sf inf dm vm ++ rest)
      (reflect_ClassDataItem ClassData_ptr) fr
    = Some (fr', len (encode_class_data sf inf dm vm), None)
    /\ ClassData (class_def_item fr')
       = {| StaticFieldSize := len sf; InstanceFieldSize := len inf;
            DirectMethodsSize := len dm; VirtualMethodsSize := len vm;
            StaticFields := resolve_fields (Fields dex) 0 sf;
            InstanceFields := resolve_fields (Fields dex) 0 inf;
            DirectMethods := resolve_methods (Methods dex) 0 dm;
            VirtualMethods := resolve_methods (Methods dex) 0 vm |}.
Proof.
  intros Hsf Hinf Hdm Hvm HF HM Hlen.
  assert (U1 : u32 (len sf)) by (split; [apply len_nonneg|apply Hsf]).
  assert (U2 : u32 (len inf)) by (split; [apply len_nonneg|apply Hinf]).
  assert (U3 : u32 (len dm)) by (split; [apply len_nonneg|apply Hdm]).
  assert (U4 : u32 (len vm)) by (split; [apply len_nonneg|apply Hvm]).
  unfold Unpack, encode_class_data in *. rewrite <- !app_assoc.
  rewrite !len_app in Hlen.
  pose proof (len_nonneg (encode_uleb128 (len sf))).
  pose proof (len_nonneg (encode_uleb128 (len inf))).
  pose proof (len_nonneg (encode_uleb128 (len dm))).
  pose proof (len_nonneg (encode_uleb128 (len vm))).
  pose proof (len_nonneg (flat_map encode_field sf)).
  pose proof (len_nonneg (flat_map encode_field inf)).
  pose proof (len_nonneg (flat_map encode_method dm)).
  pose proof (len_nonneg (flat_map encode_method vm)).
  unfold reflect_ClassDataItem.
  match goal with
  | |- context [Unpack_for ?p ?d ?f 0 ?s] =>
      change (Unpack_for p d f 0 s)
        with (Unpack_for p ([] ++ d) f (len (@nil byte)) s)
  end.
  erewrite Unpack_for_step;
    [| reflexivity | reflexivity
     | cbn [Field_]; apply unpackUleb128_encode; [assumption|lia]
     | cbn [app]; rewrite ?len_app; lia ].
  erewrite Unpack_for_step;
    [| reflexivity | reflexivity
     | cbn [Field_]; apply unpackUleb128_encode; [assumption|lia]
     | cbn [app]; rewrite ?len_app; lia ].
  erewrite Unpack_for_step;
    [| reflexivity | reflexivity
     | cbn [Field_]; apply unpackUleb128_encode; [assumption|lia]
     | cbn [app]; rewrite ?len_app; lia ].
  erewrite Unpack_for_step;
    [| reflexivity | reflexivity
     | cbn [Field_]; apply unpackUleb128_encode; [assumption|lia]
     | cbn [app]; rewrite ?len_app; lia ].
  match goal with
  | |- context [Unpack_for _ (_ ++ _ ++ ?cur) (?f :: _) _ ?s] =>
      destruct (staticfields_ok dex sf cur (Field_ f) s Hsf HF ltac:(lia)
                  eq_refl) as (fr5 & Hr5 & Hc5)
  end.
  erewrite Unpack_for_step;
    [| reflexivity | reflexivity | exact Hr5
     | cbn [app]; rewrite ?len_app; lia ].
  match goal with
  | |- context [Unpack_for _ (_ ++ _ ++ ?cur) (?f :: _) _ ?s] =>
      destruct (instancefields_ok dex inf cur (Field_ f) s Hinf HF
                  ltac:(lia) ltac:(rewrite Hc5; reflexivity))
        as (fr6 & Hr6 & Hc6)
  end.
  erewrite Unpack_for_step;
    [| reflexivity | reflexivity | exact Hr6
     | cbn [app]; rewrite ?len_app; lia ].
  match goal with
  | |- context [Unpack_for _ (_ ++ _ ++ ?cur) (?f :: _) _ ?s] =>
      destruct (directmethods_ok dex dm cur (Field_ f) s Hdm HM
                  ltac:(lia) ltac:(rewrite Hc6, Hc5; reflexivity))
        as (fr7 & Hr7 & Hc7)
  end.
  erewrite Unpack_for_step;
    [| reflexivity | reflexivity | exact Hr7
     | cbn [app]; rewrite ?len_app; lia ].
  match goal with
  | |- context [Unpack_for _ (_ ++ _ ++ ?cur) (?f :: _) _ ?s] =>
      destruct (virtualmethods_ok dex vm cur (Field_ f) s Hvm HM
                  ltac:(lia) ltac:(rewrite Hc7, Hc6, Hc5; reflexivity))
        as (fr8 & Hr8 & Hc8)
  end.
  erewrite Unpack_for_step;
    [| reflexivity | reflexivity | exact Hr8
     | cbn [app]; rewrite ?len_app; lia ].
  exists fr8. cbn [Unpack_for app]. split.
  - rewrite !len_app. change (len []) with 0. do 3 f_equal. lia.
  - rewrite Hc8, Hc7, Hc6, Hc5. reflexivity.
Qed.

(** C3. In a class-data item each of the four lists is resolved with a
    running index of its own that starts at 0: the element at position [j]
    of a list carries the table entry at the sum of the first [j + 1] index
    differences of that list. The index differences 3, 1 and 5 resolve to
    the entries 3, 4 and 9, and an instance field of difference 2 that
    follows them to the entry 2. *)
Theorem class_data_running_index :
  (forall (dex : DEX) (sf inf : list (Z * Z)) (dm vm : list (Z * Z * Z))
          (rest : list byte) (fr : Frame),
      fields_ok (len (Fields dex)) 0 sf ->
      fields_ok (len (Fields dex)) 0 inf ->
      methods_ok (len (Methods dex)) 0 dm ->
      methods_ok (len (Methods dex)) 0 vm ->
      len (Fields dex) < 2 ^ 63 -> len (Methods dex) < 2 ^ 63 ->
      len (encode_class_data sf inf dm vm) < 2 ^ 63 ->
      exists fr',
        Unpack (packs_lists dex) (encode_class_data sf inf dm vm ++ rest)
          (reflect_ClassDataItem ClassData_ptr) fr
        = Some (fr', len (encode_class_data sf inf dm vm), None)
        /\ ClassData (class_def_item fr')
           = {| StaticFieldSize := len sf; InstanceFieldSize := len inf;
                DirectMethodsSize := len dm; VirtualMethodsSize := len vm;
                StaticFields := resolve_fields (Fields dex) 0 sf;
                InstanceFields := resolve_fields (Fields dex) 0 inf;
                DirectMethods := resolve_methods (Methods dex) 0 dm;
                VirtualMethods := resolve_methods (Methods dex) 0 vm |}
        /\ map Field (StaticFields (ClassData (class_def_item fr')))
           = map (fun i => nth (Z.to_nat i) (Fields dex) zero_FieldIdItem)
               (indices 0 (map fst sf))
        /\ map Field (InstanceFields (ClassData (class_def_item fr')))
           = map (fun i => nth (Z.to_nat i) (Fields dex) zero_FieldIdItem)
               (indices 0 (map fst inf))
        /\ map Method (DirectMethods (ClassData (class_def_item fr')))
           = map (fun i => nth (Z.to_nat i) (Methods dex) zero_MethodIdItem)
               (indices 0 (map (fun e => fst (fst e)) dm))
        /\ map Method (VirtualMethods (ClassData (class_def_item fr')))
           = map (fun i => nth (Z.to_nat i) (Methods dex) zero_MethodIdItem)
               (indices 0 (map (fun e => fst (fst e)) vm)))
  /\ indices 0 [3; 1; 5] = [3; 4; 9]
  /\ option_map
       (fun r =>
          let cd := ClassData (class_def_item (fst (fst r))) in
          (map (fun e => FieldIdItem_NameIdx (Field e)) (StaticFields cd),
           map (fun e => FieldIdItem_NameIdx (Field e)) (InstanceFields cd)))
       (Unpack (packs_lists ten_fields) class_data_3_1_5
          (reflect_ClassDataItem ClassData_ptr) new_Frame)
     = Some ([3; 4; 9], [2]).
Proof.
  split; [|split; reflexivity].
  intros dex sf inf dm vm rest fr Hsf Hinf Hdm Hvm HF HM Hlen.
  destruct (Unpack_ClassDataItem dex sf inf dm vm rest fr
              Hsf Hinf Hdm Hvm HF HM Hlen) as (fr' & Hrun & Hcd).
  exists fr'. split; [exact Hrun|]. split; [exact Hcd|].
  rewrite Hcd. cbn [StaticFields InstanceFields DirectMethods VirtualMethods].
  rewrite !map_Field_resolve_fields, !map_Method_resolve_methods.
  repeat split; reflexivity.
Qed.

Lemma class_data_running_index_witness :
  let sf := [(3, 0); (1, 0); (5, 0)] in
  let inf := [(2, 0)] in
  (fields_ok (len (Fields ten_fields)) 0 sf
   /\ fields_ok (len (Fields ten_fields)) 0 inf
   /\ methods_ok (len (Methods ten_fields)) 0 []
   /\ len (Fields ten_fields) < 2 ^ 63
   /\ len (Methods ten_fields) < 2 ^ 63
   /\ len (encode_class_data sf inf [] []) < 2 ^ 63)
  /\ encode_class_data sf inf [] [] = class_data_3_1_5
  /\ exists fr',
       Unpack (packs_lists ten_fields) (encode_class_data sf inf [] [] ++ [])
         (reflect_ClassDataItem ClassData_ptr) new_Frame
       = Some (fr', len (encode_class_data sf inf [] []), None)
       /\ map Field (StaticFields (ClassData (class_def_item fr')))
          = map (fun i => nth (Z.to_nat i) (Fields ten_fields)
                            zero_FieldIdItem) [3; 4; 9]
       /\ map Field (InstanceFields (ClassData (class_def_item fr')))
          = map (fun i => nth (Z.to_nat i) (Fields ten_fields)
                            zero_FieldIdItem) [2].
Proof.
  intros sf inf.
  assert (H1 : fields_ok (len (Fields ten_fields)) 0 sf)
    by (repeat split; repeat constructor; cbn; lia).
  assert (H2 : fields_ok (len (Fields ten_fields)) 0 inf)
    by (repeat split; repeat constructor; cbn; lia).
  assert (H3 : methods_ok (len (Methods ten_fields)) 0 [])
    by (repeat split; repeat constructor; cbn; lia).
  assert (H4 : len (Fields ten_fields) < 2 ^ 63) by (cbn; lia).
  assert (H5 : len (Methods ten_fields) < 2 ^ 63) by (cbn; lia).
  assert (H6 : len (encode_class_data sf inf [] []) < 2 ^ 63)
    by (cbn; lia).
  split; [exact (conj H1 (conj H2 (conj H3 (conj H4 (conj H5 H6)))))|].
  split; [reflexivity|].
  destruct (proj1 class_data_running_index ten_fields sf inf [] [] []
              new_Frame H1 H2 H3 H3 H4 H5 H6)
    as (fr' & Hrun & _ & Hs & Hi & _).
  exists fr'. split; [exact Hrun|]. split; [exact Hs|exact Hi].
Defined.

Lemma Unpack_frame_witness :
  (Unpack packs_init [x2a; x00; x00; x00] DashY (7, 7)
   = Some ((7, 42), 4, None)
   /\ fst (7, 42) = fst (7, 7))
  /\ (let ef :=
        {| EncodedField_dex := this_DEX;
           Field := nth 3 (Fields ten_fields) zero_FieldIdItem;
           FieldIdxDiff := 0; EncodedField_AccessFlags := 0 |} in
      exists ef',
        Unpack packs_init [x03; x01] (reflect_EncodedField self) ef
        = Some (ef', 2, None)
        /\ FieldIdxDiff ef' = 3
        /\ EncodedField_dex ef' = EncodedField_dex ef
        /\ Field ef' = Field ef).
Proof.
  split.
  - split; [reflexivity|].
    apply (proj1 Unpack_frame (Z * Z)%type Z fst packs_init
             [x2a; x00; x00; x00] DashY) with (n := 4) (err := None);
      [|reflexivity].
    intros f p data s1 s2 n e Hin Ht Hp Hr.
    destruct Hin as [<-|[<-|[]]]; cbn in Ht, Hp; [congruence|].
    inversion Hp; subst p. unfold unpackUint in Hr.
    destruct (slice data 0 4) as [w|]; [|discriminate].
    destruct (LittleEndian_Uint32 w); [|discriminate].
    cbn in Hr. inversion Hr. reflexivity.
  - intros ef. eexists. split; [reflexivity|]. split; [reflexivity|].
    eapply (proj1 (proj2 Unpack_frame) [x03; x01] ef). reflexivity.
Defined.

(** ** The header and the tables *)

Lemma lor_bound (a b n : Z) :
  0 <= n -> 0 <= a < 2 ^ n -> 0 <= b < 2 ^ n -> 0 <= Z.lor a b < 2 ^ n.
Proof.
  intros Hn Ha Hb. split; [apply Z.lor_nonneg; lia|].
  destruct (Z.eq_dec (Z.lor a b) 0) as [E|E]; [rewrite E; lia|].
  assert (0 <= Z.lor a b) by (apply Z.lor_nonneg; lia).
  apply Z.log2_lt_pow2; [lia|]. rewrite Z.log2_lor by lia.
  assert (n <> 0).
  { intros ->. assert (a = 0) by lia. assert (b = 0) by lia. subst.
    now apply E. }
  apply Z.max_lub_lt.
  - destruct (Z.eq_dec a 0) as [->|]; [cbn; lia|].
    apply Z.log2_lt_pow2; lia.
  - destruct (Z.eq_dec b 0) as [->|]; [cbn; lia|].
    apply Z.log2_lt_pow2; lia.
Qed.

Lemma LittleEndian_Uint32_range (w : list byte) (v : Z) :
  LittleEndian_Uint32 w = Some v -> 0 <= v < 2 ^ 32.
Proof.
  destruct w as [|b0 [|b1 [|b2 [|b3 w]]]]; try discriminate.
  unfold LittleEndian_Uint32. intros H.
  assert (E : v = Z.lor (Z.lor (Z.lor (u8 b0) (Z.shiftl (u8 b1) 8))
                          (Z.shiftl (u8 b2) 16)) (Z.shiftl (u8 b3) 24))
    by congruence.
  rewrite E. clear.
  pose proof (u8_range b0). pose proof (u8_range b1).
  pose proof (u8_range b2). pose proof (u8_range b3).
  rewrite !Z.shiftl_mul_pow2 by lia.
  repeat apply lor_bound; lia.
Qed.

Lemma LittleEndian_Uint16_range (w : list byte) (v : Z) :
  LittleEndian_Uint16 w = Some v -> 0 <= v < 2 ^ 16.
Proof.
  destruct w as [|b0 [|b1 w]]; try discriminate.
  unfold LittleEndian_Uint16. intros H.
  assert (E : v = Z.lor (u8 b0) (Z.shiftl (u8 b1) 8)) by congruence.
  rewrite E. clear.
  pose proof (u8_range b0). pose proof (u8_range b1).
  rewrite !Z.shiftl_mul_pow2 by lia.
  repeat apply lor_bound; lia.
Qed.

Lemma slice_from_skipn {A} (b : list A) (offset : Z) :
  0 <= offset <= len b ->
  slice_from b offset = Some (skipn (Z.to_nat offset) b).
Proof.
  intros H. unfold slice_from.
  replace (0 <=? offset) with true by (symmetry; apply Z.leb_le; lia).
  now replace (offset <=? len b) with true by (symmetry; apply Z.leb_le; lia).
Qed.

Lemma len_skipn {A} (b : list A) (offset : Z) :
  0 <= offset <= len b -> len (skipn (Z.to_nat offset) b) = len b - offset.
Proof. intros H. unfold len in *. rewrite length_skipn. lia. Qed.

Lemma slice_0 {A} (data : list A) (n : Z) :
  0 <= n <= len data -> slice data 0 n = Some (firstn (Z.to_nat n) data).
Proof.
  intros H. unfold slice.
  replace (0 <=? n) with true by (symmetry; apply Z.leb_le; lia).
  replace (n <=? len data) with true by (symmetry; apply Z.leb_le; lia).
  cbn. now rewrite Z.sub_0_r.
Qed.

Lemma LittleEndian_Uint32_firstn (data : list byte) :
  4 <= len data ->
  LittleEndian_Uint32 (firstn 4 data) = LittleEndian_Uint32 data
  /\ exists v, LittleEndian_Uint32 data = Some v.
Proof.
  destruct data as [|b0 [|b1 [|b2 [|b3 w]]]]; cbn; try lia.
  intros _. split; [reflexivity|eauto].
Qed.

(** A field tagged ["uint"], read where four bytes are left. *)
Lemma Unpack_for_uint {S} (b : list byte) (f : StructField S)
      (fields : list (StructField S)) (set : Z -> S -> S) (offset : Z)
      (s : S) :
  Tag f = "uint"%string -> Field_ f = UintValue 32 set ->
  0 <= offset -> offset + 4 <= len b -> len b < 2 ^ 63 ->
  Unpack_for packs_init b (f :: fields) offset s
  = Unpack_for packs_init b fields (offset + 4)
      (set (Uint32_at b offset) s).
Proof.
  intros Ht Hf H0 H4 Hb. cbn [Unpack_for]. rewrite Ht, Hf.
  change (String.eqb "uint" "-") with false.
  change (packs_init "uint"%string) with (Some (@unpackUint S)).
  cbv iota. rewrite slice_from_skipn by lia.
  unfold unpackUint. rewrite slice_0 by (rewrite len_skipn; lia).
  change (Z.to_nat 4) with 4%nat.
  destruct (LittleEndian_Uint32_firstn (skipn (Z.to_nat offset) b))
    as [E [v Hv]]; [rewrite len_skipn; lia|].
  rewrite E. unfold Uint32_at. rewrite Hv.
  pose proof (LittleEndian_Uint32_range _ _ Hv).
  cbn [SetUint]. rewrite uint64_small by lia.
  rewrite (Z.mod_small v) by lia.
  now rewrite (int_small 4), int_small by lia.
Qed.

(** A field tagged ["byte"] that is an array, read where enough bytes are
    left. *)
Lemma Unpack_for_byte {S} (b : list byte) (f : StructField S)
      (fields : list (StructField S)) (n : Z)
      (set : list byte -> S -> S) (offset : Z) (s : S) :
  Tag f = "byte"%string -> Field_ f = ArrayValue n set ->
  0 <= offset -> 0 <= n -> offset + n <= len b -> len b < 2 ^ 63 ->
  Unpack_for packs_init b (f :: fields) offset s
  = Unpack_for packs_init b fields (offset + n)
      (set (bytes_at b offset n) s).
Proof.
  intros Ht Hf H0 Hn H4 Hb. cbn [Unpack_for]. rewrite Ht, Hf.
  change (String.eqb "byte" "-") with false.
  change (packs_init "byte"%string) with (Some (@unpackByteArray S)).
  cbv iota. rewrite slice_from_skipn by lia.
  unfold unpackByteArray. rewrite slice_0 by (rewrite len_skipn; lia).
  now rewrite (int_small n), int_small by lia.
Qed.

Ltac fixed_field :=
  first [ erewrite Unpack_for_uint by (try reflexivity; lia)
        | erewrite Unpack_for_byte by (try reflexivity; lia) ].

(** [readHeader] goes through any image of 0x70 bytes or more and keeps
    what it reads unchecked. *)
Lemma readHeader_total (d : DEX) :
  0x70 <= len (DEX_b d) < 2 ^ 63 ->
  exists d',
    readHeader d = Some (d', None)
    /\ DEX_b d' = DEX_b d
    /\ Magic (header d') = bytes_at (DEX_b d) 0 8
    /\ EndianTag (header d') = Uint32_at (DEX_b d) 40.
Proof.
  intros Hlen. unfold readHeader, Unpack, reflect_Header.
  repeat fixed_field. cbn [Unpack_for].
  eexists. split; [reflexivity|]. repeat split.
Qed.

Ltac all_known :=
  repeat (constructor; [first [left; reflexivity | right; discriminate]|]);
  constructor.

Lemma Unpack_known_nil {S} (packs : Packs S) (b : list byte)
      (fields : list (StructField S)) (s s' : S) (n : Z)
      (err : option error) :
  Forall (known packs) fields ->
  Unpack packs b fields s = Some (s', n, err) -> err = None.
Proof.
  intros HF H. apply Unpack_for_error in H.
  destruct H as [[-> _]|[_ H]]; [reflexivity|contradiction].
Qed.

Lemma readHeader_nil (d d' : DEX) (err : option error) :
  readHeader d = Some (d', err) -> err = None.
Proof.
  unfold readHeader. intros H.
  destruct (Unpack packs_init (DEX_b d) (reflect_Header header_ptr) d)
    as [[[d1 n] e]|] eqn:E; [|discriminate].
  apply Unpack_known_nil in E; [|unfold reflect_Header; all_known].
  congruence.
Qed.

Lemma readStrings_nil (d d' : DEX) (err : option error) :
  readStrings d = Some (d', err) -> err = None.
Proof.
  unfold readStrings. intros H.
  destruct (slice_from _ _); [|discriminate].
  destruct (readStrings_for _ _ _ _); [|discriminate]. congruence.
Qed.

Lemma readTypes_for_nil (n : nat) :
  forall (i : Z) (d d' : DEX) (err : option error),
    readTypes_for n i d = Some (d', err) -> err = None.
Proof.
  induction n as [|n IH]; intros i d d' err H; cbn [readTypes_for] in H.
  - congruence.
  - destruct (slice_from _ _) as [data|]; [|discriminate].
    destruct (Unpack _ _ _ _) as [[[t k] e]|] eqn:E; [|discriminate].
    apply Unpack_known_nil in E; [|unfold reflect_TypeId; all_known].
    subst e. destruct (store_index _ _ _); [|discriminate].
    now apply IH in H.
Qed.

Lemma readPrototypes_for_nil (n : nat) :
  forall (i : Z) (d d' : DEX) (err : option error),
    readPrototypes_for n i d = Some (d', err) -> err = None.
Proof.
  induction n as [|n IH]; intros i d d' err H; cbn [readPrototypes_for] in H.
  - congruence.
  - destruct (slice_from _ _) as [data|]; [|discriminate].
    destruct (Unpack _ _ _ _) as [[[t k] e]|] eqn:E; [|discriminate].
    apply Unpack_known_nil in E; [|unfold reflect_ProtoIdItem; all_known].
    subst e. destruct (store_index _ _ _); [|discriminate].
    now apply IH in H.
Qed.

Lemma readFields_for_nil (n : nat) :
  forall (i : Z) (d d' : DEX) (err : option error),
    readFields_for n i d = Some (d', err) -> err = None.
Proof.
  induction n as [|n IH]; intros i d d' err H; cbn [readFields_for] in H.
  - congruence.
  - destruct (slice_from _ _) as [data|]; [|discriminate].
    destruct (Unpack _ _ _ _) as [[[t k] e]|] eqn:E; [|discriminate].
    apply Unpack_known_nil in E; [|unfold reflect_FieldIdItem; all_known].
    subst e. destruct (store_index _ _ _); [|discriminate].
    now apply IH in H.
Qed.

Lemma readMethods_for_nil (n : nat) :
  forall (i : Z) (d d' : DEX) (err : option error),
    readMethods_for n i d = Some (d', err) -> err = None.
Proof.
  induction n as [|n IH]; intros i d d' err H; cbn [readMethods_for] in H.
  - congruence.
  - destruct (slice_from _ _) as [data|]; [|discriminate].
    destruct (Unpack _ _ _ _) as [[[t k] e]|] eqn:E; [|discriminate].
    apply Unpack_known_nil in E; [|unfold reflect_MethodIdItem; all_known].
    subst e. destruct (store_index _ _ _); [|discriminate].
    now apply IH in H.
Qed.

(** Whenever [Parse] returns, it returns nil. *)
Lemma Parse_nil (d d' : DEX) (err : option error) :
  Parse d = Some (d', err) -> err = None.
Proof.
  unfold Parse. intros H.
  destruct (readHeader d) as [[d1 [e|]]|] eqn:E1;
    [apply readHeader_nil in E1; discriminate| |discriminate].
  destruct (readStrings d1) as [[d2 [e|]]|] eqn:E2;
    [apply readStrings_nil in E2; discriminate| |discriminate].
  destruct (readTypes d2) as [[d3 [e|]]|] eqn:E3;
    [apply readTypes_for_nil in E3; discriminate| |discriminate].
  destruct (readPrototypes d3) as [[d4 [e|]]|] eqn:E4;
    [apply readPrototypes_for_nil in E4; discriminate| |discriminate].
  destruct (readFields d4) as [[d5 [e|]]|] eqn:E5;
    [apply readFields_for_nil in E5; discriminate| |discriminate].
  destruct (readMethods d5) as [[d6 [e|]]|] eqn:E6;
    [apply readMethods_for_nil in E6; discriminate| |discriminate].
  destruct (Parse_for _ _ _); [|discriminate]. congruence.
Qed.

Lemma readHeader_Header_at (d : DEX) :
  0x70 <= len (DEX_b d) < 2 ^ 63 ->
  readHeader d = Some (set_header (Header_at (DEX_b d)) d, None).
Proof.
  intros Hlen. unfold readHeader, Unpack, reflect_Header.
  repeat fixed_field. cbn [Unpack_for]. reflexivity.
Qed.

(** A header whose tables are all empty is parsed to the end. *)
Lemma Parse_empty_tables (b : list byte) :
  0x70 <= len b < 2 ^ 63 ->
  StringIdsSize (Header_at b) = 0 ->
  StringIdsOffset (Header_at b) <= len b ->
  TypeIdsSize (Header_at b) = 0 -> ProtosSize (Header_at b) = 0 ->
  FieldsSize (Header_at b) = 0 -> MethodIdsSize (Header_at b) = 0 ->
  ClassDefsSize (Header_at b) = 0 ->
  Parse (new_DEX b) = Some (set_header (Header_at b) (new_DEX b), None).
Proof.
  intros Hlen Hs Hso Ht Hp Hf Hm Hc. unfold Parse.
  rewrite readHeader_Header_at by exact Hlen.
  change (DEX_b (new_DEX b)) with b.
  unfold readStrings, readTypes, readPrototypes, readFields, readMethods.
  cbn [header set_header set_Strings set_Types set_Prototypes set_Fields
       set_Methods set_Classes DEX_b].
  rewrite Hs. cbn [Z.to_nat readStrings_for make repeat].
  assert (0 <= StringIdsOffset (Header_at b)).
  { cbn [Header_at StringIdsOffset]. unfold Uint32_at.
    destruct (LittleEndian_Uint32 _) as [v|] eqn:E; [|lia].
    apply LittleEndian_Uint32_range in E. lia. }
  change (DEX_b (new_DEX b)) with b. rewrite slice_from_skipn by lia.
  cbn [header set_header set_Strings set_Types set_Prototypes set_Fields
       set_Methods set_Classes DEX_b].
  rewrite Ht. cbn [Z.to_nat readTypes_for make repeat header set_header set_Strings
       set_Types set_Prototypes set_Fields set_Methods set_Classes DEX_b].
  rewrite Hp. cbn [Z.to_nat readPrototypes_for make repeat header set_header set_Strings
       set_Types set_Prototypes set_Fields set_Methods set_Classes DEX_b].
  rewrite Hf. cbn [Z.to_nat readFields_for make repeat header set_header set_Strings
       set_Types set_Prototypes set_Fields set_Methods set_Classes DEX_b].
  rewrite Hm. cbn [Z.to_nat readMethods_for make repeat header set_header set_Strings
       set_Types set_Prototypes set_Fields set_Methods set_Classes DEX_b].
  rewrite Hc. cbn [Z.to_nat Parse_for make repeat header set_header set_Strings
       set_Types set_Prototypes set_Fields set_Methods set_Classes DEX_b].
  reflexivity.
Qed.

(** C1, as the code has it. Neither the magic nor the endian tag is looked
    at. On every image of 0x70 bytes or more [readHeader] stores the header
    as it reads it and returns nil, whatever the first eight bytes and the
    endian tag are; whenever [Parse] returns, it returns nil; and an image
    whose tables are all empty is parsed to the end under any magic and any
    endian tag. *)
Theorem Parse_checks_no_header (b : list byte) :
  0x70 <= len b < 2 ^ 63 ->
  readHeader (new_DEX b)
  = Some (set_header (Header_at b) (new_DEX b), None)
  /\ Magic (Header_at b) = bytes_at b 0 8
  /\ EndianTag (Header_at b) = Uint32_at b 40
  /\ (forall (d' : DEX) (err : option error),
        Parse (new_DEX b) = Some (d', err) -> err = None)
  /\ (empty_tables b ->
      Parse (new_DEX b) = Some (set_header (Header_at b) (new_DEX b), None)).
Proof.
  intros Hlen. split; [|split; [|split; [|split]]].
  - now apply (readHeader_Header_at (new_DEX b)).
  - reflexivity.
  - reflexivity.
  - intros d' err. apply Parse_nil.
  - intros (Hs & Hso & Ht & Hp & Hf & Hm & Hc).
    now apply Parse_empty_tables.
Qed.

Lemma Parse_checks_no_header_witness :
  (0x70 <= len reverse_endian < 2 ^ 63 /\ empty_tables reverse_endian)
  /\ bytes_at reverse_endian 0 8 = DEX_FILE_MAGIC
  /\ Uint32_at reverse_endian 40 = REVERSE_ENDIAN_CONSTANT
  /\ Parse (new_DEX reverse_endian)
     = Some (set_header (Header_at reverse_endian) (new_DEX reverse_endian),
             None).
Proof.
  assert (Hlen : 0x70 <= len reverse_endian < 2 ^ 63) by (cbn; lia).
  assert (He : empty_tables reverse_endian)
    by (unfold empty_tables;
        repeat match goal with |- _ /\ _ => split end;
        first [reflexivity | vm_compute; discriminate]).
  split; [split; assumption|]. split; [reflexivity|].
  split; [reflexivity|].
  apply (Parse_checks_no_header reverse_endian Hlen). exact He.
Defined.

(** C1 as stated fails: an image that does not begin with the magic, and
    an image with the reverse endian tag, are both parsed with a nil
    error. *)
Lemma Parse_accepts_any_header :
  (bytes_at no_magic 0 8 <> DEX_FILE_MAGIC
   /\ exists d', Parse (new_DEX no_magic) = Some (d', None))
  /\ (bytes_at reverse_endian 0 8 = DEX_FILE_MAGIC
      /\ exists d',
           Parse (new_DEX reverse_endian) = Some (d', None)
           /\ EndianTag (header d') = REVERSE_ENDIAN_CONSTANT).
Proof.
  split.
  - split; [discriminate|]. eexists. vm_compute. reflexivity.
  - split; [reflexivity|]. eexists. split; vm_compute; reflexivity.
Qed.

(** ** Open *)




(** ** The disassembler *)

Lemma instructions_In (c : Z) (i : Instruction) :
  instructions c = Some i -> In (c, i) instructions_table.
Proof.
  unfold instructions. intros H.
  destruct (find (fun e => fst e =? c) instructions_table) as [[c' i']|] eqn:E;
    [|discriminate].
  apply find_some in E. destruct E as [Hin Hc]. cbn in Hc, H.
  apply Z.eqb_eq in Hc. inversion H. now subst.
Qed.

(** Every recorded length is -1 or one of 0, 1, 2, 3, 4, 5 and 9; and no
    opcode that the chain of [if]s names has the length -1. *)
Lemma instructions_table_lengths :
  forallb (fun e => (Length (snd e) =? -1)
                    || existsb (Z.eqb (Length (snd e))) [0; 1; 2; 3; 4; 5; 9])
          instructions_table = true
  /\ forallb (fun e => negb (special (fst e))
                       || negb (Length (snd e) =? -1))
             instructions_table = true.
Proof. split; vm_compute; reflexivity. Qed.


Section DisassembleFacts.

Variable d : DEX.



(** At an opcode byte that is not in the table the loop ends without a
    further line. *)
Lemma Disassemble_for_unknown (dex : DEX) (m : EncodedMethod)
      (size offset : Z) (fuel : nat) (c : byte) :
  offset < insns_end m size ->
  index (DEX_b dex) offset = Some c ->
  instructions (u8 c) = None ->
  Disassemble_for d (Datatypes.S fuel) dex m size offset = Some [].
Proof.
  unfold insns_end. intros Hlt Hc Hi. cbn [Disassemble_for].
  replace (offset <? int (CodeOffset m) + 16 + size * 2) with true
    by (symmetry; apply Z.ltb_lt; lia).
  now rewrite Hc, Hi.
Qed.

(** [Disassemble] returns nil, and the last line it prints is the
    closing one however the loop has ended. *)
Lemma Disassemble_nil (m : EncodedMethod) (out : list string)
      (err : option error) :
  Disassemble d m = Some (out, err) ->
  err = None /\ exists lines, out = lines ++ ["*****"%string].
Proof.
  unfold Disassemble. intros H.
  destruct (deref _ _) as [dex|]; [|discriminate].
  destruct (slice _ _ _) as [w|]; [|discriminate].
  destruct (LittleEndian_Uint32 w) as [size|]; [|discriminate].
  destruct (Disassemble_for _ _ _ _ _ _) as [lines|]; [|discriminate].
  cbv zeta in H. inversion H; subst. split; [reflexivity|].
  exists ((["*****"; fmt_d (CodeOffset m)]%string
             ++ [("Size: " ++ fmt_d size)%string]) ++ lines).
  reflexivity.
Qed.

End DisassembleFacts.

(** C8, as the code has it. An opcode byte that is not in the table ends
    the loop of [Disassemble] without an error and without a mark of its
    own: the loop prints nothing further, the lines of the instructions
    decoded before it stay in front, and [Disassemble] returns nil after
    the closing line that every call prints. *)
Theorem Disassemble_unknown_opcode (d : DEX) :
  (forall (dex : DEX) (m : EncodedMethod) (size offset : Z) (fuel : nat)
          (c : byte),
      offset < insns_end m size ->
      index (DEX_b dex) offset = Some c ->
      instructions (u8 c) = None ->
      Disassemble_for d (Datatypes.S fuel) dex m size offset = Some [])
  /\ (forall (dex : DEX) (m : EncodedMethod) (size offset : Z) (fuel : nat)
             (c : byte) (i : Instruction) (str : string),
        offset < insns_end m size ->
        index (DEX_b dex) offset = Some c ->
        instructions (u8 c) = Some i ->
        Disassemble_operands d dex (u8 c) i (offset + 1)
          (fmt_02x (u8 c) ++ " " ++ Name i)%string = Some (Some str) ->
        Disassemble_for d (Datatypes.S fuel) dex m size offset
        = (rest <- Disassemble_for d fuel dex m size
                     (offset + 1 + Length i) ;;
           Some (str :: rest)))
  /\ (forall (m : EncodedMethod) (out : list string) (err : option error),
        Disassemble d m = Some (out, err) ->
        err = None /\ exists lines, out = lines ++ ["*****"%string]).
Proof.
  split; [|split].
  - intros dex m size offset fuel c. apply Disassemble_for_unknown.
  - intros dex m size offset fuel c i str Hlt Hc Hi Ho.
    unfold insns_end in Hlt. cbn [Disassemble_for].
    replace (offset <? int (CodeOffset m) + 16 + size * 2) with true
      by (symmetry; apply Z.ltb_lt; lia).
    now rewrite Hc, Hi, Ho.
  - intros m out err. apply Disassemble_nil.
Qed.

Lemma Disassemble_unknown_opcode_witness :
  let dex := dex_with_code insns_unknown in
  (22 < insns_end method_at_4 2
   /\ index (DEX_b dex) 22 = Some x3e
   /\ instructions (u8 x3e) = None
   /\ Disassemble_for dex 1 dex method_at_4 2 22 = Some [])
  /\ (Disassemble dex method_at_4
      = Some (["*****"; "4"; "Size: 2"; "0e return-void"; "*****"]%string,
              None)
      /\ @None error = None).
Proof.
  intros dex. split.
  - split; [vm_compute; reflexivity|]. split; [reflexivity|].
    split; [reflexivity|].
    apply (proj1 (Disassemble_unknown_opcode dex) dex method_at_4 2 22 0%nat
             x3e); [vm_compute|..]; reflexivity.
  - split; [vm_compute; reflexivity|].
    apply (proj2 (proj2 (Disassemble_unknown_opcode dex)) method_at_4
             (["*****"; "4"; "Size: 2"; "0e return-void"; "*****"]%string)
             None).
    vm_compute. reflexivity.
Defined.

(** C8 as stated fails: a body of [return-void] followed by the unassigned
    opcode 0x3E is disassembled to the one line of [return-void] and the
    closing line, with a nil error. *)
Lemma Disassemble_unknown_opcode_is_silent :
  instructions 0x3e = None
  /\ Disassemble (dex_with_code insns_unknown) method_at_4
     = Some (["*****"; "4"; "Size: 2"; "0e return-void"; "*****"]%string,
             None).
Proof. split; vm_compute; reflexivity. Qed.




(** * Further properties of the code *)

(** ** The ULEB128 decoders *)

Lemma base128_snoc (l : list byte) (x : byte) :
  base128 (l ++ [x]) = base128 l + u8 x mod 0x80 * 2 ^ (7 * len l).
Proof.
  induction l as [|y l IH]; cbn [app base128].
  - change (len []) with 0. cbn. lia.
  - rewrite IH. change (len (y :: l)) with (Z.of_nat (Datatypes.S (List.length l))).
    rewrite Nat2Z.inj_succ. fold (len l).
    replace (7 * Z.succ (len l)) with (7 + 7 * len l) by lia.
    pose proof (len_nonneg l).
    rewrite Z.pow_add_r by lia. change (2 ^ 7) with 128. lia.
Qed.

Lemma firstn_succ_index {A} (data : list A) (i : Z) (x : A) :
  index data i = Some x ->
  firstn (Z.to_nat (i + 1)) data = firstn (Z.to_nat i) data ++ [x].
Proof.
  intros H. pose proof (index_Some_lt _ _ _ H) as Hi.
  unfold index in H. destruct (i <? 0) eqn:E; [discriminate|].
  replace (Z.to_nat (i + 1)) with (Datatypes.S (Z.to_nat i)) by lia.
  revert H. generalize (Z.to_nat i). clear. intros n. revert data.
  induction n as [|n IH]; intros [|y data] H; try discriminate.
  - cbn in H. inversion H. reflexivity.
  - cbn [nth_error] in H. cbn [firstn app]. f_equal.
    rewrite <- IH by assumption. reflexivity.
Qed.

Lemma len_firstn {A} (data : list A) (i : Z) :
  0 <= i <= len data -> len (firstn (Z.to_nat i) data) = i.
Proof. intros H. unfold len in *. rewrite length_firstn. lia. Qed.

(** The loop of the decoder: where it ends, having started on the sum of
    the groups before the cursor, it holds the sum of the groups before
    the byte it ends on, and every byte it went over has its top bit
    set. *)
Lemma uleb128_for_sum (k : nat) :
  forall (data : list byte) (i acc j v : Z),
    0 <= i <= len data ->
    acc = uint32 (base128 (firstn (Z.to_nat i) data)) ->
    uleb128_for k data i acc = Some (j, v) ->
    i <= j <= i + Z.of_nat k
    /\ j <= len data
    /\ v = uint32 (base128 (firstn (Z.to_nat j) data))
    /\ (forall t x, i <= t < j -> index data t = Some x -> continues x)
    /\ (j < i + Z.of_nat k ->
        exists x, index data j = Some x /\ u8 x < 0x80).
Proof.
  induction k as [|k IH]; intros data i acc j v Hi Hacc H;
    cbn [uleb128_for] in H.
  - inversion H; subst.
    split; [lia|]. split; [lia|]. split; [reflexivity|].
    split; intros; lia.
  - destruct (index data i) as [b|] eqn:Hb; [|discriminate].
    pose proof (index_Some_lt _ _ _ Hb) as Hlt.
    rewrite land_0x80 in H.
    destruct (u8 b <? 0x80) eqn:E.
    + cbn in H. inversion H; subst. apply Z.ltb_lt in E.
      split; [lia|]. split; [lia|]. split; [reflexivity|].
      split; [intros; lia|]. intros _. exists b. split; assumption.
    + cbn [Z.eqb Pos.eqb] in H. apply Z.ltb_ge in E.
      apply IH in H; [|lia|].
      * destruct H as (H1 & H2 & H3 & H4 & H5).
        split; [lia|]. split; [lia|]. split; [assumption|]. split.
        -- intros t x Ht Hx. destruct (Z.eq_dec t i) as [->|Hne].
           ++ rewrite Hb in Hx. inversion Hx; subst. exact E.
           ++ apply (H4 t x); [lia|assumption].
        -- intros Hj. apply H5. lia.
      * rewrite (firstn_succ_index _ _ _ Hb), base128_snoc.
        rewrite len_firstn by lia. rewrite Hacc.
        rewrite uint32_add_r, uint32_add_l, land_0x7F.
        now rewrite Z.shiftl_mul_pow2 by lia.
Qed.

Lemma uint32_idem (z : Z) : uint32 (uint32 z) = uint32 z.
Proof. unfold uint32. now rewrite Z.mod_mod by lia. Qed.

(** The value and the count of [uleb128], and the bytes it went over. *)
Lemma uleb128_decoded (data : list byte) (v n : Z) :
  uleb128 data = Some (v, n) ->
  1 <= n <= 6
  /\ n <= len data
  /\ v = uint32 (base128 (firstn (Z.to_nat (Z.min n 5)) data))
  /\ (forall t x, 0 <= t < n - 1 -> index data t = Some x -> continues x)
  /\ (n <= 5 -> exists x, index data (n - 1) = Some x /\ u8 x < 0x80).
Proof.
  unfold uleb128. intros H.
  destruct (uleb128_for 5 data 0 0) as [[j w]|] eqn:E; [|discriminate].
  destruct (index data j) as [b|] eqn:Hb; [|discriminate].
  assert (Ev : v = uint32 (w + uint32 (Z.shiftl (u8 b) (7 * j))))
    by congruence.
  assert (En : n = j + 1) by congruence.
  clear H. subst v n.
  pose proof (len_nonneg data) as Hl.
  apply uleb128_for_sum in E; [|lia|reflexivity].
  destruct E as (H1 & H2 & H3 & H4 & H5).
  pose proof (index_Some_lt _ _ _ Hb) as Hj.
  split; [lia|]. split; [lia|]. split; [|split].
  - destruct (Z.eq_dec j 5) as [->|Hne].
    + change (Z.min (5 + 1) 5) with 5. rewrite H3.
      assert (Hz : uint32 (Z.shiftl (u8 b) (7 * 5)) = 0).
      { rewrite Z.shiftl_mul_pow2 by lia. unfold uint32.
        change (2 ^ (7 * 5)) with (8 * 2 ^ 32). rewrite Z.mul_assoc.
        apply Z.mod_mul. lia. }
      now rewrite Hz, Z.add_0_r, uint32_idem.
    + destruct H5 as (x & Hx & Hxl); [lia|].
      rewrite Hb in Hx. inversion Hx; subst x.
      rewrite Z.min_l by lia.
      rewrite (firstn_succ_index _ _ _ Hb), base128_snoc.
      rewrite len_firstn by lia. rewrite H3.
      pose proof (u8_range b).
      rewrite uint32_add_r, uint32_add_l, Z.shiftl_mul_pow2 by lia.
      now rewrite (Z.mod_small (u8 b)) by lia.
  - intros t x Ht. replace (j + 1 - 1) with j in Ht by lia.
    apply H4. lia.
  - intros Hn. replace (j + 1 - 1) with j by lia.
    destruct H5 as (x & Hx & Hxl); [lia|]. eauto.
Qed.

(** X1. What [uleb128] returns: a count between 1 and 6, one more than the
    number of bytes with the top bit set that it went over, never more than
    five of them; and the low 32 bits of the number that the seven-bit
    groups of the first [min n 5] bytes spell. A sixth byte is read but
    adds nothing. *)
Theorem uleb128_value (data : list byte) (v n : Z) :
  uleb128 data = Some (v, n) ->
  1 <= n <= 6
  /\ n <= len data
  /\ v = uint32 (base128 (firstn (Z.to_nat (Z.min n 5)) data))
  /\ (forall t x, 0 <= t < n - 1 -> index data t = Some x -> continues x)
  /\ (n <= 5 -> exists x, index data (n - 1) = Some x /\ u8 x < 0x80).
Proof. apply uleb128_decoded. Qed.

Lemma uleb128_value_witness :
  uleb128 [x80; xff; x02; x55] = Some (49024, 3)
  /\ 1 <= 3 <= 6
  /\ 49024 = uint32 (base128 (firstn (Z.to_nat (Z.min 3 5))
                                [x80; xff; x02; x55])).
Proof.
  split; [reflexivity|].
  destruct (uleb128_value [x80; xff; x02; x55] 49024 3 eq_refl)
    as (H1 & _ & H3 & _).
  split; assumption.
Defined.

Lemma uleb128_for_total (k : nat) :
  forall (data : list byte) (i acc : Z),
    0 <= i -> i + Z.of_nat k <= len data ->
    exists j v, uleb128_for k data i acc = Some (j, v) /\ j <= i + Z.of_nat k.
Proof.
  induction k as [|k IH]; intros data i acc Hi Hl; cbn [uleb128_for].
  - exists i, acc. split; [reflexivity|lia].
  - destruct (index_lt_Some data i ltac:(lia)) as [b Hb]. rewrite Hb.
    destruct (Z.land (u8 b) 128 =? 128).
    + destruct (IH data (i + 1)
                  (uint32 (acc + uint32 (Z.shiftl (Z.land (u8 b) 0x7F)
                                           (7 * i))))
                  ltac:(lia) ltac:(lia)) as (j & v & H1 & H2).
      exists j, v. split; [assumption|lia].
    + exists i, acc. split; [reflexivity|lia].
Qed.

Lemma In_index {A} (l : list A) (x : A) :
  In x l -> exists i, index l i = Some x.
Proof.
  intros H. apply In_nth_error in H. destruct H as [n Hn].
  exists (Z.of_nat n). unfold index.
  destruct (Z.of_nat n <? 0) eqn:E; [apply Z.ltb_lt in E; lia|].
  now rewrite Nat2Z.id.
Qed.

Lemma index_In {A} (l : list A) (i : Z) (x : A) :
  index l i = Some x -> In x l.
Proof.
  unfold index. destruct (i <? 0); [discriminate|]. apply nth_error_In.
Qed.

(** X2. [uleb128] panics exactly on the inputs of fewer than six bytes all
    of whose bytes have the top bit set, the empty input among them. *)
Theorem uleb128_panics (data : list byte) :
  uleb128 data = None <-> len data < 6 /\ Forall continues data.
Proof.
  split.
  - intros H.
    assert (Hlen : len data < 6).
    { destruct (Z_lt_dec (len data) 6) as [|Hge]; [assumption|exfalso].
      destruct (uleb128_for_total 5 data 0 0 ltac:(lia) ltac:(lia))
        as (j & v & H1 & H2).
      unfold uleb128 in H. rewrite H1 in H.
      apply uleb128_for_range in H1.
      destruct (index_lt_Some data j ltac:(lia)) as [b Hb].
      rewrite Hb in H. discriminate. }
    split; [assumption|].
    apply Forall_forall. intros x Hx. unfold continues.
    destruct (Z_le_dec 0x80 (u8 x)) as [|Hlt]; [assumption|exfalso].
    apply In_index in Hx. destruct Hx as [i Hi].
    pose proof (index_Some_lt _ _ _ Hi).
    destruct (uleb128_for_stops 5 data 0 i 0 x ltac:(lia) ltac:(lia) Hi
                ltac:(lia)) as (j & v & b & H1 & H2 & H3).
    unfold uleb128 in H. rewrite H1, H3 in H. discriminate.
  - intros [Hlen Hall].
    destruct (uleb128 data) as [[v n]|] eqn:E; [exfalso|reflexivity].
    apply uleb128_decoded in E. destruct E as (H1 & H2 & _ & _ & H5).
    destruct H5 as (x & Hx & Hxl); [lia|].
    apply index_In in Hx. rewrite Forall_forall in Hall.
    specialize (Hall _ Hx). unfold continues in Hall. lia.
Qed.

Lemma index_firstn_app {A} (data rest : list A) (n t : Z) :
  0 <= t < n -> n <= len data ->
  index (firstn (Z.to_nat n) data ++ rest) t = index data t.
Proof.
  intros Ht Hn. unfold index. destruct (t <? 0) eqn:E; [lia|].
  unfold len in Hn.
  rewrite nth_error_app1 by (rewrite length_firstn; lia).
  rewrite nth_error_firstn.
  destruct (Z.to_nat t <? Z.to_nat n)%nat eqn:F; [reflexivity|].
  apply Nat.ltb_ge in F. lia.
Qed.

Lemma uleb128_for_ext (k : nat) :
  forall (data data' : list byte) (i acc j v : Z),
    uleb128_for k data i acc = Some (j, v) ->
    (forall t, i <= t <= j -> index data' t = index data t) ->
    uleb128_for k data' i acc = Some (j, v).
Proof.
  induction k as [|k IH]; intros data data' i acc j v H He;
    cbn [uleb128_for] in *; [assumption|].
  pose proof H as Hr.
  change (match index data i with
          | Some b =>
              if Z.land (u8 b) 0x80 =? 0x80
              then uleb128_for k data (i + 1)
                     (uint32 (acc + uint32 (Z.shiftl (Z.land (u8 b) 0x7F)
                                              (7 * i))))
              else Some (i, acc)
          | None => None
          end = Some (j, v)) in Hr.
  assert (Hij : i <= j).
  { apply (uleb128_for_range (Datatypes.S k) data i acc j v). exact H. }
  rewrite He by lia.
  destruct (index data i) as [b|]; [|discriminate].
  destruct (Z.land (u8 b) 0x80 =? 0x80); [|assumption].
  apply (IH data); [assumption|]. intros t Ht. apply He. lia.
Qed.

(** X3. [uleb128] looks at no byte beyond those it counts: the bytes it
    reports as consumed, followed by anything, decode to the same value
    and count. *)
Theorem uleb128_consumed_only (data : list byte) (v n : Z) :
  uleb128 data = Some (v, n) ->
  forall rest : list byte,
    uleb128 (firstn (Z.to_nat n) data ++ rest) = Some (v, n).
Proof.
  intros H rest. pose proof (uleb128_decoded _ _ _ H) as (Hn & Hl & _).
  unfold uleb128 in *.
  destruct (uleb128_for 5 data 0 0) as [[j w]|] eqn:E; [|discriminate].
  destruct (index data j) as [b|] eqn:Hb; [|discriminate].
  inversion H; subst; clear H.
  pose proof (uleb128_for_range _ _ _ _ _ _ E) as Hj.
  rewrite (uleb128_for_ext 5 data _ 0 0 j w E)
    by (intros t Ht; apply index_firstn_app; lia).
  rewrite index_firstn_app by lia. now rewrite Hb.
Qed.

Lemma uleb128_consumed_only_witness :
  uleb128 [x80; xff; x02; x55] = Some (49024, 3)
  /\ uleb128 (firstn (Z.to_nat 3) [x80; xff; x02; x55] ++ [xff; xff])
     = Some (49024, 3).
Proof.
  split; [reflexivity|].
  apply (uleb128_consumed_only [x80; xff; x02; x55] 49024 3 eq_refl).
Defined.

(** X4. The two copies of the decoder agree: [unpackUleb128] panics where
    [uleb128] does, and otherwise stores the value of [uleb128], cut to the
    width of the field, reports its count and returns nil; on a field that
    is no unsigned integer it panics. *)
Theorem unpackUleb128_uleb128_agree (S : Type) (data : list byte) (s : S) :
  (forall (bits : Z) (set : Z -> S -> S),
      unpackUleb128 data (UintValue bits set) s
      = match uleb128 data with
        | Some (v, n) => Some (set (v mod 2 ^ bits) s, n, None)
        | None => None
        end)
  /\ (forall (length : Z) (set : list byte -> S -> S),
        unpackUleb128 data (ArrayValue length set) s = None)
  /\ unpackUleb128 data OtherValue s = None.
Proof.
  unfold unpackUleb128, uleb128. split; [|split].
  - intros bits set.
    destruct (uleb128_for 5 data 0 0) as [[j w]|]; [|reflexivity].
    destruct (index data j) as [b|]; [|reflexivity].
    cbn [SetUint]. rewrite uint64_small; [reflexivity|].
    unfold uint32.
    pose proof (Z.mod_pos_bound (w + (Z.shiftl (u8 b) (7 * j)) mod 2 ^ 32)
                  (2 ^ 32) ltac:(lia)). lia.
  - intros length set.
    destruct (uleb128_for 5 data 0 0) as [[j w]|]; [|reflexivity].
    now destruct (index data j).
  - destruct (uleb128_for 5 data 0 0) as [[j w]|]; [|reflexivity].
    now destruct (index data j).
Qed.

(** ** The string reader and the fixed-width codecs *)

Lemma length_string_of_list_byte (l : list byte) :
  String.length (string_of_list_byte l) = List.length l.
Proof.
  induction l as [|x l IH]; [reflexivity|].
  cbn [string_of_list_byte map string_of_list_ascii String.length List.length].
  f_equal. exact IH.
Qed.

(** X5. [str] returns exactly when its prefix decodes and as many bytes as
    the prefix says follow it, the sum staying below 2^32; it then returns
    those bytes and the size of the prefix, and panics otherwise (on a
    slice with no spare capacity, as everywhere here). The string it
    returns has as many bytes as the prefix says. *)
Theorem str_returns (b : list byte) :
  str b
  = match uleb128 b with
    | Some (length, offset) =>
        if (offset + length <=? len b) && (offset + length <? 2 ^ 32)
        then Some (string_of_list_byte (bytes_at b offset length), offset)
        else None
    | None => None
    end
  /\ (forall (s : string) (n : Z),
        str b = Some (s, n) ->
        exists length,
          uleb128 b = Some (length, n)
          /\ Z.of_nat (String.length s) = length).
Proof.
  assert (E : str b
              = match uleb128 b with
                | Some (length, offset) =>
                    if (offset + length <=? len b)
                       && (offset + length <? 2 ^ 32)
                    then Some (string_of_list_byte
                                 (bytes_at b offset length), offset)
                    else None
                | None => None
                end).
  { destruct (uleb128 b) as [[length offset]|] eqn:U;
      [|unfold str; now rewrite U].
    destruct ((offset + length <=? len b) && (offset + length <? 2 ^ 32))
      eqn:C.
    - apply andb_true_iff in C. destruct C as [C1 C2].
      apply Z.leb_le in C1. apply Z.ltb_lt in C2.
      pose proof (uleb128_range _ _ _ U) as [Hv Hn].
      unfold str. rewrite U. rewrite Z.add_0_l.
      rewrite (uint32_small offset) by lia.
      rewrite (uint32_small (offset + length)) by lia.
      unfold slice, bytes_at.
      replace (0 <=? offset) with true by (symmetry; apply Z.leb_le; lia).
      replace (offset <=? offset + length) with true
        by (symmetry; apply Z.leb_le; lia).
      replace (offset + length <=? len b) with true
        by (symmetry; apply Z.leb_le; lia).
      cbn [andb]. now replace (offset + length - offset) with length by lia.
    - pose proof (uleb128_range _ _ _ U) as [Hv Hn].
      unfold str. rewrite U. rewrite Z.add_0_l.
      rewrite (uint32_small offset) by lia. unfold slice.
      apply andb_false_iff in C. destruct C as [C|C].
      + apply Z.leb_gt in C.
        destruct (Z_lt_dec (offset + length) (2 ^ 32)) as [Hs|Hs].
        * rewrite (uint32_small (offset + length)) by lia.
          replace (offset + length <=? len b) with false
            by (symmetry; apply Z.leb_gt; lia).
          now rewrite andb_false_r.
        * replace (offset <=? uint32 (offset + length)) with false;
            [now rewrite andb_false_r|].
          symmetry. apply Z.leb_gt. unfold uint32.
          replace (offset + length) with (offset + length - 2 ^ 32 + 1 * 2 ^ 32)
            by lia.
          rewrite Z.mod_add by lia. rewrite Z.mod_small by lia. lia.
      + apply Z.ltb_ge in C.
        replace (offset <=? uint32 (offset + length)) with false;
          [now rewrite andb_false_r|].
        symmetry. apply Z.leb_gt. unfold uint32.
        replace (offset + length) with (offset + length - 2 ^ 32 + 1 * 2 ^ 32)
          by lia.
        rewrite Z.mod_add by lia. rewrite Z.mod_small by lia. lia. }
  split; [exact E|].
  intros s n H. rewrite E in H.
  destruct (uleb128 b) as [[length offset]|] eqn:U; [|discriminate].
  destruct ((offset + length <=? len b) && (offset + length <? 2 ^ 32))
    eqn:C; [|discriminate].
  apply andb_true_iff in C. destruct C as [C1 C2].
  apply Z.leb_le in C1. apply Z.ltb_lt in C2.
  pose proof (uleb128_range _ _ _ U) as [Hv Hn].
  inversion H; subst. exists length. split; [reflexivity|].
  rewrite length_string_of_list_byte. unfold bytes_at.
  rewrite length_firstn, length_skipn. unfold len in C1. lia.
Qed.

Lemma str_returns_witness :
  str [x02; x41; x42; x00] = Some ("AB"%string, 1)
  /\ exists length,
       uleb128 [x02; x41; x42; x00] = Some (length, 1)
       /\ Z.of_nat (String.length "AB") = length.
Proof.
  split; [reflexivity|].
  apply (proj2 (str_returns [x02; x41; x42; x00]) "AB"%string 1).
  reflexivity.
Defined.

Lemma land_low_high (a c n : Z) :
  0 <= n -> 0 <= a < 2 ^ n -> Z.land a (c * 2 ^ n) = 0.
Proof.
  intros Hn Ha. apply Z.bits_inj'. intros m Hm.
  rewrite Z.land_spec, Z.bits_0.
  destruct (Z_lt_dec m n) as [Hlt|Hge].
  - rewrite Z.mul_pow2_bits_low by lia. apply andb_false_r.
  - rewrite <- (Z.mod_small a (2 ^ n)) by lia.
    rewrite Z.mod_pow2_bits_high by lia. reflexivity.
Qed.

Lemma lor_low_high (a c n : Z) :
  0 <= n -> 0 <= a < 2 ^ n -> Z.lor a (Z.shiftl c n) = a + c * 2 ^ n.
Proof.
  intros Hn Ha. rewrite Z.shiftl_mul_pow2 by lia.
  pose proof (Z.add_lor_land a (c * 2 ^ n)) as H.
  rewrite land_low_high in H by assumption. lia.
Qed.

Lemma LittleEndian_Uint32_le32 (v : Z) (rest : list byte) :
  u32 v -> LittleEndian_Uint32 (le32 v ++ rest) = Some v.
Proof.
  unfold u32. intros Hv. unfold le32. cbn [app LittleEndian_Uint32].
  rewrite !u8_byte_of_Z by (apply Z.mod_pos_bound; lia).
  f_equal.
  pose proof (Z.mod_pos_bound v 256 ltac:(lia)).
  pose proof (Z.mod_pos_bound (v / 2 ^ 8) 256 ltac:(lia)).
  pose proof (Z.mod_pos_bound (v / 2 ^ 16) 256 ltac:(lia)).
  pose proof (Z.mod_pos_bound (v / 2 ^ 24) 256 ltac:(lia)).
  rewrite (lor_low_high (v mod 256)) by lia.
  rewrite (lor_low_high _ _ 16) by lia.
  rewrite (lor_low_high _ _ 24) by lia.
  change (2 ^ 8) with 256 in *. change (2 ^ 16) with 65536 in *.
  change (2 ^ 24) with 16777216 in *. change (2 ^ 32) with 4294967296 in *.
  Z.div_mod_to_equations. lia.
Qed.

Lemma LittleEndian_Uint16_le16 (v : Z) (rest : list byte) :
  0 <= v < 2 ^ 16 -> LittleEndian_Uint16 (le16 v ++ rest) = Some v.
Proof.
  intros Hv. unfold le16. cbn [app LittleEndian_Uint16].
  rewrite !u8_byte_of_Z by (apply Z.mod_pos_bound; lia).
  f_equal.
  pose proof (Z.mod_pos_bound v 256 ltac:(lia)).
  pose proof (Z.mod_pos_bound (v / 2 ^ 8) 256 ltac:(lia)).
  rewrite (lor_low_high (v mod 256)) by lia.
  change (2 ^ 8) with 256 in *. change (2 ^ 16) with 65536 in *.
  Z.div_mod_to_equations. lia.
Qed.

Lemma slice_short {A} (data : list A) (n : Z) :
  len data < n -> slice data 0 n = None.
Proof.
  intros H. unfold slice.
  replace (n <=? len data) with false by (symmetry; apply Z.leb_gt; lia).
  now rewrite andb_false_r.
Qed.

Lemma slice_le32 (v : Z) (rest : list byte) :
  slice (le32 v ++ rest) 0 4 = Some (le32 v).
Proof.
  rewrite slice_0 by (rewrite len_app; pose proof (len_nonneg rest);
                      change (len (le32 v)) with 4; lia).
  reflexivity.
Qed.

Lemma slice_le16 (v : Z) (rest : list byte) :
  slice (le16 v ++ rest) 0 2 = Some (le16 v).
Proof.
  rewrite slice_0 by (rewrite len_app; pose proof (len_nonneg rest);
                      change (len (le16 v)) with 2; lia).
  reflexivity.
Qed.

(** X6. The codec ["uint"] and [_uint] decode four bytes, least
    significant first, whatever follows them: of a value below 2^32 laid
    out so, [_uint] returns the value and [unpackUint] stores it, cut to
    the width of the field; both report four bytes. *)
Theorem unpackUint_le32 (v : Z) (rest : list byte) :
  u32 v ->
  _uint (le32 v ++ rest) = Some (v, 4)
  /\ forall (S : Type) (bits : Z) (set : Z -> S -> S) (s : S),
       unpackUint (le32 v ++ rest) (UintValue bits set) s
       = Some (set (v mod 2 ^ bits) s, 4, None).
Proof.
  intros Hv. pose proof Hv as Hu. unfold u32 in Hu. split.
  - unfold _uint. rewrite slice_le32.
    rewrite <- (app_nil_r (le32 v)).
    now rewrite LittleEndian_Uint32_le32.
  - intros S bits set s. unfold unpackUint. rewrite slice_le32.
    rewrite <- (app_nil_r (le32 v)).
    rewrite LittleEndian_Uint32_le32 by assumption.
    cbn [SetUint]. now rewrite uint64_small by lia.
Qed.

Lemma unpackUint_le32_witness :
  u32 0x12345678
  /\ le32 0x12345678 = [x78; x56; x34; x12]
  /\ _uint (le32 0x12345678 ++ [xff]) = Some (0x12345678, 4).
Proof.
  assert (H : u32 0x12345678) by (unfold u32; lia).
  split; [exact H|]. split; [reflexivity|].
  apply (unpackUint_le32 0x12345678 [xff] H).
Defined.

(** X7. The codec ["ushort"] decodes two bytes, least significant first:
    of a value below 2^16 laid out so it stores the value, cut to the
    width of the field, and reports two bytes. *)
Theorem unpackUshort_le16 (v : Z) (rest : list byte) :
  0 <= v < 2 ^ 16 ->
  forall (S : Type) (bits : Z) (set : Z -> S -> S) (s : S),
    unpackUshort (le16 v ++ rest) (UintValue bits set) s
    = Some (set (v mod 2 ^ bits) s, 2, None).
Proof.
  intros Hv S bits set s. unfold unpackUshort. rewrite slice_le16.
  rewrite <- (app_nil_r (le16 v)).
  rewrite LittleEndian_Uint16_le16 by assumption.
  cbn [SetUint]. now rewrite uint64_small by lia.
Qed.

Lemma unpackUshort_le16_witness :
  0 <= 0x1234 < 2 ^ 16
  /\ le16 0x1234 = [x34; x12]
  /\ unpackUshort (le16 0x1234 ++ [xff]) (UintValue 16 (fun v _ => v)) 0
     = Some (0x1234 mod 2 ^ 16, 2, None).
Proof.
  assert (H : 0 <= 0x1234 < 2 ^ 16) by lia.
  split; [exact H|]. split; [reflexivity|].
  apply (unpackUshort_le16 0x1234 [xff] H Z 16 (fun v _ => v) 0).
Defined.

(** X8. The fixed-width codecs check nothing themselves: on a slice of
    fewer bytes than they read (and no spare capacity), and on a field
    that is no unsigned integer, they panic instead of returning an
    error. *)
Theorem fixed_codecs_panic (S : Type) (data : list byte) (val : Value S)
        (s : S) :
  (len data < 4 -> unpackUint data val s = None /\ _uint data = None)
  /\ (len data < 2 -> unpackUshort data val s = None)
  /\ ((forall bits set, val <> UintValue bits set) ->
      unpackUint data val s = None /\ unpackUshort data val s = None).
Proof.
  split; [|split].
  - intros H. unfold unpackUint, _uint. now rewrite slice_short.
  - intros H. unfold unpackUshort. now rewrite slice_short.
  - intros H. unfold unpackUint, unpackUshort. split.
    + destruct (slice data 0 4) as [w|]; [|reflexivity].
      destruct (LittleEndian_Uint32 w); [|reflexivity].
      destruct val as [bits set| |]; [|reflexivity|reflexivity].
      now destruct (H bits set).
    + destruct (slice data 0 2) as [w|]; [|reflexivity].
      destruct (LittleEndian_Uint16 w); [|reflexivity].
      destruct val as [bits set| |]; [|reflexivity|reflexivity].
      now destruct (H bits set).
Qed.

Lemma fixed_codecs_panic_witness :
  (len [x01; x02; x03] < 4
   /\ unpackUint [x01; x02; x03] (UintValue 32 (fun v _ => v)) 0 = None)
  /\ (len [x01] < 2
      /\ unpackUshort [x01] (UintValue 16 (fun v _ => v)) 0 = None)
  /\ ((forall bits set, @OtherValue Z <> UintValue bits set)
      /\ unpackUint [x01; x02; x03; x04] OtherValue 0 = None).
Proof.
  assert (H1 : len [x01; x02; x03] < 4) by (cbn; lia).
  assert (H2 : len [x01] < 2) by (cbn; lia).
  assert (H3 : forall bits set, @OtherValue Z <> UintValue bits set)
    by discriminate.
  split; [split; [exact H1|]|split; [split; [exact H2|]|split; [exact H3|]]].
  - apply (proj1 (fixed_codecs_panic Z [x01; x02; x03]
                    (UintValue 32 (fun v _ => v)) 0) H1).
  - apply (proj1 (proj2 (fixed_codecs_panic Z [x01]
                           (UintValue 16 (fun v _ => v)) 0)) H2).
  - apply (proj2 (proj2 (fixed_codecs_panic Z [x01; x02; x03; x04]
                           OtherValue 0)) H3).
Defined.

(** X9. The codec ["byte"] copies as many bytes as the array is long and
    reports that many, panicking when the slice holds fewer (and has no
    spare capacity); on a field that is no array it reads nothing,
    whatever the input, and returns the error ["Invalid field"] with a
    count of 0 and the memory as it was. *)
Theorem unpackByteArray_cases (S : Type) (data : list byte) (s : S) :
  (forall (n : Z) (set : list byte -> S -> S),
      0 <= n <= len data ->
      unpackByteArray data (ArrayValue n set) s
      = Some (set (firstn (Z.to_nat n) data) s, n, None)
      /\ len (firstn (Z.to_nat n) data) = n)
  /\ (forall (n : Z) (set : list byte -> S -> S),
        len data < n -> unpackByteArray data (ArrayValue n set) s = None)
  /\ (forall (bits : Z) (set : Z -> S -> S),
        unpackByteArray data (UintValue bits set) s
        = Some (s, 0, Some (errors_New "Invalid field")))
  /\ unpackByteArray data OtherValue s
     = Some (s, 0, Some (errors_New "Invalid field")).
Proof.
  split; [|split; [|split]].
  - intros n set Hn. unfold unpackByteArray. rewrite slice_0 by assumption.
    split; [reflexivity|]. now apply len_firstn.
  - intros n set Hn. unfold unpackByteArray. now rewrite slice_short.
  - reflexivity.
  - reflexivity.
Qed.

Lemma unpackByteArray_cases_witness :
  (0 <= 2 <= len [x0a; x0b; x0c]
   /\ unpackByteArray [x0a; x0b; x0c] (ArrayValue 2 (fun v _ => v)) []
      = Some ([x0a; x0b], 2, None))
  /\ (len [x0a; x0b; x0c] < 8
      /\ unpackByteArray [x0a; x0b; x0c] (ArrayValue 8 (fun v _ => v)) []
         = None).
Proof.
  assert (H1 : 0 <= 2 <= len [x0a; x0b; x0c]) by (cbn; lia).
  assert (H2 : len [x0a; x0b; x0c] < 8) by (cbn; lia).
  split; split; try assumption.
  - apply (proj1 (unpackByteArray_cases (list byte) [x0a; x0b; x0c] [])
             2 (fun v _ => v) H1).
  - apply (proj1 (proj2 (unpackByteArray_cases (list byte) [x0a; x0b; x0c]
                           [])) 8 (fun v _ => v) H2).
Defined.

(** ** The structure of Unpack *)

Section UnpackStructure.

Context {S : Type}.
Variable packs : Packs S.
Variable b : list byte.

(** X10. [Unpack] is sequential: the fields [fields1 ++ fields2] are
    unpacked as [fields1] and then, from the offset and the memory they
    leave, [fields2]; an error of the first part ends the whole. *)
Theorem Unpack_for_app (fields1 fields2 : list (StructField S)) :
  forall (offset : Z) (s : S),
    Unpack_for packs b (fields1 ++ fields2) offset s
    = match Unpack_for packs b fields1 offset s with
      | Some (s', n, None) => Unpack_for packs b fields2 n s'
      | Some (s', n, Some e) => Some (s', n, Some e)
      | None => None
      end.
Proof.
  induction fields1 as [|f fields1 IH]; intros offset s;
    cbn [app Unpack_for]; [reflexivity|].
  destruct (String.eqb (Tag f) "-"); [apply IH|].
  destruct (packs (Tag f)) as [p|]; [|reflexivity].
  destruct (slice_from b offset) as [data|]; [|reflexivity].
  destruct (p data (Field_ f) s) as [[[s1 length] e]|]; [|reflexivity].
  apply IH.
Qed.

(** X11. A field tagged ["-"] is invisible to [Unpack]: leaving all such
    fields out of the struct changes neither the memory, nor the count,
    nor the error; and a struct with no other fields is unpacked to
    nothing, from any input, the empty one included. *)
Theorem Unpack_skips_dash (fields : list (StructField S)) :
  (forall (offset : Z) (s : S),
      Unpack_for packs b fields offset s
      = Unpack_for packs b (filter tagged fields) offset s)
  /\ (forall s : S,
        filter tagged fields = [] ->
        Unpack packs b fields s = Some (s, 0, None)).
Proof.
  assert (H : forall offset s,
             Unpack_for packs b fields offset s
             = Unpack_for packs b (filter tagged fields) offset s).
  { induction fields as [|f fields IH]; intros offset s; [reflexivity|].
    cbn [filter]. unfold tagged at 1.
    destruct (String.eqb (Tag f) "-") eqn:E; cbn [negb].
    - cbn [Unpack_for]. rewrite E. apply IH.
    - cbn [Unpack_for]. rewrite E.
      destruct (packs (Tag f)) as [p|]; [|reflexivity].
      destruct (slice_from b offset) as [data|]; [|reflexivity].
      destruct (p data (Field_ f) s) as [[[s1 length] e]|]; [|reflexivity].
      apply IH. }
  split; [exact H|].
  intros s E. unfold Unpack. rewrite H, E. reflexivity.
Qed.

End UnpackStructure.

Lemma Unpack_skips_dash_witness :
  filter tagged (reflect_EncodedValue (S := EncodedValue) self) = []
  /\ Unpack packs_init [] (reflect_EncodedValue self) zero_EncodedValue
     = Some (zero_EncodedValue, 0, None).
Proof.
  split; [reflexivity|].
  apply (proj2 (Unpack_skips_dash packs_init []
                  (reflect_EncodedValue self)) zero_EncodedValue).
  reflexivity.
Defined.

Lemma LittleEndian_Uint16_firstn (data : list byte) :
  2 <= len data ->
  LittleEndian_Uint16 (firstn 2 data) = LittleEndian_Uint16 data
  /\ exists v, LittleEndian_Uint16 data = Some v.
Proof.
  destruct data as [|b0 [|b1 w]]; cbn; try lia.
  intros _. split; [reflexivity|eauto].
Qed.

(** A field tagged ["ushort"], read where two bytes are left. *)
Lemma Unpack_for_ushort {S} (b : list byte) (f : StructField S)
      (fields : list (StructField S)) (set : Z -> S -> S) (offset : Z)
      (s : S) :
  Tag f = "ushort"%string -> Field_ f = UintValue 16 set ->
  0 <= offset -> offset + 2 <= len b -> len b < 2 ^ 63 ->
  Unpack_for packs_init b (f :: fields) offset s
  = Unpack_for packs_init b fields (offset + 2)
      (set (Uint16_at b offset) s).
Proof.
  intros Ht Hf H0 H4 Hb. cbn [Unpack_for]. rewrite Ht, Hf.
  change (String.eqb "ushort" "-") with false.
  change (packs_init "ushort"%string) with (Some (@unpackUshort S)).
  cbv iota. rewrite slice_from_skipn by lia.
  unfold unpackUshort. rewrite slice_0 by (rewrite len_skipn; lia).
  change (Z.to_nat 2) with 2%nat.
  destruct (LittleEndian_Uint16_firstn (skipn (Z.to_nat offset) b))
    as [E [v Hv]]; [rewrite len_skipn; lia|].
  rewrite E. unfold Uint16_at. rewrite Hv.
  pose proof (LittleEndian_Uint16_range _ _ Hv).
  cbn [SetUint]. rewrite uint64_small by lia.
  rewrite (Z.mod_small v) by lia.
  now rewrite (int_small 2), int_small by lia.
Qed.



(** ** The layout of the fixed-size records *)


Ltac fixed_field' :=
  first [ rewrite Unpack_for_skip by reflexivity
        | erewrite Unpack_for_uint by (try reflexivity; lia)
        | erewrite Unpack_for_ushort by (try reflexivity; lia)
        | erewrite Unpack_for_byte by (try reflexivity; lia) ].

Lemma Unpack_TypeId (data : list byte) (t : TypeId) :
  4 <= len data < 2 ^ 63 ->
  Unpack packs_init data (reflect_TypeId self) t
  = Some ({| TypeId_dex := TypeId_dex t;
             DescriptorIdx := Uint32_at data 0 |}, 4, None).
Proof.
  intros H. unfold Unpack, reflect_TypeId. repeat fixed_field'. reflexivity.
Qed.

Lemma Unpack_ProtoIdItem (data : list byte) (p : ProtoIdItem) :
  12 <= len data < 2 ^ 63 ->
  Unpack packs_init data (reflect_ProtoIdItem self) p
  = Some ({| ProtoIdItem_dex := ProtoIdItem_dex p;
             ShortyIdx := Uint32_at data 0;
             ReturnTypeIdx := Uint32_at data 4;
             ParametersOffset := Uint32_at data 8 |}, 12, None).
Proof.
  intros H. unfold Unpack, reflect_ProtoIdItem. repeat fixed_field'.
  reflexivity.
Qed.

Lemma Unpack_FieldIdItem (data : list byte) (f : FieldIdItem) :
  8 <= len data < 2 ^ 63 ->
  Unpack packs_init data (reflect_FieldIdItem self) f
  = Some ({| FieldIdItem_dex := FieldIdItem_dex f;
             FieldIdItem_ClassIdx := Uint16_at data 0;
             TypeIdx := Uint16_at data 2;
             FieldIdItem_NameIdx := Uint32_at data 4 |}, 8, None).
Proof.
  intros H. unfold Unpack, reflect_FieldIdItem. repeat fixed_field'.
  reflexivity.
Qed.

Lemma Unpack_MethodIdItem (data : list byte) (m : MethodIdItem) :
  8 <= len data < 2 ^ 63 ->
  Unpack packs_init data (reflect_MethodIdItem self) m
  = Some ({| MethodIdItem_dex := MethodIdItem_dex m;
             MethodIdItem_ClassIdx := Uint16_at data 0;
             ProtoIdx := Uint16_at data 2;
             MethodIdItem_NameIdx := Uint32_at data 4 |}, 8, None).
Proof.
  intros H. unfold Unpack, reflect_MethodIdItem. repeat fixed_field'.
  reflexivity.
Qed.

(** X12. The four id records have a fixed layout. [Unpack] fills a
    [TypeId] from 4 bytes, a [ProtoIdItem] from 12, a [FieldIdItem] and a
    [MethodIdItem] from 8, each field read little-endian at its own
    position (32 bits for "uint", 16 bits for "ushort"); it reports that
    many bytes and a nil error, looks at nothing behind them and leaves the
    [dex] back pointer as it was. *)
Theorem id_items_layout (data : list byte) :
  len data < 2 ^ 63 ->
  (4 <= len data ->
   forall t : TypeId,
     Unpack packs_init data (reflect_TypeId self) t
     = Some ({| TypeId_dex := TypeId_dex t;
                DescriptorIdx := Uint32_at data 0 |}, 4, None))
  /\ (12 <= len data ->
      forall p : ProtoIdItem,
        Unpack packs_init data (reflect_ProtoIdItem self) p
        = Some ({| ProtoIdItem_dex := ProtoIdItem_dex p;
                   ShortyIdx := Uint32_at data 0;
                   ReturnTypeIdx := Uint32_at data 4;
                   ParametersOffset := Uint32_at data 8 |}, 12, None))
  /\ (8 <= len data ->
      forall f : FieldIdItem,
        Unpack packs_init data (reflect_FieldIdItem self) f
        = Some ({| FieldIdItem_dex := FieldIdItem_dex f;
                   FieldIdItem_ClassIdx := Uint16_at data 0;
                   TypeIdx := Uint16_at data 2;
                   FieldIdItem_NameIdx := Uint32_at data 4 |}, 8, None))
  /\ (8 <= len data ->
      forall m : MethodIdItem,
        Unpack packs_init data (reflect_MethodIdItem self) m
        = Some ({| MethodIdItem_dex := MethodIdItem_dex m;
                   MethodIdItem_ClassIdx := Uint16_at data 0;
                   ProtoIdx := Uint16_at data 2;
                   MethodIdItem_NameIdx := Uint32_at data 4 |}, 8, None)).
Proof.
  intros Hb. split; [|split; [|split]]; intros H x.
  - apply Unpack_TypeId; lia.
  - apply Unpack_ProtoIdItem; lia.
  - apply Unpack_FieldIdItem; lia.
  - apply Unpack_MethodIdItem; lia.
Qed.

Lemma id_items_layout_witness :
  len (le16 3 ++ le16 7 ++ le32 0x12345 ++ [xff]) < 2 ^ 63
  /\ 8 <= len (le16 3 ++ le16 7 ++ le32 0x12345 ++ [xff])
  /\ Unpack packs_init (le16 3 ++ le16 7 ++ le32 0x12345 ++ [xff])
       (reflect_FieldIdItem self) zero_FieldIdItem
     = Some ({| FieldIdItem_dex := nil_DEX;
                FieldIdItem_ClassIdx := 3; TypeIdx := 7;
                FieldIdItem_NameIdx := 0x12345 |}, 8, None).
Proof.
  split; [cbn; lia|]. split; [cbn; lia|].
  exact (proj1 (proj2 (proj2
           (id_items_layout (le16 3 ++ le16 7 ++ le32 0x12345 ++ [xff])
              ltac:(cbn; lia))))
           ltac:(cbn; lia) zero_FieldIdItem).
Defined.




(** ** The table readers *)

Lemma Uint32_at_skipn (b : list byte) (s o : Z) :
  0 <= s -> 0 <= o ->
  Uint32_at (skipn (Z.to_nat s) b) o = Uint32_at b (s + o).
Proof.
  intros Hs Ho. unfold Uint32_at. rewrite skipn_skipn.
  now rewrite Z2Nat.inj_add, Nat.add_comm by lia.
Qed.

Lemma Uint16_at_skipn (b : list byte) (s o : Z) :
  0 <= s -> 0 <= o ->
  Uint16_at (skipn (Z.to_nat s) b) o = Uint16_at b (s + o).
Proof.
  intros Hs Ho. unfold Uint16_at. rewrite skipn_skipn.
  now rewrite Z2Nat.inj_add, Nat.add_comm by lia.
Qed.

Lemma make_succ {A} (zero : A) (n : nat) :
  make zero (Z.of_nat (Datatypes.S n)) = zero :: make zero (Z.of_nat n).
Proof. unfold make. now rewrite !Nat2Z.id. Qed.

Lemma map_seq_shift {A} (f : Z -> A) (i : Z) (n : nat) :
  map (fun k => f (i + Z.of_nat k)) (seq 1 n)
  = map (fun k => f (i + 1 + Z.of_nat k)) (seq 0 n).
Proof.
  rewrite <- seq_shift, map_map. apply map_ext. intros k. f_equal. lia.
Qed.

Lemma table_from {A} (f : Z -> A) (done : list A) (i : Z) (n : nat) :
  done ++ map (fun k => f (i + Z.of_nat k)) (seq 0 (Datatypes.S n))
  = (done ++ [f i]) ++ map (fun k => f (i + 1 + Z.of_nat k)) (seq 0 n).
Proof.
  cbn [seq map]. rewrite map_seq_shift, <- app_assoc. cbn [app].
  now rewrite Z.add_0_r.
Qed.

Lemma readTypes_for_table (n : nat) :
  forall (i : Z) (d : DEX) (done todo : list TypeId),
    Types d = done ++ todo -> len done = i -> List.length todo = n ->
    0 <= TypeIdsOffset (header d) ->
    TypeIdsOffset (header d) + 4 * (i + Z.of_nat n) <= len (DEX_b d) ->
    len (DEX_b d) < 2 ^ 32 ->
    readTypes_for n i d
    = Some (set_Types
              (done ++ map (fun k =>
                              TypeId_at (DEX_b d)
                                (TypeIdsOffset (header d)
                                 + 4 * (i + Z.of_nat k))) (seq 0 n)) d,
            None).
Proof.
  induction n as [|n IH]; intros i d done todo HT Hi Hn Ho Hlen Hb.
  - destruct todo; [|discriminate]. cbn [readTypes_for seq map].
    rewrite app_nil_r in *. rewrite <- HT. now destruct d.
  - destruct todo as [|t todo]; [discriminate|].
    pose proof (len_nonneg done) as Hd.
    cbn [readTypes_for]. rewrite uint32_add_r.
    rewrite uint32_small by lia.
    rewrite slice_from_skipn by lia.
    rewrite Unpack_TypeId by (rewrite len_skipn; lia).
    rewrite Uint32_at_skipn, Z.add_0_r by lia.
    rewrite HT, <- Hi, store_index_app.
    rewrite (IH (len done + 1) _ (done ++ [TypeId_at (DEX_b d)
                   (TypeIdsOffset (header d) + 4 * len done)]) todo);
      cbn [Types set_Types header DEX_b];
      [ | now rewrite <- app_assoc | rewrite len_app; cbn; lia
        | now injection Hn | lia | lia | lia ].
    f_equal. f_equal.
    rewrite (table_from (fun z => TypeId_at (DEX_b d)
                                    (TypeIdsOffset (header d) + 4 * z))).
    reflexivity.
Qed.

Lemma readPrototypes_for_table (n : nat) :
  forall (i : Z) (d : DEX) (done todo : list ProtoIdItem),
    Prototypes d = done ++ todo -> len done = i -> List.length todo = n ->
    0 <= ProtosOffset (header d) ->
    ProtosOffset (header d) + 12 * (i + Z.of_nat n) <= len (DEX_b d) ->
    len (DEX_b d) < 2 ^ 32 ->
    readPrototypes_for n i d
    = Some (set_Prototypes
              (done ++ map (fun k =>
                              ProtoIdItem_at (DEX_b d)
                                (ProtosOffset (header d)
                                 + 12 * (i + Z.of_nat k))) (seq 0 n)) d,
            None).
Proof.
  induction n as [|n IH]; intros i d done todo HT Hi Hn Ho Hlen Hb.
  - destruct todo; [|discriminate]. cbn [readPrototypes_for seq map].
    rewrite app_nil_r in *. rewrite <- HT. now destruct d.
  - destruct todo as [|t todo]; [discriminate|].
    pose proof (len_nonneg done) as Hd.
    cbn [readPrototypes_for]. rewrite uint32_add_r, uint32_add_l.
    rewrite uint32_small by lia.
    rewrite slice_from_skipn by lia.
    rewrite Unpack_ProtoIdItem by (rewrite len_skipn; lia).
    rewrite !Uint32_at_skipn, Z.add_0_r by lia.
    rewrite HT, <- Hi, store_index_app.
    rewrite (IH (len done + 1) _ (done ++ [ProtoIdItem_at (DEX_b d)
                   (ProtosOffset (header d) + 12 * len done)]) todo);
      cbn [Prototypes set_Prototypes header DEX_b];
      [ | now rewrite <- app_assoc | rewrite len_app; cbn; lia
        | now injection Hn | lia | lia | lia ].
    f_equal. f_equal.
    rewrite (table_from (fun z => ProtoIdItem_at (DEX_b d)
                                    (ProtosOffset (header d) + 12 * z))).
    reflexivity.
Qed.

Lemma readFields_for_table (n : nat) :
  forall (i : Z) (d : DEX) (done todo : list FieldIdItem),
    Fields d = done ++ todo -> len done = i -> List.length todo = n ->
    0 <= FieldsOffset (header d) ->
    FieldsOffset (header d) + 8 * (i + Z.of_nat n) <= len (DEX_b d) ->
    len (DEX_b d) < 2 ^ 32 ->
    readFields_for n i d
    = Some (set_Fields
              (done ++ map (fun k =>
                              FieldIdItem_at (DEX_b d)
                                (FieldsOffset (header d)
                                 + 8 * (i + Z.of_nat k))) (seq 0 n)) d,
            None).
Proof.
  induction n as [|n IH]; intros i d done todo HT Hi Hn Ho Hlen Hb.
  - destruct todo; [|discriminate]. cbn [readFields_for seq map].
    rewrite app_nil_r in *. rewrite <- HT. now destruct d.
  - destruct todo as [|t todo]; [discriminate|].
    pose proof (len_nonneg done) as Hd.
    cbn [readFields_for]. rewrite uint32_add_r, uint32_add_l.
    rewrite uint32_small by lia.
    rewrite slice_from_skipn by lia.
    rewrite Unpack_FieldIdItem by (rewrite len_skipn; lia).
    rewrite !Uint32_at_skipn, !Uint16_at_skipn, Z.add_0_r by lia.
    rewrite HT, <- Hi, store_index_app.
    rewrite (IH (len done + 1) _ (done ++ [FieldIdItem_at (DEX_b d)
                   (FieldsOffset (header d) + 8 * len done)]) todo);
      cbn [Fields set_Fields header DEX_b];
      [ | now rewrite <- app_assoc | rewrite len_app; cbn; lia
        | now injection Hn | lia | lia | lia ].
    f_equal. f_equal.
    rewrite (table_from (fun z => FieldIdItem_at (DEX_b d)
                                    (FieldsOffset (header d) + 8 * z))).
    reflexivity.
Qed.

Lemma readMethods_for_table (n : nat) :
  forall (i : Z) (d : DEX) (done todo : list MethodIdItem),
    Methods d = done ++ todo -> len done = i -> List.length todo = n ->
    0 <= MethodIdsOffset (header d) ->
    MethodIdsOffset (header d) + 8 * (i + Z.of_nat n) <= len (DEX_b d) ->
    len (DEX_b d) < 2 ^ 32 ->
    readMethods_for n i d
    = Some (set_Methods
              (done ++ map (fun k =>
                              MethodIdItem_at (DEX_b d)
                                (MethodIdsOffset (header d)
                                 + 8 * (i + Z.of_nat k))) (seq 0 n)) d,
            None).
Proof.
  induction n as [|n IH]; intros i d done todo HT Hi Hn Ho Hlen Hb.
  - destruct todo; [|discriminate]. cbn [readMethods_for seq map].
    rewrite app_nil_r in *. rewrite <- HT. now destruct d.
  - destruct todo as [|t todo]; [discriminate|].
    pose proof (len_nonneg done) as Hd.
    cbn [readMethods_for]. rewrite uint32_add_r, uint32_add_l.
    rewrite uint32_small by lia.
    rewrite slice_from_skipn by lia.
    rewrite Unpack_MethodIdItem by (rewrite len_skipn; lia).
    rewrite !Uint32_at_skipn, !Uint16_at_skipn, Z.add_0_r by lia.
    rewrite HT, <- Hi, store_index_app.
    rewrite (IH (len done + 1) _ (done ++ [MethodIdItem_at (DEX_b d)
                   (MethodIdsOffset (header d) + 8 * len done)]) todo);
      cbn [Methods set_Methods header DEX_b];
      [ | now rewrite <- app_assoc | rewrite len_app; cbn; lia
        | now injection Hn | lia | lia | lia ].
    f_equal. f_equal.
    rewrite (table_from (fun z => MethodIdItem_at (DEX_b d)
                                    (MethodIdsOffset (header d) + 8 * z))).
    reflexivity.
Qed.

Lemma length_make {A} (zero : A) (n : Z) :
  List.length (make zero n) = Z.to_nat n.
Proof. apply repeat_length. Qed.

Lemma readTypes_table (d : DEX) :
  0 <= TypeIdsOffset (header d) -> 0 <= TypeIdsSize (header d) ->
  TypeIdsOffset (header d) + 4 * TypeIdsSize (header d) <= len (DEX_b d) ->
  len (DEX_b d) < 2 ^ 32 ->
  readTypes d
  = Some (set_Types (table (TypeId_at (DEX_b d)) (TypeIdsOffset (header d)) 4
                       (TypeIdsSize (header d))) d, None).
Proof.
  intros Ho Hn Hlen Hb. unfold readTypes, table.
  rewrite (readTypes_for_table _ 0 _ [] (make zero_TypeId (TypeIdsSize (header d))));
    cbn [Types set_Types header DEX_b app];
    [reflexivity | reflexivity | reflexivity | apply length_make
     | lia | lia | lia].
Qed.

Lemma readPrototypes_table (d : DEX) :
  0 <= ProtosOffset (header d) -> 0 <= ProtosSize (header d) ->
  ProtosOffset (header d) + 12 * ProtosSize (header d) <= len (DEX_b d) ->
  len (DEX_b d) < 2 ^ 32 ->
  readPrototypes d
  = Some (set_Prototypes
            (table (ProtoIdItem_at (DEX_b d)) (ProtosOffset (header d)) 12
               (ProtosSize (header d))) d, None).
Proof.
  intros Ho Hn Hlen Hb. unfold readPrototypes, table.
  rewrite (readPrototypes_for_table _ 0 _ []
             (make zero_ProtoIdItem (ProtosSize (header d))));
    cbn [Prototypes set_Prototypes header DEX_b app];
    [reflexivity | reflexivity | reflexivity | apply length_make
     | lia | lia | lia].
Qed.

Lemma readFields_table (d : DEX) :
  0 <= FieldsOffset (header d) -> 0 <= FieldsSize (header d) ->
  FieldsOffset (header d) + 8 * FieldsSize (header d) <= len (DEX_b d) ->
  len (DEX_b d) < 2 ^ 32 ->
  readFields d
  = Some (set_Fields
            (table (FieldIdItem_at (DEX_b d)) (FieldsOffset (header d)) 8
               (FieldsSize (header d))) d, None).
Proof.
  intros Ho Hn Hlen Hb. unfold readFields, table.
  rewrite (readFields_for_table _ 0 _ []
             (make zero_FieldIdItem (FieldsSize (header d))));
    cbn [Fields set_Fields header DEX_b app];
    [reflexivity | reflexivity | reflexivity | apply length_make
     | lia | lia | lia].
Qed.

Lemma readMethods_table (d : DEX) :
  0 <= MethodIdsOffset (header d) -> 0 <= MethodIdsSize (header d) ->
  MethodIdsOffset (header d) + 8 * MethodIdsSize (header d)
  <= len (DEX_b d) ->
  len (DEX_b d) < 2 ^ 32 ->
  readMethods d
  = Some (set_Methods
            (table (MethodIdItem_at (DEX_b d)) (MethodIdsOffset (header d)) 8
               (MethodIdsSize (header d))) d, None).
Proof.
  intros Ho Hn Hlen Hb. unfold readMethods, table.
  rewrite (readMethods_for_table _ 0 _ []
             (make zero_MethodIdItem (MethodIdsSize (header d))));
    cbn [Methods set_Methods header DEX_b app];
    [reflexivity | reflexivity | reflexivity | apply length_make
     | lia | lia | lia].
Qed.

Lemma slice_in {A} (b : list A) (lo hi : Z) :
  0 <= lo <= hi -> hi <= len b ->
  slice b lo hi = Some (firstn (Z.to_nat (hi - lo)) (skipn (Z.to_nat lo) b)).
Proof.
  intros H1 H2. unfold slice.
  replace (0 <=? lo) with true by (symmetry; apply Z.leb_le; lia).
  replace (lo <=? hi) with true by (symmetry; apply Z.leb_le; lia).
  now replace (hi <=? len b) with true by (symmetry; apply Z.leb_le; lia).
Qed.

Lemma LittleEndian_Uint32_at (b : list byte) (offset : Z) :
  0 <= offset -> offset + 4 <= len b ->
  LittleEndian_Uint32 (firstn 4 (skipn (Z.to_nat offset) b))
  = Some (Uint32_at b offset).
Proof.
  intros H0 H4.
  destruct (LittleEndian_Uint32_firstn (skipn (Z.to_nat offset) b))
    as [E [v Hv]]; [rewrite len_skipn; lia|].
  rewrite E. unfold Uint32_at. now rewrite Hv.
Qed.

Lemma readStrings_for_table (n : nat) :
  forall (i : nat) (d : DEX) (done todo : list string) (l : list string),
    Strings d = done ++ todo -> List.length done = i ->
    List.length todo = n ->
    0 <= StringIdsOffset (header d) ->
    StringIdsOffset (header d) + 4 * (Z.of_nat i + Z.of_nat n)
    <= len (DEX_b d) ->
    Forall2 (fun k s =>
               String_at (DEX_b d)
                 (Uint32_at (DEX_b d)
                    (StringIdsOffset (header d) + 4 * Z.of_nat k)) = Some s)
            (seq i n) l ->
    readStrings_for n (Z.of_nat i)
      (skipn (Z.to_nat (StringIdsOffset (header d))) (DEX_b d)) d
    = Some (set_Strings (done ++ l) d).
Proof.
  induction n as [|n IH]; intros i d done todo l HT Hi Hn Ho Hlen HF.
  - destruct todo; [|discriminate]. inversion HF; subst.
    cbn [readStrings_for]. rewrite app_nil_r in *. rewrite <- HT.
    now destruct d.
  - destruct todo as [|t todo]; [discriminate|].
    cbn [seq] in HF. inversion HF as [|k s ks l' Hs HF' E1 E2]; subst.
    cbn [readStrings_for].
    rewrite slice_in by (try rewrite len_skipn; lia).
    replace (Z.of_nat (List.length done) * 4 + 4
             - Z.of_nat (List.length done) * 4) with 4 by lia.
    change (Z.to_nat 4) with 4%nat.
    rewrite LittleEndian_Uint32_at by (try rewrite len_skipn; lia).
    rewrite Uint32_at_skipn by lia.
    replace (StringIdsOffset (header d) + Z.of_nat (List.length done) * 4)
      with (StringIdsOffset (header d) + 4 * Z.of_nat (List.length done))
      by lia.
    unfold String_at in Hs.
    destruct (slice_from (DEX_b d) _) as [sd|]; [|discriminate].
    cbv beta iota in Hs |- *.
    destruct (str sd) as [[s' c]|]; [|discriminate].
    assert (s' = s) by congruence. subst s'.
    rewrite HT. fold (len done). rewrite store_index_app.
    replace (len done + 1) with (Z.of_nat (Datatypes.S (List.length done)))
      by (unfold len; lia).
    pose proof (IH (Datatypes.S (List.length done))
                  (set_Strings (done ++ s :: todo) d) (done ++ [s]) todo l')
      as IH'.
    cbn [Strings set_Strings header DEX_b] in IH'.
    rewrite IH';
      [ now rewrite <- app_assoc | now rewrite <- app_assoc
      | rewrite length_app; cbn; lia | now injection Hn | lia | lia
      | exact HF' ].
Qed.

Lemma readStrings_table (d : DEX) (l : list string) :
  0 <= StringIdsOffset (header d) -> 0 <= StringIdsSize (header d) ->
  StringIdsOffset (header d) + 4 * StringIdsSize (header d)
  <= len (DEX_b d) ->
  Forall2 (fun k s =>
             String_at (DEX_b d)
               (Uint32_at (DEX_b d)
                  (StringIdsOffset (header d) + 4 * Z.of_nat k)) = Some s)
          (seq 0 (Z.to_nat (StringIdsSize (header d)))) l ->
  readStrings d = Some (set_Strings l d, None).
Proof.
  intros Ho Hn Hlen HF. unfold readStrings.
  cbn [DEX_b set_Strings header].
  rewrite slice_from_skipn by lia.
  pose proof (readStrings_for_table (Z.to_nat (StringIdsSize (header d))) 0
                (set_Strings (make EmptyString (StringIdsSize (header d))) d)
                [] (make EmptyString (StringIdsSize (header d))) l) as R.
  cbn [Strings set_Strings header DEX_b app Z.of_nat] in R.
  rewrite R;
    [reflexivity | reflexivity | reflexivity | apply length_make
     | lia | lia | exact HF].
Qed.

(** ** Class defs *)

Lemma Uint32_at_range (b : list byte) (offset : Z) :
  0 <= Uint32_at b offset < 2 ^ 32.
Proof.
  unfold Uint32_at.
  destruct (LittleEndian_Uint32 _) as [v|] eqn:E; [|lia].
  exact (LittleEndian_Uint32_range _ _ E).
Qed.

Lemma unpackUint_at {S} (data : list byte) (bits : Z) (set : Z -> S -> S)
      (s : S) :
  4 <= len data -> 32 <= bits ->
  unpackUint data (UintValue bits set) s
  = Some (set (Uint32_at data 0) s, 4, None).
Proof.
  intros H Hb. unfold unpackUint. rewrite slice_0 by lia.
  change (Z.to_nat 4) with 4%nat.
  change (firstn 4 data) with (firstn 4 (skipn (Z.to_nat 0) data)).
  rewrite LittleEndian_Uint32_at by lia.
  pose proof (Uint32_at_range data 0) as R.
  cbn [SetUint]. rewrite uint64_small by lia.
  rewrite Z.mod_small; [reflexivity|].
  split; [lia|]. apply Z.lt_le_trans with (2 ^ 32); [lia|].
  apply Z.pow_le_mono_r; lia.
Qed.

(** One field of [Unpack], read by the codec [p] at [offset]. *)
Lemma Unpack_for_codec {S} (packs : Packs S) (p : PackFunc S)
      (b : list byte) (f : StructField S) (fields : list (StructField S))
      (offset n : Z) (s s1 : S) (e : option error) :
  String.eqb (Tag f) "-" = false ->
  packs (Tag f) = Some p ->
  0 <= offset <= len b ->
  p (skipn (Z.to_nat offset) b) (Field_ f) s = Some (s1, n, e) ->
  0 <= n -> offset + n < 2 ^ 63 ->
  Unpack_for packs b (f :: fields) offset s
  = Unpack_for packs b fields (offset + n) s1.
Proof.
  intros Ht Hp Ho Hr Hn Hs. cbn [Unpack_for]. rewrite Ht, Hp.
  rewrite slice_from_skipn by lia. rewrite Hr.
  now rewrite (int_small n), int_small by lia.
Qed.

Lemma classdata_none (dex : DEX) (data : list byte) (val : Value Frame)
      (fr : Frame) :
  4 <= len data -> Uint32_at data 0 = 0 ->
  classdata dex data val fr = Some (set_offset_var 0 fr, 4, None).
Proof.
  intros H E. unfold classdata, call.
  change (packs_lists dex "uint"%string) with (Some (@unpackUint Frame)).
  cbv beta iota. rewrite unpackUint_at by lia.
  cbn [offset_var set_offset_var]. rewrite E. reflexivity.
Qed.

Lemma staticvalues_none (dex : DEX) (data : list byte) (val : Value Frame)
      (fr : Frame) :
  4 <= len data -> Uint32_at data 0 = 0 ->
  staticvalues dex data val fr = Some (set_offset_var 0 fr, 4, None).
Proof.
  intros H E. unfold staticvalues, call.
  change (packs_lists dex "uint"%string) with (Some (@unpackUint Frame)).
  cbv beta iota. rewrite unpackUint_at by lia.
  cbn [offset_var set_offset_var]. rewrite E. reflexivity.
Qed.

Ltac class_uint :=
  erewrite Unpack_for_codec;
  [ | reflexivity | reflexivity | lia
    | cbn [Field_]; apply unpackUint_at; [rewrite len_skipn; lia | lia]
    | lia | lia ].

Lemma Unpack_ClassDefItem_plain (dex : DEX) (b : list byte) (offset : Z) :
  0 <= offset -> offset + 32 <= len b -> len b < 2 ^ 63 ->
  class_data_off b offset = 0 -> static_values_off b offset = 0 ->
  Unpack (packs_class dex) (skipn (Z.to_nat offset) b)
    (reflect_ClassDefItem class_def_item_ptr) new_Frame
  = Some (set_class_def_item (ClassDefItem_at b offset) new_Frame, 32, None).
Proof.
  intros H0 H32 Hb Hc Hs. unfold Unpack, reflect_ClassDefItem.
  pose proof (len_skipn b offset ltac:(lia)) as L.
  rewrite Unpack_for_skip by reflexivity.
  do 6 class_uint.
  erewrite Unpack_for_codec;
    [ | reflexivity | reflexivity | lia
      | apply classdata_none;
        [ rewrite len_skipn; lia
        | rewrite !Uint32_at_skipn by lia; exact Hc ]
      | lia | lia ].
  erewrite Unpack_for_codec;
    [ | reflexivity | reflexivity | lia
      | apply staticvalues_none;
        [ rewrite len_skipn; lia
        | rewrite !Uint32_at_skipn by lia; exact Hs ]
      | lia | lia ].
  cbn [Unpack_for]. rewrite !Uint32_at_skipn by lia.
  replace (offset + (0 + 0)) with offset by lia.
  replace (offset + (0 + 4 + 0)) with (offset + 4) by lia.
  replace (offset + (0 + 4 + 4 + 0)) with (offset + 8) by lia.
  replace (offset + (0 + 4 + 4 + 4 + 0)) with (offset + 12) by lia.
  replace (offset + (0 + 4 + 4 + 4 + 4 + 0)) with (offset + 16) by lia.
  replace (offset + (0 + 4 + 4 + 4 + 4 + 4)) with (offset + 20) by lia.
  reflexivity.
Qed.

Lemma Parse_for_plain (n : nat) :
  forall (i : Z) (d : DEX) (done todo : list ClassDefItem),
    Classes d = done ++ todo -> len done = i -> List.length todo = n ->
    0 <= ClassDefsOffset (header d) ->
    ClassDefsOffset (header d) + 32 * (i + Z.of_nat n) <= len (DEX_b d) ->
    len (DEX_b d) < 2 ^ 32 ->
    (forall k : Z,
        i <= k < i + Z.of_nat n ->
        class_data_off (DEX_b d) (ClassDefsOffset (header d) + 32 * k) = 0
        /\ static_values_off (DEX_b d)
             (ClassDefsOffset (header d) + 32 * k) = 0) ->
    Parse_for n i d
    = Some (set_Classes
              (done ++ map (fun k =>
                              ClassDefItem_at (DEX_b d)
                                (ClassDefsOffset (header d)
                                 + 32 * (i + Z.of_nat k))) (seq 0 n)) d).
Proof.
  induction n as [|n IH]; intros i d done todo HT Hi Hn Ho Hlen Hb Hp.
  - destruct todo; [|discriminate]. cbn [Parse_for seq map].
    rewrite app_nil_r in *. rewrite <- HT. now destruct d.
  - destruct todo as [|t todo]; [discriminate|].
    pose proof (len_nonneg done) as Hd.
    cbn [Parse_for]. rewrite uint32_add_r, uint32_add_l.
    rewrite uint32_small by lia.
    rewrite slice_from_skipn by lia.
    destruct (Hp i ltac:(lia)) as [Hc Hs].
    rewrite Unpack_ClassDefItem_plain by (assumption || lia).
    cbn [class_def_item set_class_def_item].
    rewrite HT, <- Hi, store_index_app.
    pose proof (IH (len done + 1)
                  (set_Classes
                     (done ++ ClassDefItem_at (DEX_b d)
                        (ClassDefsOffset (header d) + 32 * len done) :: todo)
                     d)
                  (done ++ [ClassDefItem_at (DEX_b d)
                              (ClassDefsOffset (header d) + 32 * len done)])
                  todo) as IH'.
    cbn [Classes set_Classes header DEX_b] in IH'.
    rewrite IH';
      [ | now rewrite <- app_assoc | rewrite len_app; cbn; lia
        | now injection Hn | lia | lia | lia
        | intros k Hk; apply Hp; lia ].
    f_equal.
    rewrite (table_from (fun z => ClassDefItem_at (DEX_b d)
                                    (ClassDefsOffset (header d) + 32 * z))).
    reflexivity.
Qed.

Lemma Parse_parsed (b : list byte) (l : list string) :
  0x70 <= len b < 2 ^ 32 ->
  tables_fit b -> strings_of b l -> plain_classes b ->
  Parse (new_DEX b) = Some (parsed b l, None).
Proof.
  intros Hlen (F1 & F2 & F3 & F4 & F5 & F6) HS HP.
  unfold Parse.
  rewrite readHeader_Header_at by (cbn [DEX_b new_DEX]; lia).
  change (DEX_b (new_DEX b)) with b.
  set (h := Header_at b) in *.
  assert (R : forall o, 0 <= Uint32_at b o) by (intros o; apply Uint32_at_range).
  rewrite (readStrings_table _ l);
    cbn [header set_header DEX_b new_DEX];
    [ | apply R | apply R | exact F1 | exact HS ].
  rewrite readTypes_table;
    cbn [header set_header set_Strings DEX_b new_DEX];
    [ | apply R | apply R | exact F2 | lia ].
  rewrite readPrototypes_table;
    cbn [header set_header set_Strings set_Types DEX_b new_DEX];
    [ | apply R | apply R | exact F3 | lia ].
  rewrite readFields_table;
    cbn [header set_header set_Strings set_Types set_Prototypes DEX_b
           new_DEX];
    [ | apply R | apply R | exact F4 | lia ].
  rewrite readMethods_table;
    cbn [header set_header set_Strings set_Types set_Prototypes set_Fields
           DEX_b new_DEX];
    [ | apply R | apply R | exact F5 | lia ].
  cbn [header set_header set_Strings set_Types set_Prototypes set_Fields
         set_Methods set_Classes Classes DEX_b new_DEX].
  match goal with
  | |- context [Parse_for ?n 0 ?d] =>
      pose proof (Parse_for_plain n 0 d []
                    (make zero_ClassDefItem (ClassDefsSize h))) as PF
  end.
  cbn [header set_header set_Strings set_Types set_Prototypes set_Fields
         set_Methods set_Classes Classes DEX_b new_DEX app] in PF.
  cbn [header set_header set_Strings set_Types set_Prototypes set_Fields
         set_Methods set_Classes Classes DEX_b new_DEX] in PF |- *.
  rewrite PF;
    [ reflexivity | reflexivity | reflexivity | apply length_make
    | apply R | rewrite Z2Nat.id by apply R; exact F6 | lia
    | intros k Hk; apply HP; rewrite Z2Nat.id in Hk by apply R; fold h;
      lia ].
Qed.

(** X14. The table readers. Each one makes a table of as many entries as
    the header says and fills entry [k] from the bytes at the table's
    offset plus [k] strides: 4 bytes for a type id, 12 for a proto id, 8
    for a field id and for a method id, every entry with its back pointer
    set; [readStrings] takes string [k] from the data item that the [k]-th
    string id, 4 bytes wide, points to. No other part of the object is
    touched and the error is nil. Stated for a table that lies within an
    image of less than 2^32 bytes. *)
Theorem table_readers (d : DEX) :
  len (DEX_b d) < 2 ^ 32 ->
  (forall l : list string,
      0 <= StringIdsOffset (header d) -> 0 <= StringIdsSize (header d) ->
      StringIdsOffset (header d) + 4 * StringIdsSize (header d)
      <= len (DEX_b d) ->
      Forall2 (fun k s =>
                 String_at (DEX_b d)
                   (Uint32_at (DEX_b d)
                      (StringIdsOffset (header d) + 4 * Z.of_nat k))
                 = Some s)
              (seq 0 (Z.to_nat (StringIdsSize (header d)))) l ->
      readStrings d = Some (set_Strings l d, None))
  /\ (0 <= TypeIdsOffset (header d) -> 0 <= TypeIdsSize (header d) ->
      TypeIdsOffset (header d) + 4 * TypeIdsSize (header d)
      <= len (DEX_b d) ->
      readTypes d
      = Some (set_Types
                (table (TypeId_at (DEX_b d)) (TypeIdsOffset (header d)) 4
                   (TypeIdsSize (header d))) d, None))
  /\ (0 <= ProtosOffset (header d) -> 0 <= ProtosSize (header d) ->
      ProtosOffset (header d) + 12 * ProtosSize (header d)
      <= len (DEX_b d) ->
      readPrototypes d
      = Some (set_Prototypes
                (table (ProtoIdItem_at (DEX_b d)) (ProtosOffset (header d))
                   12 (ProtosSize (header d))) d, None))
  /\ (0 <= FieldsOffset (header d) -> 0 <= FieldsSize (header d) ->
      FieldsOffset (header d) + 8 * FieldsSize (header d)
      <= len (DEX_b d) ->
      readFields d
      = Some (set_Fields
                (table (FieldIdItem_at (DEX_b d)) (FieldsOffset (header d))
                   8 (FieldsSize (header d))) d, None))
  /\ (0 <= MethodIdsOffset (header d) -> 0 <= MethodIdsSize (header d) ->
      MethodIdsOffset (header d) + 8 * MethodIdsSize (header d)
      <= len (DEX_b d) ->
      readMethods d
      = Some (set_Methods
                (table (MethodIdItem_at (DEX_b d))
                   (MethodIdsOffset (header d)) 8
                   (MethodIdsSize (header d))) d, None)).
Proof.
  intros Hb. split; [|split; [|split; [|split]]].
  - intros l Ho Hn Hlen HF. now apply readStrings_table.
  - intros Ho Hn Hlen. now apply readTypes_table.
  - intros Ho Hn Hlen. now apply readPrototypes_table.
  - intros Ho Hn Hlen. now apply readFields_table.
  - intros Ho Hn Hlen. now apply readMethods_table.
Qed.

Lemma table_readers_witness :
  len (DEX_b (set_header (Header_at small_image) (new_DEX small_image)))
  < 2 ^ 32
  /\ readFields (set_header (Header_at small_image) (new_DEX small_image))
     = Some (set_Fields
               [{| FieldIdItem_dex := this_DEX; FieldIdItem_ClassIdx := 0;
                   TypeIdx := 0; FieldIdItem_NameIdx := 1 |}]
               (set_header (Header_at small_image) (new_DEX small_image)),
             None).
Proof.
  assert (H : len (DEX_b (set_header (Header_at small_image)
                            (new_DEX small_image))) < 2 ^ 32)
    by (vm_compute; reflexivity).
  split; [exact H|].
  apply (proj1 (proj2 (proj2 (proj2
           (table_readers
              (set_header (Header_at small_image) (new_DEX small_image))
              H)))));
    vm_compute; discriminate.
Defined.

(** X15. [Parse] end to end. For an image of 0x70 to 2^32 bytes whose
    tables lie within it, whose string ids point to string data that
    decodes, and whose class defs have neither class data nor static
    values, [Parse] returns nil and leaves an object that holds the image
    unchanged, the header as it is laid out in the first 0x70 bytes, and
    one entry per header count in every table, each decoded from its own
    offset; [Open] returns that object for a file with these bytes. *)
Theorem Parse_reads_tables (b : list byte) (l : list string) :
  0x70 <= len b < 2 ^ 32 ->
  tables_fit b -> strings_of b l -> plain_classes b ->
  Parse (new_DEX b) = Some (parsed b l, None)
  /\ (forall (fs : FileSystem) (path : string),
         fs path = Some (Readable b) ->
         Open fs path = Some (Some (parsed b l), None))
  /\ len (Strings (parsed b l)) = StringIdsSize (Header_at b)
  /\ len (Types (parsed b l)) = TypeIdsSize (Header_at b)
  /\ len (Prototypes (parsed b l)) = ProtosSize (Header_at b)
  /\ len (Fields (parsed b l)) = FieldsSize (Header_at b)
  /\ len (Methods (parsed b l)) = MethodIdsSize (Header_at b)
  /\ len (Classes (parsed b l)) = ClassDefsSize (Header_at b).
Proof.
  intros Hlen HF HS HP.
  pose proof (Parse_parsed b l Hlen HF HS HP) as E.
  assert (R : forall o, 0 <= Uint32_at b o)
    by (intros o; apply Uint32_at_range).
  assert (T : forall A (f : Z -> A) o s n, 0 <= n -> len (table f o s n) = n).
  { intros A f o s n Hn. unfold table, len.
    rewrite length_map, length_seq. lia. }
  split; [exact E|]. split.
  { intros fs path Hf. unfold Open. rewrite Hf. now rewrite E. }
  split.
  { apply Forall2_length in HS. rewrite length_seq in HS.
    cbn [Strings parsed]. unfold len. rewrite <- HS.
    apply Z2Nat.id, R. }
  cbn [Types Prototypes Fields Methods Classes parsed].
  repeat split; apply T, R.
Qed.

Lemma Parse_reads_tables_witness :
  0x70 <= len small_image < 2 ^ 32
  /\ tables_fit small_image
  /\ strings_of small_image ["LA;"%string; "A.java"%string]
  /\ plain_classes small_image
  /\ Parse (new_DEX small_image)
     = Some (parsed small_image ["LA;"%string; "A.java"%string], None).
Proof.
  assert (H1 : 0x70 <= len small_image < 2 ^ 32)
    by (split; vm_compute; [discriminate|reflexivity]).
  assert (H2 : tables_fit small_image)
    by (unfold tables_fit; cbv zeta;
        repeat (split; [vm_compute; discriminate|]); vm_compute; discriminate).
  assert (H3 : strings_of small_image ["LA;"%string; "A.java"%string]).
  { unfold strings_of.
    change (Z.to_nat (StringIdsSize (Header_at small_image))) with 2%nat.
    cbn [seq].
    constructor; [vm_compute; reflexivity|].
    constructor; [vm_compute; reflexivity|]. constructor. }
  assert (H4 : plain_classes small_image).
  { intros k Hk.
    change (ClassDefsSize (Header_at small_image)) with 1 in Hk.
    assert (k = 0) by lia. subst k. split; vm_compute; reflexivity. }
  split; [exact H1|]. split; [exact H2|]. split; [exact H3|].
  split; [exact H4|].
  exact (proj1 (Parse_reads_tables small_image
                  ["LA;"%string; "A.java"%string] H1 H2 H3 H4)).
Defined.

(** ** Static values *)

(** What ["staticvalues"] does once the offset it reads is not 0. *)
Lemma staticvalues_at (dex : DEX) (data : list byte) (val : Value Frame)
      (fr : Frame) (size n : Z) :
  4 <= len data ->
  Uint32_at data 0 <> 0 ->
  Uint32_at data 0 <= len (DEX_b dex) ->
  uleb128 (skipn (Z.to_nat (Uint32_at data 0)) (DEX_b dex))
  = Some (size, n) ->
  staticvalues dex data val fr
  = if size =? 0
    then Some (set_class_def_item
                 (set_StaticValues [] (class_def_item fr))
                 (set_offset_var (uint32 (Uint32_at data 0 + n))
                    (set_size_var 0 fr)),
               n, None)
    else None.
Proof.
  intros H Hz Hle U. unfold staticvalues, call.
  change (packs_lists dex "uint"%string) with (Some (@unpackUint Frame)).
  change (packs_lists dex "uleb128"%string)
    with (Some (@unpackUleb128 Frame)).
  cbv beta iota. rewrite unpackUint_at by lia.
  cbn [offset_var set_offset_var set_size_var].
  pose proof (Uint32_at_range data 0) as R.
  destruct (Uint32_at data 0 =? 0) eqn:E; [apply Z.eqb_eq in E; lia|].
  rewrite slice_from_skipn by lia.
  rewrite (unpackUleb128_uleb128 _ _ _ _ _ _ U).
  pose proof (uleb128_range _ _ _ U) as [Hv Hn].
  rewrite uint64_small by lia. rewrite (Z.mod_small size) by lia.
  cbn [offset_var set_offset_var set_size_var size_var class_def_item
         set_class_def_item].
  rewrite (uint32_small n) by lia.
  destruct (size =? 0) eqn:E0.
  - apply Z.eqb_eq in E0. subst size. cbn [Z.to_nat staticvalues_for make].
    reflexivity.
  - apply Z.eqb_neq in E0.
    destruct (Z.to_nat size) as [|m] eqn:Em; [lia|].
    cbn [staticvalues_for call].
    destruct (slice_from _ _); reflexivity.
Qed.

Lemma classdata_count (dex : DEX) (data : list byte) (val : Value Frame)
      (fr fr' : Frame) (n : Z) (e : option error) :
  classdata dex data val fr = Some (fr', n, e) -> n = 4.
Proof.
  unfold classdata, call.
  change (packs_lists dex "uint"%string) with (Some (@unpackUint Frame)).
  cbv beta iota. unfold unpackUint.
  destruct (slice data 0 4) as [w|]; [|discriminate]. cbv beta iota.
  destruct (LittleEndian_Uint32 w) as [x|]; [|discriminate].
  cbn [SetUint]. cbv beta iota.
  destruct (offset_var _ =? 0); [congruence|].
  destruct (slice_from _ _); [|discriminate]. cbv beta iota.
  destruct (Unpack _ _ _ _) as [[[f k] e']|]; [|discriminate]. congruence.
Qed.

(** A class def whose static values are not empty cannot be unpacked. *)
Lemma Unpack_ClassDefItem_static (dex : DEX) (offset size n : Z) :
  0 <= offset -> offset + 32 <= len (DEX_b dex) -> len (DEX_b dex) < 2 ^ 63 ->
  static_values_off (DEX_b dex) offset <> 0 ->
  static_values_off (DEX_b dex) offset <= len (DEX_b dex) ->
  uleb128 (skipn (Z.to_nat (static_values_off (DEX_b dex) offset))
             (DEX_b dex)) = Some (size, n) ->
  size <> 0 ->
  Unpack (packs_class dex) (skipn (Z.to_nat offset) (DEX_b dex))
    (reflect_ClassDefItem class_def_item_ptr) new_Frame
  = None.
Proof.
  intros H0 H32 Hb Hz Hle U Hs. unfold Unpack, reflect_ClassDefItem.
  pose proof (len_skipn (DEX_b dex) offset ltac:(lia)) as L.
  rewrite Unpack_for_skip by reflexivity.
  do 6 class_uint.
  match goal with
  | |- Unpack_for _ ?b (?f :: ?fs) ?o ?s = None =>
      destruct (classdata dex (skipn (Z.to_nat o) b) (Field_ f) s)
        as [[[fr' k] e]|] eqn:C
  end.
  - pose proof (classdata_count _ _ _ _ _ _ _ C). subst k.
    erewrite Unpack_for_codec;
      [ | reflexivity | reflexivity | lia | exact C | lia | lia ].
    cbn [Unpack_for Tag Field_].
    change (String.eqb "staticvalues" "-") with false.
    change (packs_class dex "staticvalues"%string)
      with (Some (staticvalues dex)).
    cbv iota. rewrite slice_from_skipn by lia.
    unfold static_values_off in *.
    erewrite staticvalues_at;
      [ | rewrite len_skipn; lia
        | rewrite !Uint32_at_skipn by lia;
          replace (offset + (0 + 4 + 4 + 4 + 4 + 4 + 4 + 4 + 0))
            with (offset + 28) by lia; eassumption .. ].
    apply Z.eqb_neq in Hs. now rewrite Hs.
  - cbn [Unpack_for Tag Field_].
    change (String.eqb "classdata" "-") with false.
    change (packs_class dex "classdata"%string) with (Some (classdata dex)).
    cbv iota. rewrite slice_from_skipn by lia.
    cbn [Field_] in C. now rewrite C.
Qed.

(** The readers write their own table only. *)
Lemma readStrings_for_frame (n : nat) :
  forall (i : Z) (data : list byte) (d d' : DEX),
    readStrings_for n i data d = Some d' ->
    DEX_b d' = DEX_b d /\ header d' = header d.
Proof.
  induction n as [|n IH]; intros i data d d' H; cbn [readStrings_for] in H.
  - inversion H. now split.
  - destruct (slice _ _ _); [|discriminate]. cbv beta iota in H.
    destruct (LittleEndian_Uint32 _); [|discriminate]. cbv beta iota in H.
    destruct (slice_from _ _); [|discriminate]. cbv beta iota in H.
    destruct (str _) as [[s c]|]; [|discriminate]. cbv beta iota in H.
    destruct (store_index _ _ _); [|discriminate].
    apply IH in H. exact H.
Qed.

Lemma readStrings_frame (d d' : DEX) (e : option error) :
  readStrings d = Some (d', e) ->
  DEX_b d' = DEX_b d /\ header d' = header d.
Proof.
  unfold readStrings. intros H.
  destruct (slice_from _ _); [|discriminate]. cbv beta iota in H.
  destruct (readStrings_for _ _ _ _) as [d1|] eqn:E; [|discriminate].
  apply readStrings_for_frame in E. inversion H; subst. exact E.
Qed.

Lemma readTypes_for_frame (n : nat) :
  forall (i : Z) (d d' : DEX) (e : option error),
    readTypes_for n i d = Some (d', e) ->
    DEX_b d' = DEX_b d /\ header d' = header d.
Proof.
  induction n as [|n IH]; intros i d d' e H; cbn [readTypes_for] in H.
  - inversion H. now split.
  - destruct (slice_from _ _); [|discriminate]. cbv beta iota in H.
    destruct (Unpack _ _ _ _) as [[[t k] [e'|]]|];
      [inversion H; now split| |discriminate].
    destruct (store_index _ _ _); [|discriminate].
    apply IH in H. exact H.
Qed.

Lemma readPrototypes_for_frame (n : nat) :
  forall (i : Z) (d d' : DEX) (e : option error),
    readPrototypes_for n i d = Some (d', e) ->
    DEX_b d' = DEX_b d /\ header d' = header d.
Proof.
  induction n as [|n IH]; intros i d d' e H; cbn [readPrototypes_for] in H.
  - inversion H. now split.
  - destruct (slice_from _ _); [|discriminate]. cbv beta iota in H.
    destruct (Unpack _ _ _ _) as [[[t k] [e'|]]|];
      [inversion H; now split| |discriminate].
    destruct (store_index _ _ _); [|discriminate].
    apply IH in H. exact H.
Qed.

Lemma readFields_for_frame (n : nat) :
  forall (i : Z) (d d' : DEX) (e : option error),
    readFields_for n i d = Some (d', e) ->
    DEX_b d' = DEX_b d /\ header d' = header d.
Proof.
  induction n as [|n IH]; intros i d d' e H; cbn [readFields_for] in H.
  - inversion H. now split.
  - destruct (slice_from _ _); [|discriminate]. cbv beta iota in H.
    destruct (Unpack _ _ _ _) as [[[t k] [e'|]]|];
      [inversion H; now split| |discriminate].
    destruct (store_index _ _ _); [|discriminate].
    apply IH in H. exact H.
Qed.

Lemma readMethods_for_frame (n : nat) :
  forall (i : Z) (d d' : DEX) (e : option error),
    readMethods_for n i d = Some (d', e) ->
    DEX_b d' = DEX_b d /\ header d' = header d.
Proof.
  induction n as [|n IH]; intros i d d' e H; cbn [readMethods_for] in H.
  - inversion H. now split.
  - destruct (slice_from _ _); [|discriminate]. cbv beta iota in H.
    destruct (Unpack _ _ _ _) as [[[t k] [e'|]]|];
      [inversion H; now split| |discriminate].
    destruct (store_index _ _ _); [|discriminate].
    apply IH in H. exact H.
Qed.

(** The class loop panics when one of the class defs it has yet to read
    has static values that are not empty. *)
Lemma Parse_for_static (k size m : Z) (n : nat) :
  forall (i : Z) (dex : DEX),
    0 <= i <= k -> k < i + Z.of_nat n ->
    0 <= ClassDefsOffset (header dex) ->
    ClassDefsOffset (header dex) + 32 * k + 32 <= len (DEX_b dex) ->
    len (DEX_b dex) < 2 ^ 32 ->
    static_values_off (DEX_b dex) (ClassDefsOffset (header dex) + 32 * k)
    <> 0 ->
    static_values_off (DEX_b dex) (ClassDefsOffset (header dex) + 32 * k)
    <= len (DEX_b dex) ->
    uleb128 (skipn (Z.to_nat
                      (static_values_off (DEX_b dex)
                         (ClassDefsOffset (header dex) + 32 * k)))
               (DEX_b dex)) = Some (size, m) ->
    size <> 0 ->
    Parse_for n i dex = None.
Proof.
  induction n as [|n IH]; intros i dex Hi Hk Ho Hlen Hb Hz Hle U Hs; [lia|].
  cbn [Parse_for].
  destruct (Z.eq_dec i k) as [->|Hne].
  - rewrite uint32_add_r, uint32_add_l. rewrite uint32_small by lia.
    rewrite slice_from_skipn by lia.
    now rewrite (Unpack_ClassDefItem_static dex _ size m) by (assumption || lia).
  - destruct (slice_from _ _); [|reflexivity]. cbv beta iota.
    destruct (Unpack _ _ _ _) as [[[fr c] e]|]; [|reflexivity].
    destruct (store_index _ _ _) as [cs|]; [|reflexivity].
    apply IH; cbn [header DEX_b set_Classes]; (assumption || lia).
Qed.

Lemma Parse_static (b : list byte) (k size m : Z) :
  0x70 <= len b < 2 ^ 32 ->
  0 <= k < ClassDefsSize (Header_at b) ->
  ClassDefsOffset (Header_at b) + 32 * k + 32 <= len b ->
  static_values_off b (ClassDefsOffset (Header_at b) + 32 * k) <> 0 ->
  static_values_off b (ClassDefsOffset (Header_at b) + 32 * k) <= len b ->
  uleb128 (skipn (Z.to_nat
                    (static_values_off b
                       (ClassDefsOffset (Header_at b) + 32 * k))) b)
  = Some (size, m) ->
  size <> 0 ->
  Parse (new_DEX b) = None.
Proof.
  intros Hlen Hk Ho Hz Hle U Hs. unfold Parse.
  rewrite readHeader_Header_at by (cbn [DEX_b new_DEX]; lia).
  change (DEX_b (new_DEX b)) with b.
  set (d1 := set_header (Header_at b) (new_DEX b)).
  assert (F1 : DEX_b d1 = b /\ header d1 = Header_at b) by now split.
  destruct (readStrings d1) as [[d2 [e|]]|] eqn:E2;
    [apply readStrings_nil in E2; discriminate| |reflexivity].
  apply readStrings_frame in E2.
  destruct (readTypes d2) as [[d3 [e|]]|] eqn:E3;
    [apply readTypes_for_nil in E3; discriminate| |reflexivity].
  apply readTypes_for_frame in E3. cbn [DEX_b header set_Types] in E3.
  destruct (readPrototypes d3) as [[d4 [e|]]|] eqn:E4;
    [apply readPrototypes_for_nil in E4; discriminate| |reflexivity].
  apply readPrototypes_for_frame in E4.
  cbn [DEX_b header set_Prototypes] in E4.
  destruct (readFields d4) as [[d5 [e|]]|] eqn:E5;
    [apply readFields_for_nil in E5; discriminate| |reflexivity].
  apply readFields_for_frame in E5. cbn [DEX_b header set_Fields] in E5.
  destruct (readMethods d5) as [[d6 [e|]]|] eqn:E6;
    [apply readMethods_for_nil in E6; discriminate| |reflexivity].
  apply readMethods_for_frame in E6. cbn [DEX_b header set_Methods] in E6.
  assert (B6 : DEX_b d6 = b) by (destruct F1, E2, E3, E4, E5, E6; congruence).
  assert (H6 : header d6 = Header_at b)
    by (destruct F1, E2, E3, E4, E5, E6; congruence).
  rewrite (Parse_for_static k size m); [reflexivity|..];
    cbn [header DEX_b set_Classes]; rewrite ?B6, ?H6; try assumption.
  - lia.
  - rewrite Z2Nat.id by lia. lia.
  - apply (Uint32_at_range b 100).
  - lia.
Qed.

(** X16. The closure registered as ["staticvalues"]. It reads a 32-bit
    offset; when the offset is 0 it reports the four bytes and touches
    nothing but its own variable. Otherwise it reads the ULEB128 number of
    values at that offset of the image: for 0 values it leaves an empty
    list and reports the size of that ULEB128 number, not the four bytes it
    took from its data; for any other number it panics, at its call of the
    codec ["ubyte"], which is never registered. *)
Theorem staticvalues_cases (dex : DEX) (data : list byte)
        (val : Value Frame) (fr : Frame) :
  4 <= len data ->
  (Uint32_at data 0 = 0 ->
   staticvalues dex data val fr = Some (set_offset_var 0 fr, 4, None))
  /\ (forall size n : Z,
         Uint32_at data 0 <> 0 ->
         Uint32_at data 0 <= len (DEX_b dex) ->
         uleb128 (skipn (Z.to_nat (Uint32_at data 0)) (DEX_b dex))
         = Some (size, n) ->
         staticvalues dex data val fr
         = if size =? 0
           then Some (set_class_def_item
                        (set_StaticValues [] (class_def_item fr))
                        (set_offset_var (uint32 (Uint32_at data 0 + n))
                           (set_size_var 0 fr)),
                      n, None)
           else None).
Proof.
  intros H. split.
  - intros E. now apply staticvalues_none.
  - intros size n Hz Hle U. now apply staticvalues_at.
Qed.

Lemma staticvalues_cases_witness :
  4 <= len (le32 0xC3)
  /\ staticvalues (new_DEX static_image) (le32 0xC3) OtherValue new_Frame
     = None.
Proof.
  assert (H : 4 <= len (le32 0xC3)) by (vm_compute; discriminate).
  split; [exact H|].
  apply (proj2 (staticvalues_cases (new_DEX static_image) (le32 0xC3)
                  OtherValue new_Frame H) 1 1);
    [vm_compute; discriminate | vm_compute; discriminate | reflexivity].
Defined.

(** X17. [Parse] cannot read a class with static values. If the header of
    an image of 0x70 to 2^32 bytes counts a class def, lying within the
    image, whose static-values offset points into the image at an array of
    one value or more, then [Parse] panics, whatever else the image holds,
    and so does [Open] on a file with these bytes. *)
Theorem Parse_static_values_panic (b : list byte) (k size m : Z) :
  0x70 <= len b < 2 ^ 32 ->
  0 <= k < ClassDefsSize (Header_at b) ->
  ClassDefsOffset (Header_at b) + 32 * k + 32 <= len b ->
  static_values_off b (ClassDefsOffset (Header_at b) + 32 * k) <> 0 ->
  static_values_off b (ClassDefsOffset (Header_at b) + 32 * k) <= len b ->
  uleb128 (skipn (Z.to_nat
                    (static_values_off b
                       (ClassDefsOffset (Header_at b) + 32 * k))) b)
  = Some (size, m) ->
  size <> 0 ->
  Parse (new_DEX b) = None
  /\ forall (fs : FileSystem) (path : string),
      fs path = Some (Readable b) -> Open fs path = None.
Proof.
  intros Hlen Hk Ho Hz Hle U Hs.
  pose proof (Parse_static b k size m Hlen Hk Ho Hz Hle U Hs) as E.
  split; [exact E|].
  intros fs path Hf. unfold Open. rewrite Hf. now rewrite E.
Qed.

Lemma Parse_static_values_panic_witness :
  0x70 <= len static_image < 2 ^ 32
  /\ 0 <= 0 < ClassDefsSize (Header_at static_image)
  /\ static_values_off static_image
       (ClassDefsOffset (Header_at static_image) + 32 * 0) = 0xC3
  /\ uleb128 (skipn (Z.to_nat 0xC3) static_image) = Some (1, 1)
  /\ Parse (new_DEX static_image) = None.
Proof.
  assert (H1 : 0x70 <= len static_image < 2 ^ 32)
    by (split; vm_compute; [discriminate|reflexivity]).
  assert (H2 : 0 <= 0 < ClassDefsSize (Header_at static_image))
    by (split; vm_compute; [discriminate|reflexivity]).
  split; [exact H1|]. split; [exact H2|].
  split; [vm_compute; reflexivity|]. split; [vm_compute; reflexivity|].
  apply (proj1 (Parse_static_values_panic static_image 0 1 1 H1 H2
                  ltac:(vm_compute; discriminate)
                  ltac:(vm_compute; discriminate)
                  ltac:(vm_compute; discriminate)
                  ltac:(vm_compute; reflexivity)
                  ltac:(discriminate))).
Defined.

(** ** Class defs with class data *)

(** Unpacking a class-data item changes the class data of the class def
    and nothing else of it. *)
Lemma Unpack_ClassDataItem_full (dex : DEX) (sf inf : list (Z * Z))
      (dm vm : list (Z * Z * Z)) (rest : list byte) (fr : Frame) :
  fields_ok (len (Fields dex)) 0 sf ->
  fields_ok (len (Fields dex)) 0 inf ->
  methods_ok (len (Methods dex)) 0 dm ->
  methods_ok (len (Methods dex)) 0 vm ->
  len (Fields dex) < 2 ^ 63 -> len (Methods dex) < 2 ^ 63 ->
  len (encode_class_data sf inf dm vm) < 2 ^ 63 ->
  exists fr',
    Unpack (packs_lists dex) (encode_class_data sf inf dm vm ++ rest)
      (reflect_ClassDataItem ClassData_ptr) fr
    = Some (fr', len (encode_class_data sf inf dm vm), None)
    /\ class_def_item fr'
       = set_ClassData
           {| StaticFieldSize := len sf; InstanceFieldSize := len inf;
              DirectMethodsSize := len dm; VirtualMethodsSize := len vm;
              StaticFields := resolve_fields (Fields dex) 0 sf;
              InstanceFields := resolve_fields (Fields dex) 0 inf;
              DirectMethods := resolve_methods (Methods dex) 0 dm;
              VirtualMethods := resolve_methods (Methods dex) 0 vm |}
           (class_def_item fr).
Proof.
  intros Hsf Hinf Hdm Hvm HF HM Hlen.
  assert (U1 : u32 (len sf)) by (split; [apply len_nonneg|apply Hsf]).
  assert (U2 : u32 (len inf)) by (split; [apply len_nonneg|apply Hinf]).
  assert (U3 : u32 (len dm)) by (split; [apply len_nonneg|apply Hdm]).
  assert (U4 : u32 (len vm)) by (split; [apply len_nonneg|apply Hvm]).
  unfold Unpack, encode_class_data in *. rewrite <- !app_assoc.
  rewrite !len_app in Hlen.
  pose proof (len_nonneg (encode_uleb128 (len sf))).
  pose proof (len_nonneg (encode_uleb128 (len inf))).
  pose proof (len_nonneg (encode_uleb128 (len dm))).
  pose proof (len_nonneg (encode_uleb128 (len vm))).
  pose proof (len_nonneg (flat_map encode_field sf)).
  pose proof (len_nonneg (flat_map encode_field inf)).
  pose proof (len_nonneg (flat_map encode_method dm)).
  pose proof (len_nonneg (flat_map encode_method vm)).
  unfold reflect_ClassDataItem.
  match goal with
  | |- context [Unpack_for ?p ?d ?f 0 ?s] =>
      change (Unpack_for p d f 0 s)
        with (Unpack_for p ([] ++ d) f (len (@nil byte)) s)
  end.
  erewrite Unpack_for_step;
    [| reflexivity | reflexivity
     | cbn [Field_]; apply unpackUleb128_encode; [assumption|lia]
     | cbn [app]; rewrite ?len_app; lia ].
  erewrite Unpack_for_step;
    [| reflexivity | reflexivity
     | cbn [Field_]; apply unpackUleb128_encode; [assumption|lia]
     | cbn [app]; rewrite ?len_app; lia ].
  erewrite Unpack_for_step;
    [| reflexivity | reflexivity
     | cbn [Field_]; apply unpackUleb128_encode; [assumption|lia]
     | cbn [app]; rewrite ?len_app; lia ].
  erewrite Unpack_for_step;
    [| reflexivity | reflexivity
     | cbn [Field_]; apply unpackUleb128_encode; [assumption|lia]
     | cbn [app]; rewrite ?len_app; lia ].
  match goal with
  | |- context [Unpack_for _ (_ ++ _ ++ ?cur) (?f :: _) _ ?s] =>
      destruct (staticfields_ok dex sf cur (Field_ f) s Hsf HF ltac:(lia)
                  eq_refl) as (fr5 & Hr5 & Hc5)
  end.
  erewrite Unpack_for_step;
    [| reflexivity | reflexivity | exact Hr5
     | cbn [app]; rewrite ?len_app; lia ].
  match goal with
  | |- context [Unpack_for _ (_ ++ _ ++ ?cur) (?f :: _) _ ?s] =>
      destruct (instancefields_ok dex inf cur (Field_ f) s Hinf HF
                  ltac:(lia) ltac:(rewrite Hc5; reflexivity))
        as (fr6 & Hr6 & Hc6)
  end.
  erewrite Unpack_for_step;
    [| reflexivity | reflexivity | exact Hr6
     | cbn [app]; rewrite ?len_app; lia ].
  match goal with
  | |- context [Unpack_for _ (_ ++ _ ++ ?cur) (?f :: _) _ ?s] =>
      destruct (directmethods_ok dex dm cur (Field_ f) s Hdm HM
                  ltac:(lia) ltac:(rewrite Hc6, Hc5; reflexivity))
        as (fr7 & Hr7 & Hc7)
  end.
  erewrite Unpack_for_step;
    [| reflexivity | reflexivity | exact Hr7
     | cbn [app]; rewrite ?len_app; lia ].
  match goal with
  | |- context [Unpack_for _ (_ ++ _ ++ ?cur) (?f :: _) _ ?s] =>
      destruct (virtualmethods_ok dex vm cur (Field_ f) s Hvm HM
                  ltac:(lia) ltac:(rewrite Hc7, Hc6, Hc5; reflexivity))
        as (fr8 & Hr8 & Hc8)
  end.
  erewrite Unpack_for_step;
    [| reflexivity | reflexivity | exact Hr8
     | cbn [app]; rewrite ?len_app; lia ].
  exists fr8. cbn [Unpack_for app]. split.
  - rewrite !len_app. change (len []) with 0. do 3 f_equal. lia.
  - rewrite Hc8, Hc7, Hc6, Hc5. reflexivity.
Qed.

Lemma classdata_at (dex : DEX) (data : list byte) (val : Value Frame)
      (fr : Frame) (sf inf : list (Z * Z)) (dm vm : list (Z * Z * Z))
      (rest : list byte) :
  4 <= len data ->
  Uint32_at data 0 <> 0 ->
  skipn (Z.to_nat (Uint32_at data 0)) (DEX_b dex)
  = encode_class_data sf inf dm vm ++ rest ->
  fields_ok (len (Fields dex)) 0 sf ->
  fields_ok (len (Fields dex)) 0 inf ->
  methods_ok (len (Methods dex)) 0 dm ->
  methods_ok (len (Methods dex)) 0 vm ->
  len (Fields dex) < 2 ^ 63 -> len (Methods dex) < 2 ^ 63 ->
  len (encode_class_data sf inf dm vm) < 2 ^ 63 ->
  exists fr',
    classdata dex data val fr = Some (fr', 4, None)
    /\ class_def_item fr'
       = set_ClassData
           {| StaticFieldSize := len sf; InstanceFieldSize := len inf;
              DirectMethodsSize := len dm; VirtualMethodsSize := len vm;
              StaticFields := resolve_fields (Fields dex) 0 sf;
              InstanceFields := resolve_fields (Fields dex) 0 inf;
              DirectMethods := resolve_methods (Methods dex) 0 dm;
              VirtualMethods := resolve_methods (Methods dex) 0 vm |}
           (class_def_item fr).
Proof.
  intros H Hz Hsk Hsf Hinf Hdm Hvm HF HM Hlen.
  pose proof (Uint32_at_range data 0) as R.
  assert (Hle : Uint32_at data 0 <= len (DEX_b dex)).
  { destruct (Z_le_dec (Uint32_at data 0) (len (DEX_b dex))) as [Hle|Hgt];
      [exact Hle|].
    rewrite skipn_all2 in Hsk by (unfold len in Hgt; lia).
    pose proof (encode_uleb128_len (len sf)) as L.
    unfold encode_class_data in Hsk.
    destruct (encode_uleb128 (len sf)) as [|x l]; [cbn in L; lia|].
    discriminate. }
  unfold classdata, call.
  change (packs_lists dex "uint"%string) with (Some (@unpackUint Frame)).
  cbv beta iota. rewrite unpackUint_at by lia.
  cbn [offset_var set_offset_var].
  destruct (Uint32_at data 0 =? 0) eqn:E; [apply Z.eqb_eq in E; lia|].
  rewrite slice_from_skipn by lia. rewrite Hsk.
  destruct (Unpack_ClassDataItem_full dex sf inf dm vm rest
              (set_offset_var (Uint32_at data 0) (set_offset_var 0 fr))
              Hsf Hinf Hdm Hvm HF HM Hlen) as (fr' & HU & Hc).
  rewrite HU. exists fr'. split; [reflexivity|]. exact Hc.
Qed.

(** X18. A class def with class data. [Unpack] reads the six 32-bit
    fields of the class def at their positions, follows the class-data
    offset into the image (not into the data it was given), where the four
    sizes and the four lists are decoded with the tables [dex] holds, each
    list with its own running index; the class data fills the class def
    and changes nothing else of it, and the count stays 32 whatever the
    size of the class data. Stated for a class def without static values
    whose lists stay within the field and method tables. *)
Theorem Unpack_ClassDefItem_data (dex : DEX) (offset : Z)
      (sf inf : list (Z * Z)) (dm vm : list (Z * Z * Z))
      (rest : list byte) :
  0 <= offset -> offset + 32 <= len (DEX_b dex) ->
  len (DEX_b dex) < 2 ^ 63 ->
  class_data_off (DEX_b dex) offset <> 0 ->
  skipn (Z.to_nat (class_data_off (DEX_b dex) offset)) (DEX_b dex)
  = encode_class_data sf inf dm vm ++ rest ->
  static_values_off (DEX_b dex) offset = 0 ->
  fields_ok (len (Fields dex)) 0 sf ->
  fields_ok (len (Fields dex)) 0 inf ->
  methods_ok (len (Methods dex)) 0 dm ->
  methods_ok (len (Methods dex)) 0 vm ->
  len (Fields dex) < 2 ^ 63 -> len (Methods dex) < 2 ^ 63 ->
  exists fr',
    Unpack (packs_class dex) (skipn (Z.to_nat offset) (DEX_b dex))
      (reflect_ClassDefItem class_def_item_ptr) new_Frame
    = Some (fr', 32, None)
    /\ class_def_item fr'
       = set_ClassData
           {| StaticFieldSize := len sf; InstanceFieldSize := len inf;
              DirectMethodsSize := len dm; VirtualMethodsSize := len vm;
              StaticFields := resolve_fields (Fields dex) 0 sf;
              InstanceFields := resolve_fields (Fields dex) 0 inf;
              DirectMethods := resolve_methods (Methods dex) 0 dm;
              VirtualMethods := resolve_methods (Methods dex) 0 vm |}
           (ClassDefItem_at (DEX_b dex) offset).
Proof.
  intros H0 H32 Hb Hz Hsk Hs Hsf Hinf Hdm Hvm HF HM.
  assert (Hlen : len (encode_class_data sf inf dm vm) < 2 ^ 63).
  { assert (L : len (skipn (Z.to_nat (class_data_off (DEX_b dex) offset))
                       (DEX_b dex)) <= len (DEX_b dex))
      by (unfold len; rewrite length_skipn; lia).
    rewrite Hsk, len_app in L. pose proof (len_nonneg rest). lia. }
  unfold Unpack, reflect_ClassDefItem.
  pose proof (len_skipn (DEX_b dex) offset ltac:(lia)) as L.
  rewrite Unpack_for_skip by reflexivity.
  do 6 class_uint.
  unfold class_data_off, static_values_off in *.
  match goal with
  | |- context [Unpack_for _ ?b (?f :: ?fs) ?o ?s] =>
      destruct (classdata_at dex (skipn (Z.to_nat o) b) (Field_ f) s
                  sf inf dm vm rest) as (fr' & HC & Hc);
        [ rewrite len_skipn; lia
        | try (rewrite !Uint32_at_skipn by lia;
               replace (offset + (0 + 4 + 4 + 4 + 4 + 4 + 4 + 0))
                 with (offset + 24) by lia); assumption .. | ]
  end.
  erewrite Unpack_for_codec;
    [ | reflexivity | reflexivity | lia | exact HC | lia | lia ].
  erewrite Unpack_for_codec;
    [ | reflexivity | reflexivity | lia
      | apply staticvalues_none;
        [ rewrite len_skipn; lia
        | rewrite !Uint32_at_skipn by lia;
          replace (offset + (0 + 4 + 4 + 4 + 4 + 4 + 4 + 4 + 0))
            with (offset + 28) by lia; exact Hs ]
      | lia | lia ].
  cbn [Unpack_for]. eexists. split; [reflexivity|].
  cbn [class_def_item set_offset_var]. rewrite Hc.
  rewrite !Uint32_at_skipn by lia.
  replace (offset + (0 + 0)) with offset by lia.
  replace (offset + (0 + 4 + 0)) with (offset + 4) by lia.
  replace (offset + (0 + 4 + 4 + 0)) with (offset + 8) by lia.
  replace (offset + (0 + 4 + 4 + 4 + 0)) with (offset + 12) by lia.
  replace (offset + (0 + 4 + 4 + 4 + 4 + 0)) with (offset + 16) by lia.
  replace (offset + (0 + 4 + 4 + 4 + 4 + 4)) with (offset + 20) by lia.
  reflexivity.
Qed.

Lemma Unpack_ClassDefItem_data_witness :
  skipn (Z.to_nat (class_data_off (DEX_b ten_fields_class) 0))
    (DEX_b ten_fields_class)
  = encode_class_data [(3, 0); (1, 0); (5, 0)] [(2, 0)] [] [] ++ []
  /\ exists fr',
      Unpack (packs_class ten_fields_class)
        (skipn (Z.to_nat 0) (DEX_b ten_fields_class))
        (reflect_ClassDefItem class_def_item_ptr) new_Frame
      = Some (fr', 32, None)
      /\ map (fun f => FieldIdItem_NameIdx (Field f))
           (StaticFields (ClassData (class_def_item fr'))) = [3; 4; 9]
      /\ AccessFlags (class_def_item fr') = 1.
Proof.
  assert (H1 : fields_ok (len (Fields ten_fields_class)) 0
                 [(3, 0); (1, 0); (5, 0)])
    by (repeat split; repeat constructor; cbn; lia).
  assert (H2 : fields_ok (len (Fields ten_fields_class)) 0 [(2, 0)])
    by (repeat split; repeat constructor; cbn; lia).
  assert (H3 : methods_ok (len (Methods ten_fields_class)) 0 [])
    by (repeat split; repeat constructor; cbn; lia).
  split; [reflexivity|].
  destruct (Unpack_ClassDefItem_data ten_fields_class 0
              [(3, 0); (1, 0); (5, 0)] [(2, 0)] [] [] [])
    as (fr' & HU & Hc);
    [ lia | vm_compute; discriminate | vm_compute; reflexivity
    | vm_compute; discriminate | reflexivity | reflexivity
    | exact H1 | exact H2 | exact H3 | exact H3
    | vm_compute; reflexivity | vm_compute; reflexivity | ].
  exists fr'. split; [exact HU|]. rewrite Hc.
  split; reflexivity.
Defined.

(** ** Listings *)

Lemma special_false (c : Z) :
  special c = false ->
  (c =? 0x6e) || (c =? 0x6f) || (c =? 0x70) || (c =? 0x71) = false
  /\ (c =? 0x72) || (c =? 0x73) || (c =? 0x74) = false
  /\ (c =? 0x22) = false /\ (c =? 0x39) = false /\ (c =? 0x07) = false
  /\ (c =? 0x12) = false
  /\ (c =? 0x0a) || (c =? 0xb) || (c =? 0x0c) = false
  /\ (c =? 0x1a) = false.
Proof.
  unfold special. intros H.
  repeat match type of H with
         | _ || _ = false =>
             apply orb_false_iff in H;
             let H1 := fresh "H" in destruct H as [H H1]
         end.
  repeat match goal with
         | E : _ = false |- _ => rewrite E; clear E
         end.
  repeat split.
Qed.

(** An opcode that the chain of [if]s does not name gets the line it came
    with, unless its recorded length is -1. *)
Lemma Disassemble_operands_plain (d dex : DEX) (c : Z) (i : Instruction)
      (offset : Z) (str : string) :
  special c = false ->
  Disassemble_operands d dex c i offset str
  = if Length i =? -1 then Some None else Some (Some str).
Proof.
  intros H. apply special_false in H.
  destruct H as (H1 & H2 & H3 & H4 & H5 & H6 & H7 & H8).
  unfold Disassemble_operands. rewrite H1, H2, H3, H4, H5, H6, H7, H8.
  now destruct (Length i =? -1).
Qed.

Lemma no_length_table :
  forallb (fun e => Bool.eqb (Length (snd e) =? -1)
                      (existsb (Z.eqb (fst e)) no_length))
          instructions_table = true.
Proof. vm_compute. reflexivity. Qed.

Lemma instructions_no_length (c : Z) (i : Instruction) :
  instructions c = Some i -> (Length i = -1 <-> In c no_length).
Proof.
  intros Hi. pose proof no_length_table as T.
  rewrite forallb_forall in T.
  specialize (T _ (instructions_In _ _ Hi)). cbn [fst snd] in T.
  apply Bool.eqb_prop in T. split.
  - intros L. apply Z.eqb_eq in L. rewrite L in T. symmetry in T.
    apply existsb_exists in T. destruct T as (x & Hx & E).
    apply Z.eqb_eq in E. now subst.
  - intros Hin. apply Z.eqb_eq. rewrite T. apply existsb_exists.
    exists c. split; [exact Hin|apply Z.eqb_refl].
Qed.

Lemma no_length_special (c : Z) (i : Instruction) :
  instructions c = Some i -> Length i = -1 -> special c = false.
Proof.
  intros Hi L. pose proof (proj2 instructions_table_lengths) as T.
  rewrite forallb_forall in T.
  specialize (T _ (instructions_In _ _ Hi)). cbn [fst snd] in T.
  apply Z.eqb_eq in L. rewrite L in T. cbn [negb] in T.
  rewrite orb_false_r in T. now apply negb_true_iff in T.
Qed.

(** X19. The array and switch instructions end a listing. The table
    records the length -1 for exactly nineteen opcodes (filled-new-array,
    fill-array-data, the two switches and the fourteen array accesses,
    0x44 to 0x51), none of which the chain of [if]s names. At such an
    opcode the loop prints ["Invalid opcode "] and the opcode in
    hexadecimal instead of the line of the instruction, and ends: nothing
    behind it in the method is listed. *)
Theorem Disassemble_invalid_opcode (d dex : DEX) (m : EncodedMethod)
        (size offset : Z) (fuel : nat) (c : byte) (i : Instruction) :
  instructions (u8 c) = Some i ->
  (Length i = -1 <-> In (u8 c) no_length)
  /\ (offset < insns_end m size ->
      index (DEX_b dex) offset = Some c ->
      Length i = -1 ->
      Disassemble_for d (Datatypes.S fuel) dex m size offset
      = Some [("Invalid opcode " ++ fmt_x (u8 c))%string]).
Proof.
  intros Hi. split; [now apply instructions_no_length|].
  intros Hlt Hc L. unfold insns_end in Hlt. cbn [Disassemble_for].
  replace (offset <? int (CodeOffset m) + 16 + size * 2) with true
    by (symmetry; apply Z.ltb_lt; lia).
  rewrite Hc, Hi.
  rewrite Disassemble_operands_plain by (now apply (no_length_special _ i)).
  apply Z.eqb_eq in L. now rewrite L.
Qed.

Lemma Disassemble_invalid_opcode_witness :
  instructions (u8 x44)
  = Some {| Name := "aget vAA, vBB, vCC"; Length := -1 |}
  /\ Disassemble_for (dex_with_code insns_aget) 4
       (dex_with_code insns_aget) method_at_4 3 22
     = Some ["Invalid opcode 44"%string].
Proof.
  split; [reflexivity|].
  apply (proj2 (Disassemble_invalid_opcode (dex_with_code insns_aget)
                  (dex_with_code insns_aget) method_at_4 3 22 3 x44
                  {| Name := "aget vAA, vBB, vCC"; Length := -1 |}
                  eq_refl));
    [vm_compute; reflexivity | reflexivity | reflexivity].
Defined.

Section Listing.

Variable d : DEX.

Lemma Disassemble_for_plain (l : list (byte * list byte)) :
  forall (pre rest : list byte) (fuel : nat) (dex : DEX)
         (m : EncodedMethod) (size : Z),
    DEX_b dex = pre ++ assemble l ++ rest ->
    insns_end m size = len pre + len (assemble l) ->
    Forall plain l ->
    (List.length (assemble l) <= fuel)%nat ->
    Disassemble_for d fuel dex m size (len pre)
    = Some (map line (map fst l)).
Proof.
  unfold insns_end.
  induction l as [|[c ops] l IH]; intros pre rest fuel dex m size Hb He Hp Hf.
  - cbn [assemble flat_map map] in *. change (len []) with 0 in He.
    destruct fuel as [|fuel]; [reflexivity|]. cbn [Disassemble_for].
    replace (len pre <? int (CodeOffset m) + 16 + size * 2) with false
      by (symmetry; apply Z.ltb_ge; lia).
    reflexivity.
  - inversion Hp as [|? ? [Hs (i & Hi & Hl)] Hp']; subst.
    cbn [fst snd] in Hs, Hi, Hl.
    cbn [assemble flat_map fst snd map] in *. fold (assemble l) in *.
    cbn [app] in Hb, He, Hf. rewrite <- app_assoc in Hb.
    destruct fuel as [|fuel]; [cbn in Hf; lia|].
    pose proof (len_nonneg (ops ++ assemble l)) as Hn.
    change (len (c :: ops ++ assemble l))
      with (Z.of_nat (Datatypes.S (List.length (ops ++ assemble l)))) in He.
    fold (len (ops ++ assemble l)) in He.
    cbn [Disassemble_for].
    replace (len pre <? int (CodeOffset m) + 16 + size * 2) with true
      by (symmetry; apply Z.ltb_lt; unfold len in *; lia).
    rewrite Hb at 1. rewrite index_app_here, Hi.
    rewrite Disassemble_operands_plain by exact Hs.
    pose proof (len_nonneg ops) as Ho.
    replace (Length i =? -1) with false
      by (symmetry; apply Z.eqb_neq; lia).
    replace (len pre + 1 + Length i) with (len (pre ++ c :: ops))
      by (rewrite len_app; unfold len; cbn [List.length]; unfold len in Hl;
          lia).
    rewrite (IH (pre ++ c :: ops) rest fuel dex m size).
    + unfold line at 2. now rewrite Hi.
    + rewrite Hb, <- !app_assoc. reflexivity.
    + rewrite He. rewrite !len_app. unfold len. cbn [List.length].
      rewrite length_app. lia.
    + exact Hp'.
    + cbn [List.length] in Hf. rewrite length_app in Hf. lia.
Qed.

End Listing.

(** X20. A listing of plain instructions. For a method whose code item
    lies in the image at [CodeOffset] (twelve bytes, the number of code
    units in 32 bits, then the instructions) and whose instructions are
    all opcodes that the chain of [if]s does not name, each followed by as
    many bytes as the table records, [Disassemble] returns nil and prints
    the opening line, the code offset, the size, one line per instruction
    in their order (the opcode in two hexadecimal digits and the name of
    the table) and the closing line. The bytes that follow an opcode are
    skipped, not decoded. *)
Theorem Disassemble_plain_listing (d : DEX) (m : EncodedMethod)
        (pre hdr rest : list byte) (l : list (byte * list byte))
        (size : Z) :
  EncodedMethod_dex m = this_DEX ->
  CodeOffset m = len pre -> len hdr = 12 ->
  DEX_b d = pre ++ hdr ++ le32 size ++ assemble l ++ rest ->
  len (assemble l) = 2 * size -> size < 2 ^ 32 ->
  len (DEX_b d) < 2 ^ 63 ->
  Forall plain l ->
  Disassemble d m
  = Some (["*****"; fmt_d (CodeOffset m); ("Size: " ++ fmt_d size)]%string
            ++ map line (map fst l) ++ ["*****"%string],
          None).
Proof.
  intros Hd Hc Hh Hb Hl Hs Hlen Hp.
  pose proof (len_nonneg pre). pose proof (len_nonneg (assemble l)).
  pose proof (len_nonneg rest).
  assert (L4 : len (le32 size) = 4) by reflexivity.
  assert (Hlen' : len pre + 12 + 4 + len (assemble l) + len rest < 2 ^ 63).
  { rewrite Hb, !len_app in Hlen. lia. }
  assert (Hi : int (CodeOffset m) = len pre)
    by (rewrite Hc; apply int_small; lia).
  unfold Disassemble. rewrite Hd. cbn [deref]. rewrite Hi.
  assert (Hw : slice (DEX_b d) (len pre + 12) (len pre + 12 + 4)
               = Some (le32 size)).
  { rewrite slice_in by (rewrite ?Hb, ?len_app; lia).
    assert (E : Z.to_nat (len pre + 12) = List.length (pre ++ hdr))
      by (rewrite length_app; unfold len in *; lia).
    rewrite E, Hb, app_assoc, skipn_app, skipn_all, Nat.sub_diag.
    cbn [app skipn].
    replace (Z.to_nat (len pre + 12 + 4 - (len pre + 12))) with 4%nat by lia.
    reflexivity. }
  rewrite Hw.
  change (le32 size) with (le32 size ++ []).
  rewrite LittleEndian_Uint32_le32 by (unfold u32; lia).
  cbv beta iota zeta.
  replace (len pre + 12 + 4) with (len (pre ++ hdr ++ le32 size))
    by (rewrite !len_app; lia).
  rewrite (Disassemble_for_plain d l (pre ++ hdr ++ le32 size) rest).
  - reflexivity.
  - rewrite Hb, <- !app_assoc. reflexivity.
  - unfold insns_end. rewrite Hi, !len_app. lia.
  - exact Hp.
  - rewrite !len_app. unfold len in *. lia.
Qed.

Lemma Disassemble_plain_listing_witness :
  Forall plain insns_plain
  /\ Disassemble (dex_with_code (assemble insns_plain)) method_at_4
     = Some (["*****"; "4"; "Size: 2"; "01 move vA, vB"; "0e return-void";
              "*****"]%string, None).
Proof.
  assert (H : Forall plain insns_plain).
  { repeat constructor; cbn [fst snd]; eexists; split; reflexivity. }
  split; [exact H|].
  apply (Disassemble_plain_listing (dex_with_code (assemble insns_plain))
           method_at_4 (repeat x00 4) (repeat x00 12) [] insns_plain 2);
    [ reflexivity | reflexivity | reflexivity | reflexivity | reflexivity
    | reflexivity | vm_compute; reflexivity | exact H ].
Defined.

(** ** Printing *)

Lemma land_bit (a k : Z) :
  0 <= k -> (Z.land a (Z.shiftl 1 k) =? 0) = negb (Z.testbit a k).
Proof.
  intros Hk. rewrite Z.shiftl_1_l.
  destruct (Z.testbit a k) eqn:E; cbn [negb].
  - apply Z.eqb_neq. intros H.
    assert (T : Z.testbit (Z.land a (2 ^ k)) k = false)
      by (rewrite H; apply Z.bits_0).
    rewrite Z.land_spec, E, Z.pow2_bits_true in T by lia. discriminate.
  - apply Z.eqb_eq. apply Z.bits_inj'. intros n Hn.
    rewrite Z.land_spec, Z.bits_0, Z.pow2_bits_eqb by lia.
    destruct (Z.eqb_spec k n) as [->|Hne]; [now rewrite E|].
    apply andb_false_r.
Qed.

(** X21. What [AccessFlags.String] prints. The test of the first branch
    is inverted: the result is ["public "] exactly when the bit of
    [ACC_PUBLIC] is clear, whatever the other bits are. When that bit is
    set the result is one modifier, the first in the order private,
    protected, static, final, synchronized, constructor whose bit is set,
    or the empty string; no two modifiers are ever printed. The bit of
    ["constructor "] is bit 16, which [iota] also gives to [ACC_ENUM]. *)
Theorem AccessFlags_String_cases (af : Z) :
  AccessFlags_String af
  = (if Z.testbit af 0 then
       match find (fun e => Z.testbit af (fst e)) modifiers with
       | Some e => snd e
       | None => EmptyString
       end
     else "public "%string)
  /\ (AccessFlags_String af = "public "%string <-> Z.testbit af 0 = false)
  /\ ACC_ENUM = ACC_CONSTRUCTOR.
Proof.
  assert (E : AccessFlags_String af
              = (if Z.testbit af 0 then
                   match find (fun e => Z.testbit af (fst e)) modifiers with
                   | Some e => snd e
                   | None => EmptyString
                   end
                 else "public "%string)).
  { unfold AccessFlags_String, ACC_PUBLIC, ACC_PRIVATE, ACC_PROTECTED,
      ACC_STATIC, ACC_FINAL, ACC_SYNCHRONIZED, ACC_CONSTRUCTOR.
    change 0x10000 with (Z.shiftl 1 16).
    rewrite !land_bit by lia. rewrite !negb_involutive.
    cbn [modifiers find fst snd].
    destruct (Z.testbit af 0); [|reflexivity]. cbn [negb].
    destruct (Z.testbit af 1); [reflexivity|].
    destruct (Z.testbit af 2); [reflexivity|].
    destruct (Z.testbit af 3); [reflexivity|].
    destruct (Z.testbit af 4); [reflexivity|].
    destruct (Z.testbit af 5); [reflexivity|].
    destruct (Z.testbit af 16); reflexivity. }
  split; [exact E|]. split; [|reflexivity].
  rewrite E. destruct (Z.testbit af 0); [|now split].
  split; [|discriminate]. cbn [modifiers find fst snd].
  destruct (Z.testbit af 1); [discriminate|].
  destruct (Z.testbit af 2); [discriminate|].
  destruct (Z.testbit af 3); [discriminate|].
  destruct (Z.testbit af 4); [discriminate|].
  destruct (Z.testbit af 5); [discriminate|].
  destruct (Z.testbit af 16); discriminate.
Qed.

Lemma index_ge_None {A} (l : list A) (i : Z) :
  len l <= i -> index l i = None.
Proof.
  intros H. destruct (index l i) as [x|] eqn:E; [|reflexivity].
  apply index_Some_lt in E. lia.
Qed.

Section DumpFacts.

Variable d : DEX.

Lemma TypeId_String_None (t : TypeId) :
  len (Strings d) <= DescriptorIdx t -> TypeId_String d t = None.
Proof.
  intros H. unfold TypeId_String.
  destruct (TypeId_dex t); [reflexivity|]. cbn [deref].
  now apply index_ge_None.
Qed.

Lemma ProtoIdItem_String_None (p : ProtoIdItem) :
  len (Strings d) <= ShortyIdx p \/ len (Types d) <= ReturnTypeIdx p ->
  ProtoIdItem_String d p = None.
Proof.
  intros H. unfold ProtoIdItem_String.
  destruct (ProtoIdItem_dex p); [reflexivity|]. cbn [deref].
  destruct H as [H|H].
  - now rewrite index_ge_None.
  - destruct (index (Strings d) _); [|reflexivity]. cbv beta iota.
    now rewrite index_ge_None.
Qed.

Lemma ClassDefItem_String_None (c : ClassDefItem) :
  len (Strings d) <= SourceFileIdx c -> ClassDefItem_String d c = None.
Proof.
  intros H. unfold ClassDefItem_String.
  destruct (ClassDefItem_dex c); [reflexivity|]. cbn [deref].
  now rewrite index_ge_None.
Qed.

Lemma Dump_types_None (t : TypeId) (l : list TypeId) :
  In t l -> TypeId_String d t = None ->
  forall i, Dump_types d i l = None.
Proof.
  intros Hin Ht. induction l as [|t' l IH]; [contradiction|].
  intros i. cbn [Dump_types]. destruct Hin as [->|Hin].
  - now rewrite Ht.
  - destruct (TypeId_String d t'); [|reflexivity]. cbv beta iota.
    now rewrite IH.
Qed.

Lemma Dump_prototypes_None (p : ProtoIdItem) (l : list ProtoIdItem) :
  In p l -> ProtoIdItem_String d p = None -> Dump_prototypes d l = None.
Proof.
  intros Hin Hp. induction l as [|p' l IH]; [contradiction|].
  cbn [Dump_prototypes]. destruct Hin as [->|Hin].
  - now rewrite Hp.
  - destruct (ProtoIdItem_String d p'); [|reflexivity]. cbv beta iota.
    now rewrite IH.
Qed.

Lemma Dump_classes_None (c : ClassDefItem) (l : list ClassDefItem) :
  In c l -> ClassDefItem_String d c = None -> Dump_classes d l = None.
Proof.
  intros Hin Hc. induction l as [|c' l IH]; [contradiction|].
  cbn [Dump_classes]. destruct Hin as [->|Hin].
  - now rewrite Hc.
  - destruct (ClassDefItem_String d c'); [|reflexivity]. cbv beta iota.
    destruct (Dump_fields d _); [|reflexivity]. cbv beta iota.
    destruct (Dump_fields d _); [|reflexivity]. cbv beta iota.
    destruct (Dump_methods d _); [|reflexivity]. cbv beta iota.
    destruct (Dump_methods d _); [|reflexivity]. cbv beta iota.
    now rewrite IH.
Qed.

End DumpFacts.

(** X22. [Dump] checks no index. It panics, with no error to catch,
    whenever a type's descriptor index or a proto's shorty index is not an
    index of the string table, a proto's return type is not an index of the
    type table, or a class def's source-file index is not an index of the
    string table. The last is the case for every class def without a source
    file, since [NO_INDEX] is never an index of a table of fewer than 2^32
    strings. *)
Theorem Dump_index_out_of_range (d : DEX) :
  ((exists t, In t (Types d) /\ len (Strings d) <= DescriptorIdx t)
   \/ (exists p, In p (Prototypes d)
                 /\ (len (Strings d) <= ShortyIdx p
                     \/ len (Types d) <= ReturnTypeIdx p))
   \/ (exists c, In c (Classes d) /\ len (Strings d) <= SourceFileIdx c) ->
   Dump d = None)
  /\ (len (Strings d) < 2 ^ 32 ->
      (exists c, In c (Classes d) /\ SourceFileIdx c = NO_INDEX) ->
      Dump d = None).
Proof.
  assert (HC : (exists c, In c (Classes d)
                          /\ len (Strings d) <= SourceFileIdx c) ->
               Dump d = None).
  { intros (c & Hin & H). unfold Dump.
    destruct (Dump_types d 0 (Types d)); [|reflexivity]. cbv beta iota.
    destruct (Dump_prototypes d (Prototypes d)); [|reflexivity].
    cbv beta iota.
    now rewrite (Dump_classes_None d c)
      by (try apply ClassDefItem_String_None; assumption). }
  split.
  - intros [(t & Hin & H)|[(p & Hin & H)|H]]; [| |now apply HC].
    + unfold Dump.
      now rewrite (Dump_types_None d t)
        by (try apply TypeId_String_None; assumption).
    + unfold Dump.
      destruct (Dump_types d 0 (Types d)); [|reflexivity]. cbv beta iota.
      now rewrite (Dump_prototypes_None d p)
        by (try apply ProtoIdItem_String_None; assumption).
  - intros Hs (c & Hin & H). apply HC. exists c. split; [exact Hin|].
    rewrite H. unfold NO_INDEX. lia.
Qed.

Lemma Dump_index_out_of_range_witness :
  len (Strings no_source_file) < 2 ^ 32
  /\ (exists c, In c (Classes no_source_file) /\ SourceFileIdx c = NO_INDEX)
  /\ Dump no_source_file = None.
Proof.
  assert (H1 : len (Strings no_source_file) < 2 ^ 32) by (cbn; lia).
  assert (H2 : exists c, In c (Classes no_source_file)
                         /\ SourceFileIdx c = NO_INDEX)
    by (eexists; split; [left; reflexivity|reflexivity]).
  split; [exact H1|]. split; [exact H2|].
  exact (proj2 (Dump_index_out_of_range no_source_file) H1 H2).
Defined.

Section DumpTotal.

Variable d : DEX.

Lemma TypeId_String_ok (t : TypeId) :
  type_ok d t -> exists s, TypeId_String d t = Some s.
Proof.
  intros [Hd Hi]. unfold TypeId_String. rewrite Hd. cbn [deref].
  now apply index_lt_Some.
Qed.

Lemma Dump_types_ok (l : list TypeId) :
  Forall (type_ok d) l ->
  forall i, exists tl, Dump_types d i l = Some tl /\ len tl = len l.
Proof.
  induction 1 as [|t l Ht _ IH]; intros i; cbn [Dump_types].
  - now exists [].
  - destruct (TypeId_String_ok t Ht) as [s ->].
    destruct (IH (i + 1)) as (tl & -> & L).
    eexists. split; [reflexivity|]. unfold len in *. cbn [List.length]. lia.
Qed.

Lemma ProtoIdItem_String_ok (p : ProtoIdItem) :
  Forall (type_ok d) (Types d) -> proto_ok d p ->
  exists s, ProtoIdItem_String d p = Some s.
Proof.
  intros HT (Hd & Hs & Hr). unfold ProtoIdItem_String. rewrite Hd.
  cbn [deref].
  destruct (index_lt_Some (Strings d) _ Hs) as [s ->].
  destruct (index_lt_Some (Types d) _ Hr) as [t Et]. rewrite Et.
  rewrite Forall_forall in HT.
  destruct (TypeId_String_ok t (HT _ (index_In _ _ _ Et))) as [ts ->].
  eexists. reflexivity.
Qed.

Lemma Dump_prototypes_ok (l : list ProtoIdItem) :
  Forall (type_ok d) (Types d) -> Forall (proto_ok d) l ->
  exists pl, Dump_prototypes d l = Some pl /\ len pl = len l.
Proof.
  intros HT. induction 1 as [|p l Hp _ IH]; cbn [Dump_prototypes].
  - now exists [].
  - destruct (ProtoIdItem_String_ok p HT Hp) as [s ->].
    destruct IH as (pl & -> & L).
    eexists. split; [reflexivity|]. unfold len in *. cbn [List.length]. lia.
Qed.

Lemma Dump_classes_ok (l : list ClassDefItem) :
  Forall (class_ok d) l ->
  exists cl, Dump_classes d l = Some cl /\ len cl = len l.
Proof.
  induction 1 as [|c l (Hd & Hs & H1 & H2 & H3 & H4) _ IH];
    cbn [Dump_classes].
  - now exists [].
  - unfold ClassDefItem_String. rewrite Hd. cbn [deref].
    destruct (index_lt_Some (Strings d) _ Hs) as [s ->].
    rewrite H1, H2, H3, H4. cbn [Dump_fields Dump_methods].
    destruct IH as (cl & -> & L).
    eexists. split; [reflexivity|]. unfold len in *. cbn [List.length app].
    lia.
Qed.

End DumpTotal.

(** X23. [Dump] of an object that can be printed. When every back pointer
    is set and every index is an index of its table, and the classes have
    no fields and methods, as [Parse] leaves an image in range whose
    classes have no class data, [Dump] does not panic: it prints
    ["Types:"], one line for each type, ["Prototypes:"], one line for each
    proto, ["Classes:"] and one line for each class, in this order. *)
Theorem Dump_printable (d : DEX) :
  printable d ->
  exists tl pl cl : list string,
    Dump d
    = Some ("Types:"%string :: tl ++ "Prototypes:"%string :: pl
              ++ "Classes:"%string :: cl)
    /\ len tl = len (Types d)
    /\ len pl = len (Prototypes d)
    /\ len cl = len (Classes d).
Proof.
  intros (HT & HP & HC). unfold Dump.
  destruct (Dump_types_ok d (Types d) HT 0) as (tl & -> & L1).
  destruct (Dump_prototypes_ok d (Prototypes d) HT HP) as (pl & -> & L2).
  destruct (Dump_classes_ok d (Classes d) HC) as (cl & -> & L3).
  exists tl, pl, cl. repeat split; assumption.
Qed.

Lemma Dump_printable_witness :
  printable (parsed small_image ["LA;"%string; "A.java"%string])
  /\ exists tl pl cl : list string,
      Dump (parsed small_image ["LA;"%string; "A.java"%string])
      = Some ("Types:"%string :: tl ++ "Prototypes:"%string :: pl
                ++ "Classes:"%string :: cl)
      /\ len tl = 1 /\ len pl = 1 /\ len cl = 1.
Proof.
  assert (H : printable (parsed small_image ["LA;"%string; "A.java"%string])).
  { split; [|split]; repeat constructor; vm_compute; congruence. }
  split; [exact H|].
  exact (Dump_printable _ H).
Defined.
